(** * PTA wire-scanner files: a shallow embedding of [pta.py]

    The development follows the source file top to bottom:
    - the Python built-ins the parser relies on ([str.split], [str.rstrip],
      [str.lower], [int], [sorted], tuple unpacking, [datetime]), as in
      Python 3 and restricted to ASCII text;
    - the module-level helpers [transpose], [split] and [string_to_list];
    - [PTA.read_file], split into the timestamp part, the line-collection
      loop and the per-scanner loop;
    - the properties of the parser.

    Exceptions are values: every fallible operation returns a [result], and
    an exception raised inside [read_file] leaves [PTA.__init__] without an
    object, so the constructor is a function into [result Measurement].

    [float] is a built-in whose values are IEEE doubles; the parser never
    computes with them, it only stores them.  The development is therefore
    parametric in the type of floats and in the function [float(token)]. *)

From Stdlib Require Import ZArith Ascii String List Sorting.Sorted.
From stdpp Require Import gmap strings list fin_maps sorting.

Local Open Scope Z_scope.

(** ** Exceptions *)

Inductive exn : Type :=
| IndexError                                  (* list index out of range *)
| KeyError (key : string)
| ValueError_float (token : string)           (* could not convert string to float *)
| ValueError_int (token : string)             (* invalid literal for int() *)
| ValueError_not_enough (expected got : nat)  (* not enough values to unpack *)
| ValueError_too_many (expected : nat)        (* too many values to unpack *)
| ValueError_datetime (field : string)        (* field out of range *)
| OverflowError.                              (* int too large to convert to C int *)

Inductive result (A : Type) : Type :=
| Ok (a : A)
| Raise (e : exn).
Arguments Ok {A} a.
Arguments Raise {A} e.

Definition bind {A B : Type} (m : result A) (k : A → result B) : result B :=
  match m with
  | Ok a => k a
  | Raise e => Raise e
  end.

Notation "'let*' x ':=' m 'in' k" := (bind m (fun x => k))
  (at level 10, x pattern, m at level 100, k at level 200).

Definition is_ok {A : Type} (m : result A) : bool :=
  match m with Ok _ => true | Raise _ => false end.

(** [[f(x) for x in xs]]: left to right, the first exception aborts. *)
Fixpoint traverse {A B : Type} (f : A → result B) (xs : list A) : result (list B) :=
  match xs with
  | [] => Ok []
  | x :: xs' => let* y := f x in let* ys := traverse f xs' in Ok (y :: ys)
  end.

(** A [for] loop threading a state, the first exception aborts. *)
Fixpoint for_each {A S : Type} (body : S → A → result S) (xs : list A) (s : S) : result S :=
  match xs with
  | [] => Ok s
  | x :: xs' => let* s' := body s x in for_each body xs' s'
  end.

(** ** Python strings (ASCII) *)

Module Str.

(** [str.isspace] on one ASCII character: TAB..CR, FS..US and space. *)
Definition isspace (c : ascii) : bool :=
  let n := nat_of_ascii c in
  ((9 <=? n)%nat && (n <=? 13)%nat) || ((28 <=? n)%nat && (n <=? 32)%nat).

Definition isdigit (c : ascii) : bool :=
  let n := nat_of_ascii c in (48 <=? n)%nat && (n <=? 57)%nat.

Definition digit_val (c : ascii) : Z := Z.of_nat (nat_of_ascii c) - 48.

Definition lower_char (c : ascii) : ascii :=
  let n := nat_of_ascii c in
  if (65 <=? n)%nat && (n <=? 90)%nat then ascii_of_nat (n + 32) else c.

(** [s.lower()] *)
Fixpoint lower (s : string) : string :=
  match s with
  | EmptyString => EmptyString
  | String c r => String (lower_char c) (lower r)
  end.

(** [s.startswith(p)] *)
Definition startswith (s p : string) : bool := String.prefix p s.

(** [s.rstrip()] *)
Fixpoint rstrip (s : string) : string :=
  match s with
  | EmptyString => EmptyString
  | String c r =>
      match rstrip r with
      | EmptyString => if isspace c then EmptyString else String c EmptyString
      | r' => String c r'
      end
  end.

(** [s.lstrip()] *)
Fixpoint lstrip (s : string) : string :=
  match s with
  | EmptyString => EmptyString
  | String c r => if isspace c then lstrip r else s
  end.

(** [s.strip()] *)
Definition strip (s : string) : string := rstrip (lstrip s).

(** Does [s] continue the word that is being read? *)
Definition word_continues (s : string) : bool :=
  match s with
  | EmptyString => false
  | String d _ => negb (isspace d)
  end.

(** [s.split()]: the maximal runs of non-whitespace characters. *)
Fixpoint words (s : string) : list string :=
  match s with
  | EmptyString => []
  | String c r =>
      if isspace c then words r
      else match words r with
           | w :: ws =>
               if word_continues r then String c w :: ws
               else String c EmptyString :: w :: ws
           | [] => [String c EmptyString]
           end
  end.

(** [s.split(sep)] for a non-empty [sep]: [split_from sep skip s] returns
    the piece that is being read and the pieces after it; [skip] counts
    the characters of a separator occurrence that are still to be passed. *)
Fixpoint split_from (sep : string) (skip : nat) (s : string) : string * list string :=
  match s with
  | EmptyString => (EmptyString, [])
  | String c r =>
      match skip with
      | S k => split_from sep k r
      | O =>
          if String.prefix sep s
          then let '(w, ws) := split_from sep (String.length sep - 1) r in
               (EmptyString, w :: ws)
          else let '(w, ws) := split_from sep 0 r in (String c w, ws)
      end
  end.

Definition split (s sep : string) : list string :=
  let '(w, ws) := split_from sep 0 s in w :: ws.

(** [s[n:]] for [n >= 0] *)
Fixpoint drop (n : nat) (s : string) : string :=
  match n, s with
  | O, _ => s
  | S n', String _ r => drop n' r
  | S _, EmptyString => EmptyString
  end.

(** Decimal digits of a non-negative number, most significant first. *)
Fixpoint digits_fuel (fuel : nat) (n : Z) (acc : string) : string :=
  match fuel with
  | O => acc
  | S fuel' =>
      let acc' := String (ascii_of_nat (Z.to_nat (48 + n mod 10))) acc in
      if n <? 10 then acc' else digits_fuel fuel' (n / 10) acc'
  end.

Definition of_nonneg (n : Z) : string :=
  digits_fuel (S (Z.to_nat (Z.log2 n))) n EmptyString.

(** [str(n)] / ["{}".format(n)] for an integer *)
Definition of_int (n : Z) : string :=
  if n <? 0 then String "-" (of_nonneg (- n)) else of_nonneg n.

(** ["{:02.0f}".format(n)] for an integer [n]: no decimals, sign-aware
    zero padding to width 2. *)
Definition format_02_0f (n : Z) : string :=
  if n <? 0 then of_int n
  else if n <? 10 then String "0" (of_nonneg n)
  else of_nonneg n.

(** Digits with single underscores between them (the body of an integer
    literal accepted by [int()]); [prev] tells whether the previous
    character was a digit. *)
Fixpoint int_body (s : string) (prev : bool) (acc : Z) : option Z :=
  match s with
  | EmptyString => if prev then Some acc else None
  | String c r =>
      if isdigit c then int_body r true (10 * acc + digit_val c)
      else if Ascii.eqb c "_" then (if prev then int_body r false acc else None)
      else None
  end.

(** The white space that [int()] skips around an ASCII literal: TAB..CR
    and space, not FS..US. *)
Definition isspace_int (c : ascii) : bool :=
  let n := nat_of_ascii c in
  ((9 <=? n)%nat && (n <=? 13)%nat) || (n =? 32)%nat.

Fixpoint rstrip_int (s : string) : string :=
  match s with
  | EmptyString => EmptyString
  | String c r =>
      match rstrip_int r with
      | EmptyString => if isspace_int c then EmptyString else String c EmptyString
      | r' => String c r'
      end
  end.

Fixpoint lstrip_int (s : string) : string :=
  match s with
  | EmptyString => EmptyString
  | String c r => if isspace_int c then lstrip_int r else s
  end.

(** [int(s)], base 10 *)
Definition to_int (s : string) : result Z :=
  let t := rstrip_int (lstrip_int s) in
  let parsed :=
    match t with
    | String "-" r => Z.opp <$> int_body r false 0
    | String "+" r => int_body r false 0
    | _ => int_body t false 0
    end in
  match parsed with
  | Some n => Ok n
  | None => Raise (ValueError_int s)
  end.

(** Does [p] occur in [s]? *)
Fixpoint contains (s p : string) : bool :=
  String.prefix p s ||
  match s with
  | EmptyString => false
  | String _ r => contains r p
  end.

(** Do all the characters of [s] pass the test [f]? *)
Fixpoint all (f : ascii → bool) (s : string) : bool :=
  match s with
  | EmptyString => true
  | String c r => f c && all f r
  end.

(** Is [s] a decimal numeral: one or more digits and nothing else? *)
Definition is_numeral (s : string) : bool :=
  match s with
  | EmptyString => false
  | _ => all isdigit s
  end.

(** The test "is not the character [c]". *)
Definition is_not (c : ascii) (x : ascii) : bool := negb (Ascii.eqb x c).

End Str.

(** ** Sequences: indexing and tuple unpacking *)

(** [xs[i]] for [i >= 0] *)
Definition item {A : Type} (xs : list A) (i : nat) : result A :=
  match xs !! i with
  | Some x => Ok x
  | None => Raise IndexError
  end.

(** [xs[-1]] *)
Definition item_last {A : Type} (xs : list A) : result A :=
  match last xs with
  | Some x => Ok x
  | None => Raise IndexError
  end.

(** [xs[lo:hi]] for [lo, hi >= 0] *)
Definition slice {A : Type} (lo hi : nat) (xs : list A) : list A :=
  take (hi - lo) (drop lo xs).

(** The [ValueError] of [a, b, ... = xs] when [xs] has not [n] items. *)
Definition unpack_error {A : Type} (n : nat) (xs : list A) : exn :=
  if (length xs <? n)%nat then ValueError_not_enough n (length xs)
  else ValueError_too_many n.

Definition unpack2 {A : Type} (xs : list A) : result (A * A) :=
  match xs with
  | [a; b] => Ok (a, b)
  | _ => Raise (unpack_error 2 xs)
  end.

Definition unpack3 {A : Type} (xs : list A) : result (A * A * A) :=
  match xs with
  | [a; b; c] => Ok (a, b, c)
  | _ => Raise (unpack_error 3 xs)
  end.

Definition unpack6 {A : Type} (xs : list A) : result (A * A * A * A * A * A) :=
  match xs with
  | [a; b; c; d; e; f] => Ok (a, b, c, d, e, f)
  | _ => Raise (unpack_error 6 xs)
  end.

Definition unpack7 {A : Type} (xs : list A) : result (A * A * A * A * A * A * A) :=
  match xs with
  | [a; b; c; d; e; f; g] => Ok (a, b, c, d, e, f, g)
  | _ => Raise (unpack_error 7 xs)
  end.

(** [sorted(keys)] on strings: ascending in the order of the characters'
    codes. *)
Definition sorted (keys : list string) : list string :=
  merge_sort String.le keys.

(** ** [datetime(year, month, day, hour, minute, second)] *)

Record datetime : Type := Datetime {
  year : Z; month : Z; day : Z; hour : Z; minute : Z; second : Z
}.

Definition is_leap (y : Z) : bool :=
  (y mod 4 =? 0) && (negb (y mod 100 =? 0) || (y mod 400 =? 0)).

Definition days_in_month (y m : Z) : Z :=
  if m =? 2 then (if is_leap y then 29 else 28)
  else if (m =? 4) || (m =? 6) || (m =? 9) || (m =? 11) then 30
  else 31.

Definition in_range (lo x hi : Z) : bool := (lo <=? x) && (x <=? hi).

(** Does [x] fit a C [int]? *)
Definition fits_c_int (x : Z) : bool := in_range (- 2 ^ 31) x (2 ^ 31 - 1).

(** The six arguments are converted to C [int]s, which raises
    [OverflowError] for one that does not fit, before the date and then
    the time are checked. *)
Definition make_datetime (y mo d h mi s : Z) : result datetime :=
  if negb (forallb fits_c_int [y; mo; d; h; mi; s]) then Raise OverflowError
  else if negb (in_range 1 y 9999) then Raise (ValueError_datetime "year")
  else if negb (in_range 1 mo 12) then Raise (ValueError_datetime "month")
  else if negb (in_range 1 d (days_in_month y mo)) then Raise (ValueError_datetime "day")
  else if negb (in_range 0 h 23) then Raise (ValueError_datetime "hour")
  else if negb (in_range 0 mi 59) then Raise (ValueError_datetime "minute")
  else if negb (in_range 0 s 59) then Raise (ValueError_datetime "second")
  else Ok (Datetime y mo d h mi s).

(** ** Module-level helpers of [pta.py] *)

(** [transpose(array)]: the list of the tuples that [zip] builds from the
    rows of [array]; [zip] stops at the shortest row, and [zip] of no rows
    is empty. *)
Fixpoint transpose {A : Type} (array : list (list A)) : list (list A) :=
  match array with
  | [] => []
  | [row] => (λ v, [v]) <$> row
  | row :: rest => zip_with cons row (transpose rest)
  end.

(** [[i for i, item in enumerate(items) if item == token]], counting
    from [i]. *)
Fixpoint indices_from {A : Type} `{EqDecision A} (i : nat) (items : list A) (token : A)
  : list nat :=
  match items with
  | [] => []
  | item :: rest =>
      if decide (item = token) then i :: indices_from (S i) rest token
      else indices_from (S i) rest token
  end.

(** [split(items, token)] *)
Definition split {A : Type} `{EqDecision A} (items : list A) (token : A)
  : result (list (list A)) :=
  let indices := indices_from 0 items token in
  let sublists := [] in
  let* first := item items 0 in
  let* sublists :=
    if decide (first ≠ token)
    then let* i0 := item indices 0 in Ok (sublists ++ [take i0 items])
    else Ok sublists in
  let sublists :=
    sublists ++
    ((λ '(lo, hi), slice (lo + 1) hi items)
       <$> zip (take (length indices - 1) indices) (drop 1 indices)) in
  let* final := item_last items in
  if decide (final ≠ token)
  then let* il := item_last indices in Ok (sublists ++ [drop (il + 1) items])
  else Ok sublists.

(** ** The timestamp part of [PTA.read_file] *)

Definition read_timestamp (filename : string) : result (datetime * string) :=
  let* tail := item_last (Str.split filename "WireAnalysisFmt-") in
  let* (date, time) := unpack2 (Str.split tail "_") in
  let* time := item (Str.split time ".pta") 0 in
  let* ymd := traverse Str.to_int (Str.split date ".") in
  let* (year, month, day) := unpack3 ymd in
  let* hms := traverse Str.to_int (Str.split time ".") in
  let* (hour, minute, second) := unpack3 hms in
  let* timestamp := make_datetime year month day hour minute second in
  let timestamp_short :=
    Str.of_int year +:+ Str.format_02_0f month +:+ Str.format_02_0f day +:+
    Str.format_02_0f hour +:+ Str.format_02_0f minute +:+ Str.format_02_0f second in
  Ok (timestamp, Str.drop 2 timestamp_short).

(** ** The line-collection loop of [PTA.read_file] *)

(** The variables the loop updates: the dict [lines], [ws_id] and
    [self.pvloggerid]. *)
Record collect_state : Type := CollectState {
  cs_lines : gmap string (list string);
  cs_ws_id : option string;
  cs_pvloggerid : option Z
}.

Definition collect_init : collect_state := CollectState ∅ None None.

(** [lines.setdefault(ws_id, []).append(line)] *)
Definition setdefault_append (lines : gmap string (list string)) (ws_id line : string)
  : gmap string (list string) :=
  <[ws_id := default [] (lines !! ws_id) ++ [line]]> lines.

(** One iteration of [for line in file]. *)
Definition collect_step (st : collect_state) (raw_line : string) : result collect_state :=
  let line := Str.rstrip raw_line in
  if Str.startswith line "RTBT_Diag"
  then Ok (CollectState (cs_lines st) (Some line) (cs_pvloggerid st))
  else
    let lines :=
      match cs_ws_id st with
      | Some ws_id => setdefault_append (cs_lines st) ws_id line
      | None => cs_lines st
      end in
    if Str.startswith line "PVLoggerID"
    then
      let* value := item (Str.split line "=") 1 in
      let* pvloggerid := Str.to_int value in
      Ok (CollectState lines (cs_ws_id st) (Some pvloggerid))
    else Ok (CollectState lines (cs_ws_id st) (cs_pvloggerid st)).

Definition collect (file : list string) : result collect_state :=
  for_each collect_step file collect_init.

(** [lines[node_id]] *)
Definition getitem {V : Type} (d : gmap string V) (key : string) : result V :=
  match d !! key with
  | Some v => Ok v
  | None => Raise (KeyError key)
  end.

(** [sorted(list(lines))] *)
Definition sorted_keys {V : Type} (d : gmap string V) : list string :=
  sorted (elements (dom d)).

(** ** The per-scanner loop and the constructor *)

Section PTA.

(** The values of Python's [float] and the conversion [float(token)],
    [None] when it raises [ValueError]. *)
Context {float : Type} (to_float : string → option float).

Definition float_of (token : string) : result float :=
  match to_float token with
  | Some v => Ok v
  | None => Raise (ValueError_float token)
  end.

(** [string_to_list(string)] *)
Definition string_to_list (s : string) : result (list float) :=
  traverse float_of (Str.words s).

(** The dict stored under each scanner ID. *)
Record profile : Type := Profile {
  p_x : list float; p_y : list float; p_u : list float;
  p_fx : list float; p_fy : list float; p_fu : list float;
  p_fx_fit : list float; p_fy_fit : list float; p_fu_fit : list float;
  p_stats : gmap string float
}.

(** One iteration of [for line in lines_stats]. *)
Definition stats_step (stats : gmap string float) (line : string)
  : result (gmap string float) :=
  let tokens := Str.words line in
  let* first := item tokens 0 in
  let name := Str.lower first in
  let* vals := traverse float_of (drop 1 tokens) in
  let* (stat_y_fit, stat_y_rms, stat_u_fit, stat_u_rms, stat_x_fit, stat_x_rms) :=
    unpack6 vals in
  let stats := <[name +:+ "_x_rms" := stat_x_rms]> stats in
  let stats := <[name +:+ "_x_fit" := stat_x_fit]> stats in
  let stats := <[name +:+ "_y_rms" := stat_y_rms]> stats in
  let stats := <[name +:+ "_y_fit" := stat_y_fit]> stats in
  let stats := <[name +:+ "_u_rms" := stat_u_rms]> stats in
  let stats := <[name +:+ "_u_fit" := stat_u_fit]> stats in
  Ok stats.

(** The body of [for node_id in self.node_ids] after the sections have
    been bound: from the three sections to the dict stored under the ID. *)
Definition read_sections (lines_stats lines_raw lines_fit : list string)
  : result profile :=
  let lines_stats := drop 2 lines_stats in
  let lines_raw := drop 2 lines_raw in
  let lines_fit := drop 2 lines_fit in
  let* data_arr_raw := traverse string_to_list lines_raw in
  let* (pos, fy, fu, fx, x, y, u) := unpack7 (transpose data_arr_raw) in
  let* data_arr_fit := traverse string_to_list lines_fit in
  let* (pos, fy_fit, fu_fit, fx_fit, x, y, u) := unpack7 (transpose data_arr_fit) in
  let* stats := for_each stats_step lines_stats ∅ in
  Ok (Profile x y u fx fy fu fx_fit fy_fit fu_fit stats).

(** The whole body, from the lines collected for the scanner. *)
Definition read_node (node_lines : list string) : result profile :=
  let sep := "" in
  let* sections := split node_lines sep in
  let* (lines_stats, lines_raw, lines_fit) := unpack3 (take 3 sections) in
  read_sections lines_stats lines_raw lines_fit.

Definition node_step (lines : gmap string (list string))
    (self : gmap string profile) (node_id : string) : result (gmap string profile) :=
  let* node_lines := getitem lines node_id in
  let* p := read_node node_lines in
  Ok (<[node_id := p]> self).

(** The object [PTA(filename)]: the attributes and the dict itself. *)
Record PTA : Type := MkPTA {
  filename : string;
  filename_short : string;
  timestamp : datetime;
  timestamp_short : string;
  pvloggerid : option Z;
  node_ids : list string;
  profiles : gmap string profile
}.

(** [PTA.read_file], given the lines that iterating over the opened file
    yields. *)
Definition read_file (filename filename_short : string) (file : list string)
  : result PTA :=
  let* (timestamp, timestamp_short) := read_timestamp filename in
  let* st := collect file in
  let lines := cs_lines st in
  let node_ids := sorted_keys lines in
  let* self := for_each (node_step lines) node_ids ∅ in
  Ok (MkPTA filename filename_short timestamp timestamp_short
        (cs_pvloggerid st) node_ids self).

(** [PTA.__init__] *)
Definition PTA_init (filename : string) (file : list string) : result PTA :=
  let* filename_short := item_last (Str.split filename "/") in
  read_file filename filename_short file.

End PTA.

(** The exceptions of a malformed file name or file: [IndexError] and the
    [ValueError]s, that is every exception but [KeyError] and
    [OverflowError]. *)
Definition index_or_value_error (e : exn) : Prop :=
  match e with
  | KeyError _ | OverflowError => False
  | _ => True
  end.

(** ** Reading a file in the words of the specification

    The functions below describe a file without running the loop; the
    properties compare them with what the loop computes. *)

(** The test the loop applies to recognise a scanner-ID marker. *)
Definition is_marker (line : string) : bool := Str.startswith line "RTBT_Diag".

(** The test the loop applies to recognise a logger-ID line. *)
Definition is_logger_line (line : string) : bool := Str.startswith line "PVLoggerID".

(** The value the loop reads from a logger-ID line, [int(line.split("=")[1])]. *)
Definition logger_id_of (line : string) : result Z :=
  let* value := item (Str.split line "=") 1 in
  Str.to_int value.

(** The lines as the loop sees them. *)
Definition stripped (file : list string) : list string := Str.rstrip <$> file.

(** The marker lines of a file, in order. *)
Definition marker_lines (file : list string) : list string :=
  filter (λ line, is_marker line = true) (stripped file).

(** The logger-ID lines of a file, in order. *)
Definition logger_lines (file : list string) : list string :=
  filter (λ line, is_logger_line line = true) (stripped file).

(** The scanner a line at the end of [file] would belong to, when the
    scanner before [file] is [cur]: the last marker line. *)
Definition current_scanner (cur : option string) (file : list string) : option string :=
  match last (marker_lines file) with
  | Some id => Some id
  | None => cur
  end.

(** The lines that belong to scanner [id]: the lines that are not markers
    and whose nearest marker before them is [id], in the order of the file;
    [cur] is the scanner before the first line. *)
Fixpoint lines_after (id : string) (cur : option string) (file : list string)
  : list string :=
  match file with
  | [] => []
  | raw :: rest =>
      let line := Str.rstrip raw in
      if is_marker line then lines_after id (Some line) rest
      else if decide (cur = Some id) then line :: lines_after id cur rest
      else lines_after id cur rest
  end.

(** Is every marker line followed by a line that is not a marker? *)
Fixpoint every_marker_followed (file : list string) : bool :=
  match file with
  | [] => true
  | raw :: rest =>
      (if is_marker (Str.rstrip raw)
       then match rest with
            | next :: _ => negb (is_marker (Str.rstrip next))
            | [] => false
            end
       else true)
      && every_marker_followed rest
  end.

(** A dict entry after more lines have been appended to it. *)
Definition extend (old : option (list string)) (new : list string)
  : option (list string) :=
  match new with
  | [] => old
  | _ => Some (default [] old ++ new)
  end.

(** Checks used to establish facts about the short form by running the
    formatting functions over the ranges that [make_datetime] accepts. *)
Definition year_short_ok (y : Z) : bool :=
  String.eqb (Str.drop 2 (Str.of_int y)) (Str.format_02_0f (y mod 100))
  && (String.length (Str.of_int y) =? 4)%nat.

Definition two_chars_ok (n : Z) : bool :=
  (String.length (Str.format_02_0f n) =? 2)%nat.

(** ** Sequences of sections

    [join_sections token first more] is the sequence that holds the
    section [first] and then, for every section of [more], [token] and the
    section. *)
Definition join_sections {A : Type} (token : A) (first : list A) (more : list (list A))
  : list A :=
  first ++ flat_map (λ section, token :: section) more.

(** The sections of such a sequence that are in the result of [split]:
    all of them, but the first and the last only when they are not empty. *)
Definition kept_sections {A : Type} (first : list A) (more : list (list A))
  : list (list A) :=
  match first with [] => [] | _ => [first] end ++
  take (length more - 1) more ++
  match last more with
  | Some (x :: section) => [x :: section]
  | _ => []
  end.

(** The length of the shortest row; [0] for no rows. *)
Fixpoint min_width {A : Type} (rows : list (list A)) : nat :=
  match rows with
  | [] => 0
  | [row] => length row
  | row :: rest => Nat.min (length row) (min_width rest)
  end.

(** ** The files the per-scanner body accepts *)

(** Tokens that [float] converts. *)
Definition numeric_tokens {float : Type} (to_float : string → option float)
    (tokens : list string) : Prop :=
  Forall (λ token, is_Some (to_float token)) tokens.

(** The rows of a raw or fit section that the body reads without an
    exception: at least one row, only tokens that [float] converts, and
    seven tokens in the shortest row. *)
Definition rows_accepted {float : Type} (to_float : string → option float)
    (lines : list string) : Prop :=
  lines ≠ [] ∧
  Forall (λ line, numeric_tokens to_float (Str.words line)) lines ∧
  min_width (Str.words <$> lines) = 7%nat.

(** A line of the stats section that the body reads without an exception:
    a name and six tokens that [float] converts. *)
Definition stats_line_accepted {float : Type} (to_float : string → option float)
    (line : string) : Prop :=
  ∃ name values,
    Str.words line = name :: values ∧ length values = 6%nat ∧
    numeric_tokens to_float values.

(** The endings of the keys of the stats dict. *)
Definition stat_suffixes : list string :=
  ["_x_rms"; "_x_fit"; "_y_rms"; "_y_fit"; "_u_rms"; "_u_fit"].

(** [s.count(c)] for one character [c]. *)
Fixpoint count_char (c : ascii) (s : string) : nat :=
  match s with
  | EmptyString => 0
  | String x r => (if Ascii.eqb x c then 1 else 0) + count_char c r
  end.

(** ** The end of the module

    The last three lines build the object for the file named
    [WireAnalysisFmt-2023.02.27_23.57.00.pta.txt] and print the stats of
    the scanner [RTBT_Diag:WS24]; [script] returns what is printed, given the
    lines of the file. *)
Definition script {float : Type} (to_float : string → option float)
    (file : list string) : result (gmap string float) :=
  let filename := "WireAnalysisFmt-2023.02.27_23.57.00.pta.txt" in
  let* wirescan := PTA_init to_float filename file in
  let* p := getitem (profiles wirescan) "RTBT_Diag:WS24" in
  Ok (p_stats p).

(** ** Sample data

    [float(token)] on the tokens the samples use: on a signed decimal integer
    literal of magnitude at most 2^53 the conversion is exact, and [float]
    accepts every such literal that [int] accepts.  Other tokens are
    rejected here; the samples contain none that Python's [float] accepts. *)
Definition float_of_int_literal (token : string) : option Z :=
  match Str.to_int token with
  | Ok n => if Z.abs n <=? 2 ^ 53 then Some n else None
  | Raise _ => None
  end.

(** The file name used at the end of [pta.py]. *)
Definition sample_filename : string := "WireAnalysisFmt-2023.02.27_23.57.00.pta.txt".

(** A file name whose year does not fit a C [int]. *)
Definition overflow_filename : string :=
  "WireAnalysisFmt-99999999999.02.27_23.57.00.pta.txt".

(** The lines of one scanner: three sections, each with a title line and a
    rule line, each followed by a blank line. *)
Definition sample_block : list string :=
  [ "Stats"; "-----"; "Sigma 10 20 30 40 50 60"; "";
    "Raw"; "-----"; "0 1 2 3 4 5 6"; "";
    "Fit"; "-----"; "0 11 12 13 14 15 16"; "" ].

(** What [read_node] returns for [sample_block]. *)
Definition sample_profile : @profile Z :=
  Profile [14] [15] [16] [3] [1] [2] [13] [11] [12]
    (list_to_map
       [ ("sigma_y_fit", 10); ("sigma_y_rms", 20); ("sigma_u_fit", 30);
         ("sigma_u_rms", 40); ("sigma_x_fit", 50); ("sigma_x_rms", 60) ]).

(** A scanner whose fit section has more rows than its raw section. *)
Definition uneven_block : list string :=
  [ "Stats"; "-----"; "Sigma 10 20 30 40 50 60"; "";
    "Raw"; "-----"; "0 1 2 3 4 5 6"; "";
    "Fit"; "-----"; "0 11 12 13 14 15 16"; "1 21 22 23 24 25 26"; "" ].

(** A scanner whose second raw row has an eighth token. *)
Definition extra_token_block : list string :=
  [ "Stats"; "-----"; "Sigma 10 20 30 40 50 60"; "";
    "Raw"; "-----"; "0 1 2 3 4 5 6"; "7 8 9 10 11 12 13 99"; "";
    "Fit"; "-----"; "0 11 12 13 14 15 16"; "" ].

(** The same scanner without the eighth token. *)
Definition seven_token_block : list string :=
  [ "Stats"; "-----"; "Sigma 10 20 30 40 50 60"; "";
    "Raw"; "-----"; "0 1 2 3 4 5 6"; "7 8 9 10 11 12 13"; "";
    "Fit"; "-----"; "0 11 12 13 14 15 16"; "" ].

(** The lines that iterating over a file yields end in a newline. *)
Definition newline : string := String (ascii_of_nat 10) EmptyString.

Definition file_of (lines : list string) : list string :=
  (λ line, line +:+ newline) <$> lines.

(** A file with a line before the first marker, two scanners (the later
    one first in the order of the IDs) and a logger-ID line after the
    sections of the first scanner. *)
Definition sample_file : list string :=
  file_of (["Wire analysis"; "RTBT_Diag:WS24"] ++ sample_block ++
           ["PVLoggerID=12345"; "RTBT_Diag:WS20"] ++ sample_block).

(** A file whose stats line has five values. *)
Definition five_values_file : list string :=
  file_of [ "RTBT_Diag:WS20";
            "Stats"; "-----"; "Sigma 10 20 30 40 50"; "";
            "Raw"; "-----"; "0 1 2 3 4 5 6"; "";
            "Fit"; "-----"; "0 11 12 13 14 15 16"; "" ].

(** Two files with a token that is not a number, in different scanners
    and in different rows. *)
Definition bad_raw_file : list string :=
  file_of [ "RTBT_Diag:WS20";
            "Stats"; "-----"; "Sigma 10 20 30 40 50 60"; "";
            "Raw"; "-----"; "0 1 2 abc 4 5 6"; "";
            "Fit"; "-----"; "0 11 12 13 14 15 16"; "" ].

Definition bad_fit_file : list string :=
  file_of [ "RTBT_Diag:WS24";
            "Stats"; "-----"; "Sigma 10 20 30 40 50 60"; "";
            "Raw"; "-----"; "0 1 2 3 4 5 6"; "";
            "Fit"; "-----"; "9 9 9 9 9 9 9"; "0 11 abc 13 14 15 16"; "" ].

(** A file whose logger-ID line is a row of the raw section. *)
Definition logger_in_rows_file : list string :=
  file_of [ "RTBT_Diag:WS20";
            "Stats"; "-----"; "Sigma 10 20 30 40 50 60"; "";
            "Raw"; "-----"; "0 1 2 3 4 5 6"; "PVLoggerID=12345"; "";
            "Fit"; "-----"; "0 11 12 13 14 15 16"; "" ].

(** A file in which a marker is repeated and a marker has no line. *)
Definition repeated_marker_file : list string :=
  file_of [ "RTBT_Diag:WS20"; "Stats"; "-----";
            "RTBT_Diag:WS21";
            "RTBT_Diag:WS20"; "Sigma 10 20 30 40 50 60"; "" ].

(** What the constructor returns for [sample_file]. *)
Definition sample_pta : @PTA Z :=
  MkPTA sample_filename sample_filename
    (Datetime 2023 2 27 23 57 0) "230227235700" (Some 12345)
    ["RTBT_Diag:WS20"; "RTBT_Diag:WS24"]
    (list_to_map [("RTBT_Diag:WS20", sample_profile); ("RTBT_Diag:WS24", sample_profile)]).

(** The attributes of an object, for display. *)
Definition attributes {float : Type} (m : @PTA float)
  : datetime * string * option Z * list string :=
  (timestamp m, timestamp_short m, pvloggerid m, node_ids m).

(** The two scanners of [sample_file] in the other order, without the
    line before the first marker. *)
Definition swapped_file : list string :=
  file_of (["RTBT_Diag:WS20"] ++ sample_block ++
           ["RTBT_Diag:WS24"] ++ sample_block ++ ["PVLoggerID=12345"]).

(** A file with three scanners, the later ones first: the lines of
    [RTBT_Diag:WS24] have a token that is not a number, the stats line of
    [RTBT_Diag:WS21] has five values, and [RTBT_Diag:WS20] is as in
    [sample_file]. *)
Definition failing_file : list string :=
  file_of ([ "RTBT_Diag:WS24";
             "Stats"; "-----"; "Sigma 10 20 30 40 50 60"; "";
             "Raw"; "-----"; "0 1 2 abc 4 5 6"; "";
             "Fit"; "-----"; "0 11 12 13 14 15 16"; "";
             "RTBT_Diag:WS21";
             "Stats"; "-----"; "Sigma 10 20 30 40 50"; "";
             "Raw"; "-----"; "0 1 2 3 4 5 6"; "";
             "Fit"; "-----"; "0 11 12 13 14 15 16"; "";
             "RTBT_Diag:WS20" ] ++ sample_block).


(** [sample_file] without the scanner [RTBT_Diag:WS24]. *)
Definition one_scanner_file : list string :=
  file_of (["RTBT_Diag:WS20"] ++ sample_block).

(** A file in which the marker of a scanner is repeated: the stats section
    follows its first occurrence, the raw and fit sections the second. *)
Definition split_scanner_file : list string :=
  file_of [ "RTBT_Diag:WS20";
            "Stats"; "-----"; "Sigma 10 20 30 40 50 60"; "";
            "RTBT_Diag:WS20";
            "Raw"; "-----"; "0 1 2 3 4 5 6"; "";
            "Fit"; "-----"; "0 11 12 13 14 15 16"; "" ].

(** A file with two logger-ID lines: the first is a line of the stats
    section, with a name that has two equals signs and six values, the
    second comes after the sections. *)
Definition logger_stats_file : list string :=
  file_of [ "RTBT_Diag:WS20";
            "Stats"; "-----"; "Sigma 10 20 30 40 50 60";
            "PVLoggerID=7=x 1 2 3 4 5 6"; "";
            "Raw"; "-----"; "0 1 2 3 4 5 6"; "";
            "Fit"; "-----"; "0 11 12 13 14 15 16"; "";
            "PVLoggerID=12345" ].

(** ** Checks of the built-ins and helpers on concrete inputs *)

Example words_row : Str.words "  0 1.5	x  " = ["0"; "1.5"; "x"].
Proof. reflexivity. Qed.
Example split_sep : Str.split "a_b__c_" "_" = ["a"; "b"; ""; "c"; ""].
Proof. reflexivity. Qed.
Example split_pta : Str.split "23.57.00.pta.txt" ".pta" = ["23.57.00"; ".txt"].
Proof. reflexivity. Qed.
Example split_none : Str.split "" "_" = [""].
Proof. reflexivity. Qed.
Example rstrip_ex : Str.rstrip " a b
" = " a b".
Proof. reflexivity. Qed.
Example of_int_ex : (Str.of_int 2023, Str.of_int 0, Str.of_int (-15), Str.format_02_0f 2, Str.format_02_0f 57, Str.format_02_0f 0) = ("2023", "0", "-15", "02", "57", "00").
Proof. reflexivity. Qed.
Example to_int_ex : (Str.to_int " 0999 ", Str.to_int "-1_0", Str.to_int "1__0", Str.to_int "", Str.to_int "12a")
  = (Ok 999, Ok (-10), Raise (ValueError_int "1__0"), Raise (ValueError_int ""), Raise (ValueError_int "12a")).
Proof. reflexivity. Qed.
Example lower_ex : Str.lower "Sigma_X9" = "sigma_x9".
Proof. reflexivity. Qed.
Example split_docstring :
  split ["cat"; "dog"; "x"; "tree"; "bark"] "x" = Ok [["cat"; "dog"]; ["tree"; "bark"]].
Proof. reflexivity. Qed.
Example transpose_ex : transpose [[1; 2; 3]; [4; 5]; [6; 7; 8]] = [[1; 4; 6]; [2; 5; 7]].
Proof. reflexivity. Qed.
Example sorted_ex : sorted ["RTBT_Diag:WS24"; "RTBT_Diag:WS20"; "RTBT_Diag:WS21"]
  = ["RTBT_Diag:WS20"; "RTBT_Diag:WS21"; "RTBT_Diag:WS24"].
Proof. vm_compute. reflexivity. Qed.


(** * Properties *)

(** ** The exception monad *)

Lemma bind_Ok {A B : Type} (m : result A) (k : A → result B) (b : B) :
  bind m k = Ok b ↔ ∃ a, m = Ok a ∧ k a = Ok b.
Proof.
  destruct m as [a|e]; simpl; split.
  - eauto.
  - by intros (a' & [= ->] & ?).
  - done.
  - by intros (a' & ? & ?).
Qed.

Lemma bind_Raise_l {A B : Type} (m : result A) (k : A → result B) (e : exn) :
  m = Raise e → bind m k = Raise e.
Proof. by intros ->. Qed.

Lemma is_ok_Ok {A : Type} (m : result A) : is_ok m = true ↔ ∃ a, m = Ok a.
Proof. destruct m; simpl; split; eauto; try done. by intros [? ?]. Qed.

Lemma not_Ok_Raise {A : Type} (m : result A) :
  (∀ a, m ≠ Ok a) → ∃ e, m = Raise e.
Proof. destruct m as [a|e]; [intros H; by destruct (H a) | eauto]. Qed.

(** Splits a hypothesis [bind m k = Ok b] into its two steps. *)
Ltac bind_inv H :=
  let a := fresh "a" in
  let Hm := fresh "Hm" in
  apply bind_Ok in H as (a & Hm & H).

Lemma traverse_Ok {A B : Type} (f : A → result B) (xs : list A) (ys : list B) :
  traverse f xs = Ok ys ↔ Forall2 (λ x y, f x = Ok y) xs ys.
Proof.
  revert ys. induction xs as [|x xs IH]; intros ys; simpl.
  - split; [intros [= <-]; constructor | by inversion 1].
  - split.
    + intros H. bind_inv H. bind_inv H. injection H as <-.
      constructor; [done | by apply IH].
    + intros H. apply Forall2_cons_inv_l in H as (y & ys' & Hx & Hxs & ->).
      rewrite Hx. simpl. apply IH in Hxs. by rewrite Hxs.
Qed.

Lemma traverse_Ok_elem {A B : Type} (f : A → result B) (xs : list A) (ys : list B) (x : A) :
  traverse f xs = Ok ys → x ∈ xs → ∃ y, f x = Ok y ∧ y ∈ ys.
Proof.
  rewrite traverse_Ok. intros HF Hx.
  destruct (proj1 (list_elem_of_lookup _ _) Hx) as [i Hi].
  destruct (Forall2_lookup_l _ _ _ _ _ HF Hi) as (y & Hy & Hfy).
  exists y. split; [done | by eapply list_elem_of_lookup_2].
Qed.

Lemma traverse_length {A B : Type} (f : A → result B) (xs : list A) (ys : list B) :
  traverse f xs = Ok ys → length ys = length xs.
Proof. rewrite traverse_Ok. intros H. symmetry. by eapply Forall2_length. Qed.

Lemma for_each_app {A S : Type} (body : S → A → result S) (xs ys : list A) (s : S) :
  for_each body (xs ++ ys) s = bind (for_each body xs s) (for_each body ys).
Proof.
  revert s. induction xs as [|x xs IH]; intros s; simpl; [done|].
  destruct (body s x); simpl; [apply IH | done].
Qed.

Lemma for_each_Ok_elem {A S : Type} (body : S → A → result S) (xs : list A) (s s' : S) (x : A) :
  for_each body xs s = Ok s' → x ∈ xs → ∃ s1 s2, body s1 x = Ok s2.
Proof.
  revert s. induction xs as [|x' xs IH]; intros s H Hx; [by inversion Hx|].
  simpl in H. bind_inv H.
  apply elem_of_cons in Hx as [->|Hx]; [eauto | by eapply IH].
Qed.

Lemma bind_Raise {A B : Type} (m : result A) (k : A → result B) (e : exn) :
  bind m k = Raise e ↔ m = Raise e ∨ ∃ a, m = Ok a ∧ k a = Raise e.
Proof.
  destruct m as [a|e']; simpl; split.
  - intros H. right. eauto.
  - by intros [?|(a' & [= <-] & H)].
  - intros [= <-]. by left.
  - by intros [[= <-]|(a' & ? & _)].
Qed.

Lemma traverse_Raise {A B : Type} (f : A → result B) (xs : list A) (e : exn) :
  traverse f xs = Raise e → ∃ x, x ∈ xs ∧ f x = Raise e.
Proof.
  induction xs as [|x xs IH]; [done|]. simpl.
  intros [H|(y & Hy & H)]%bind_Raise.
  - exists x. split; [by left | done].
  - apply bind_Raise in H as [H|(ys & _ & H)]; [|done].
    destruct (IH H) as (x' & Hin & Hx'). exists x'. split; [by right | done].
Qed.

Lemma for_each_Raise {A S : Type} (body : S → A → result S) (xs : list A) (s : S) (e : exn) :
  for_each body xs s = Raise e → ∃ s' x, x ∈ xs ∧ body s' x = Raise e.
Proof.
  revert s. induction xs as [|x xs IH]; intros s; [done|]. simpl.
  intros [H|(s1 & _ & H)]%bind_Raise.
  - exists s, x. split; [by left | done].
  - destruct (IH _ H) as (s' & x' & Hin & Hx'). exists s', x'. split; [by right | done].
Qed.

(** ** Strings *)

Module StrFacts.

(** [String.append] is not unfolded by [simpl]; these are its equations. *)
Lemma app_nil_l (s : string) : "" +:+ s = s.
Proof. reflexivity. Qed.

Lemma app_cons (c : ascii) (a b : string) : String c a +:+ b = String c (a +:+ b).
Proof. reflexivity. Qed.

Lemma length_app (a b : string) :
  String.length (a +:+ b) = (String.length a + String.length b)%nat.
Proof.
  induction a as [|c a IH]; [done|].
  rewrite app_cons. simpl. by rewrite IH.
Qed.

Lemma app_assoc (a b c : string) : (a +:+ b) +:+ c = a +:+ (b +:+ c).
Proof.
  induction a as [|x a IH]; [done|].
  rewrite !app_cons. by rewrite IH.
Qed.

Lemma app_empty_r (a : string) : a +:+ "" = a.
Proof.
  induction a as [|x a IH]; [done|].
  rewrite app_cons. by rewrite IH.
Qed.

Lemma length_zero (a : string) : String.length a = 0%nat → a = "".
Proof. by destruct a. Qed.

(** Two strings that end in suffixes of one length are equal only when
    the fronts and the suffixes are. *)
Lemma app_inj_suffix (a b s1 s2 : string) :
  String.length s1 = String.length s2 →
  a +:+ s1 = b +:+ s2 → a = b ∧ s1 = s2.
Proof.
  revert b. induction a as [|x a IH]; intros [|y b] Hlen Heq.
  - done.
  - apply (f_equal String.length) in Heq.
    rewrite app_nil_l, app_cons in Heq. simpl in Heq.
    rewrite length_app in Heq. lia.
  - apply (f_equal String.length) in Heq.
    rewrite app_nil_l, app_cons in Heq. simpl in Heq.
    rewrite length_app in Heq. lia.
  - rewrite !app_cons in Heq. injection Heq as -> Heq.
    destruct (IH b Hlen Heq) as [-> ->]. done.
Qed.

Lemma prefix_app (p s : string) : String.prefix p (p +:+ s) = true.
Proof.
  induction p as [|c p IH]; [by destruct s|].
  rewrite app_cons. simpl.
  destruct (ascii_dec c c); [done | congruence].
Qed.

Lemma prefix_inv (p s : string) :
  String.prefix p s = true → ∃ r, s = p +:+ r.
Proof.
  revert s. induction p as [|c p IH]; intros s H.
  - by exists s.
  - destruct s as [|d s]; [done|]. simpl in H.
    destruct (ascii_dec c d) as [->|]; [|done].
    destruct (IH s H) as [r ->]. by exists r.
Qed.

Lemma prefix_cons (c : ascii) (p : string) (d : ascii) (s : string) :
  String.prefix (String c p) (String d s)
  = if ascii_dec c d then String.prefix p s else false.
Proof. reflexivity. Qed.

Lemma prefix_head (p s : string) (c d : ascii) :
  c ≠ d → String.prefix (String c p) (String d s) = false.
Proof. intros Hne. simpl. by destruct (ascii_dec c d). Qed.

End StrFacts.

(** ** [split]: the section splitter *)

Section Split.
Context {A : Type} `{EqDecision A}.
Implicit Types (items : list A) (token : A).

Lemma indices_from_absent i items token :
  token ∉ items → indices_from i items token = [].
Proof.
  revert i. induction items as [|x items IH]; intros i Hnot; simpl; [done|].
  apply not_elem_of_cons in Hnot as [Hne Hnot].
  destruct (decide (x = token)); [congruence | by apply IH].
Qed.

Lemma indices_from_replicate i n token :
  indices_from i (replicate n token) token = seq i n.
Proof.
  revert i. induction n as [|n IH]; intros i; simpl; [done|].
  destruct (decide (token = token)); [by rewrite IH | done].
Qed.

Lemma slices_between_adjacent items i n :
  (λ '(lo, hi), slice (lo + 1) hi items) <$> zip (seq i n) (seq (S i) n)
  = replicate n [].
Proof.
  revert i. induction n as [|n IH]; intros i; simpl; [done|].
  rewrite IH. f_equal. unfold slice.
  replace (S i - (i + 1))%nat with 0%nat by lia. done.
Qed.

Lemma split_absent items token :
  token ∉ items → split items token = Raise IndexError.
Proof.
  intros Hnot. unfold split. rewrite (indices_from_absent _ _ _ Hnot).
  destruct items as [|x items]; [done|]. simpl.
  apply not_elem_of_cons in Hnot as [Hne _].
  destruct (decide (x ≠ token)); [done | by destruct n].
Qed.

Lemma split_all_token n token :
  split (replicate (S n) token) token = Ok (replicate n []).
Proof.
  unfold split. rewrite indices_from_replicate.
  change (item (replicate (S n) token) 0) with (Ok (A:=A) token).
  cbn [bind]. destruct (decide (token ≠ token)) as [Hne|_]; [done|].
  cbn [bind]. rewrite length_seq.
  replace (S n - 1)%nat with n by lia.
  replace (take n (seq 0 (S n))) with (seq 0 n)
    by (by rewrite seq_S, take_app_length' by (by rewrite length_seq)).
  cbn [seq drop]. rewrite slices_between_adjacent.
  unfold item_last. rewrite (replicate_S_end n token), last_snoc.
  cbn [bind]. destruct (decide (token ≠ token)); done.
Qed.

(** C2, as the code has it.  Splitting a sequence that does not contain
    the token raises [IndexError], whether the sequence is empty or not;
    splitting a sequence of [n + 1] tokens gives [n] sections, all empty:
    no section when the sequence is one token. *)
Theorem split_laws token :
  (∀ items, token ∉ items → split items token = Raise IndexError) ∧
  (∀ n, split (replicate (S n) token) token = Ok (replicate n [])).
Proof. split; [intros items; apply split_absent | intros n; apply split_all_token]. Qed.

End Split.

(** ** Tuple unpacking and [transpose] *)

Lemma unpack3_Ok {A : Type} (xs : list A) (a b c : A) :
  unpack3 xs = Ok (a, b, c) ↔ xs = [a; b; c].
Proof.
  destruct xs as [|? [|? [|? [|? ?]]]]; simpl; split; intros H;
    try discriminate; by simplify_eq.
Qed.

Lemma unpack6_Ok {A : Type} (xs : list A) (a b c d e f : A) :
  unpack6 xs = Ok (a, b, c, d, e, f) ↔ xs = [a; b; c; d; e; f].
Proof.
  destruct xs as [|? [|? [|? [|? [|? [|? [|? ?]]]]]]]; simpl; split; intros H;
    try discriminate; by simplify_eq.
Qed.

Lemma unpack7_Ok {A : Type} (xs : list A) (a b c d e f g : A) :
  unpack7 xs = Ok (a, b, c, d, e, f, g) ↔ xs = [a; b; c; d; e; f; g].
Proof.
  destruct xs as [|? [|? [|? [|? [|? [|? [|? [|? ?]]]]]]]]; simpl; split; intros H;
    try discriminate; by simplify_eq.
Qed.

Lemma unpack3_short {A : Type} (xs : list A) :
  (length xs < 3)%nat → unpack3 (take 3 xs) = Raise (ValueError_not_enough 3 (length xs)).
Proof. destruct xs as [|? [|? [|? ?]]]; simpl; intros; (done || lia). Qed.

(** Column [k] of the transposed array holds, row by row, item [k] of the
    rows, and every row has an item [k]. *)
Lemma transpose_lookup {A : Type} (rows : list (list A)) (k : nat) (col : list A) :
  transpose rows !! k = Some col →
  length col = length rows ∧
  ∀ i row, rows !! i = Some row → is_Some (row !! k) ∧ col !! i = row !! k.
Proof.
  revert col. induction rows as [|row rest IH]; intros col Hcol; [done|].
  destruct rest as [|row' rest].
  - simpl in Hcol. rewrite list_lookup_fmap in Hcol.
    destruct (row !! k) as [v|] eqn:Hv; simplify_eq/=.
    split; [done|]. intros [|i] r Hr; simplify_eq/=. by rewrite Hv.
  - change (transpose (row :: row' :: rest))
      with (zip_with cons row (transpose (row' :: rest))) in Hcol.
    apply lookup_zip_with_Some in Hcol as (v & col' & -> & Hv & Hcol').
    destruct (IH _ Hcol') as [Hlen Hrows].
    split; [simpl in *; lia|].
    intros [|i] r Hr.
    + simplify_eq/=. by rewrite Hv.
    + apply (Hrows i r Hr).
Qed.

(** With seven columns, every row starts with seven items, and they are
    the items of the columns at the row's index. *)
Lemma transpose_seven {A : Type} (rows : list (list A)) (c0 c1 c2 c3 c4 c5 c6 : list A) :
  transpose rows = [c0; c1; c2; c3; c4; c5; c6] →
  Forall (λ col, length col = length rows) [c0; c1; c2; c3; c4; c5; c6] ∧
  ∀ i row, rows !! i = Some row →
    ∃ v0 v1 v2 v3 v4 v5 v6 more,
      row = v0 :: v1 :: v2 :: v3 :: v4 :: v5 :: v6 :: more ∧
      c0 !! i = Some v0 ∧ c1 !! i = Some v1 ∧ c2 !! i = Some v2 ∧
      c3 !! i = Some v3 ∧ c4 !! i = Some v4 ∧ c5 !! i = Some v5 ∧
      c6 !! i = Some v6.
Proof.
  intros H.
  assert (Hk : ∀ k col, [c0; c1; c2; c3; c4; c5; c6] !! k = Some col →
    length col = length rows ∧
    ∀ i row, rows !! i = Some row → is_Some (row !! k) ∧ col !! i = row !! k).
  { intros k col Hcol. apply transpose_lookup. by rewrite H. }
  split.
  - apply Forall_lookup. intros k col Hcol. by destruct (Hk k col Hcol).
  - intros i row Hrow.
    destruct (proj2 (Hk 0%nat c0 eq_refl) i row Hrow) as [[v0 E0] L0].
    destruct (proj2 (Hk 1%nat c1 eq_refl) i row Hrow) as [[v1 E1] L1].
    destruct (proj2 (Hk 2%nat c2 eq_refl) i row Hrow) as [[v2 E2] L2].
    destruct (proj2 (Hk 3%nat c3 eq_refl) i row Hrow) as [[v3 E3] L3].
    destruct (proj2 (Hk 4%nat c4 eq_refl) i row Hrow) as [[v4 E4] L4].
    destruct (proj2 (Hk 5%nat c5 eq_refl) i row Hrow) as [[v5 E5] L5].
    destruct (proj2 (Hk 6%nat c6 eq_refl) i row Hrow) as [[v6 E6] L6].
    destruct row as [|a0 [|a1 [|a2 [|a3 [|a4 [|a5 [|a6 more]]]]]]];
      simplify_eq/=.
    by exists v0, v1, v2, v3, v4, v5, v6, more.
Qed.

(** ** The per-scanner body *)

Section Node.
Context {float : Type} (to_float : string → option float).

Lemma float_of_Ok token v : float_of to_float token = Ok v ↔ to_float token = Some v.
Proof. unfold float_of. destruct (to_float token); split; congruence. Qed.

Lemma float_of_Raise token e :
  float_of to_float token = Raise e ↔ to_float token = None ∧ e = ValueError_float token.
Proof.
  unfold float_of. destruct (to_float token); split; try done.
  - by intros [? ?].
  - by intros [= <-].
  - by intros [_ ->].
Qed.

(** What a successful [read_sections] has gone through. *)
Lemma read_sections_Ok lines_stats lines_raw lines_fit p :
  read_sections to_float lines_stats lines_raw lines_fit = Ok p ↔
  ∃ data_arr_raw pos fy fu fx x y u data_arr_fit pos' fy_fit fu_fit fx_fit x' y' u' stats,
    traverse (string_to_list to_float) (drop 2 lines_raw) = Ok data_arr_raw ∧
    transpose data_arr_raw = [pos; fy; fu; fx; x; y; u] ∧
    traverse (string_to_list to_float) (drop 2 lines_fit) = Ok data_arr_fit ∧
    transpose data_arr_fit = [pos'; fy_fit; fu_fit; fx_fit; x'; y'; u'] ∧
    for_each (stats_step to_float) (drop 2 lines_stats) ∅ = Ok stats ∧
    p = Profile x' y' u' fx fy fu fx_fit fy_fit fu_fit stats.
Proof.
  unfold read_sections. split.
  - intros H. apply bind_Ok in H as (data_arr_raw & Hraw & H).
    apply bind_Ok in H as (cols & Hcols & H).
    destruct cols as [[[[[[pos fy] fu] fx] x] y] u].
    apply unpack7_Ok in Hcols.
    apply bind_Ok in H as (data_arr_fit & Hfit & H).
    apply bind_Ok in H as (cols' & Hcols' & H).
    destruct cols' as [[[[[[pos' fy_fit] fu_fit] fx_fit] x'] y'] u'].
    apply unpack7_Ok in Hcols'.
    apply bind_Ok in H as (stats & Hstats & H).
    injection H as <-.
    by exists data_arr_raw, pos, fy, fu, fx, x, y, u,
      data_arr_fit, pos', fy_fit, fu_fit, fx_fit, x', y', u', stats.
  - intros (data_arr_raw & pos & fy & fu & fx & x & y & u &
            data_arr_fit & pos' & fy_fit & fu_fit & fx_fit & x' & y' & u' & stats &
            Hraw & Hcols & Hfit & Hcols' & Hstats & ->).
    rewrite Hraw. cbn [bind]. rewrite Hcols. cbn [bind unpack7].
    rewrite Hfit. cbn [bind]. rewrite Hcols'. cbn [bind unpack7].
    by rewrite Hstats.
Qed.

Lemma read_node_Ok node_lines p :
  read_node to_float node_lines = Ok p ↔
  ∃ sections lines_stats lines_raw lines_fit,
    split node_lines "" = Ok sections ∧
    take 3 sections = [lines_stats; lines_raw; lines_fit] ∧
    read_sections to_float lines_stats lines_raw lines_fit = Ok p.
Proof.
  unfold read_node. split.
  - intros H. apply bind_Ok in H as (sections & Hsplit & H).
    apply bind_Ok in H as ([[s1 s2] s3] & Hthree & H).
    apply unpack3_Ok in Hthree. by exists sections, s1, s2, s3.
  - intros (sections & s1 & s2 & s3 & Hsplit & Hthree & H).
    rewrite Hsplit. cbn [bind]. by rewrite Hthree.
Qed.

(** C6. Splitting a scanner's lines on the empty string raises
    [IndexError] when no line is empty; when the split gives fewer than
    three sections, binding them to the three names raises [ValueError]
    (not enough values to unpack); when it gives three or more, the first
    three are the stats, raw and fit lines and the sections after the third
    play no part. *)
Theorem read_node_sections (node_lines : list string) :
  ("" ∉ node_lines → read_node to_float node_lines = Raise IndexError) ∧
  (∀ sections,
      split node_lines "" = Ok sections → (length sections < 3)%nat →
      read_node to_float node_lines
      = Raise (ValueError_not_enough 3 (length sections))) ∧
  (∀ lines_stats lines_raw lines_fit extra,
      split node_lines "" = Ok (lines_stats :: lines_raw :: lines_fit :: extra) →
      read_node to_float node_lines
      = read_sections to_float lines_stats lines_raw lines_fit).
Proof.
  unfold read_node. split; [|split].
  - intros Hnot. by rewrite (split_absent _ _ Hnot).
  - intros sections -> Hlen. cbn [bind]. by rewrite unpack3_short.
  - by intros s1 s2 s3 extra ->.
Qed.

(** *** The statistics lines *)

(** Keys built from different names, or from one name and different
    suffixes of six characters, differ. *)
Lemma stat_key_inj (n n' suf suf' : string) :
  String.length suf = 6%nat → String.length suf' = 6%nat →
  n +:+ suf = n' +:+ suf' → n = n' ∧ suf = suf'.
Proof. intros H H'. apply StrFacts.app_inj_suffix. congruence. Qed.

Lemma stats_step_Ok stats line stats' :
  stats_step to_float stats line = Ok stats' ↔
  ∃ NAME t1 t2 t3 t4 t5 t6 v1 v2 v3 v4 v5 v6,
    Str.words line = [NAME; t1; t2; t3; t4; t5; t6] ∧
    to_float t1 = Some v1 ∧ to_float t2 = Some v2 ∧ to_float t3 = Some v3 ∧
    to_float t4 = Some v4 ∧ to_float t5 = Some v5 ∧ to_float t6 = Some v6 ∧
    stats' =
      <[Str.lower NAME +:+ "_u_fit" := v3]>
      (<[Str.lower NAME +:+ "_u_rms" := v4]>
      (<[Str.lower NAME +:+ "_y_fit" := v1]>
      (<[Str.lower NAME +:+ "_y_rms" := v2]>
      (<[Str.lower NAME +:+ "_x_fit" := v5]>
      (<[Str.lower NAME +:+ "_x_rms" := v6]> stats))))).
Proof.
  unfold stats_step. split.
  - intros H. apply bind_Ok in H as (NAME & Hname & H).
    unfold item in Hname.
    destruct (Str.words line) as [|NAME' ts] eqn:Hw; [done|].
    simpl in Hname. injection Hname as ->.
    apply bind_Ok in H as (vals & Hvals & H).
    apply bind_Ok in H as ([[[[[v1 v2] v3] v4] v5] v6] & Hsix & H).
    apply unpack6_Ok in Hsix. subst vals. injection H as <-.
    simpl in Hvals. rewrite drop_0 in Hvals. apply traverse_Ok in Hvals.
    repeat
      (match type of Hvals with
       | Forall2 _ _ (_ :: _) =>
           let t := fresh "t" in
           apply Forall2_cons_inv_r in Hvals as (t & ? & ?%float_of_Ok & Hvals & ->)
       end).
    apply Forall2_nil_inv_r in Hvals as ->.
    by eexists NAME, _, _, _, _, _, _, v1, v2, v3, v4, v5, v6.
  - intros (NAME & t1 & t2 & t3 & t4 & t5 & t6 & v1 & v2 & v3 & v4 & v5 & v6 &
            -> & H1 & H2 & H3 & H4 & H5 & H6 & ->).
    simpl. unfold float_of. by rewrite H1, H2, H3, H4, H5, H6.
Qed.

(** A statistics line leaves the keys of other names alone. *)
Lemma stats_step_other_name stats line stats' first n suf :
  stats_step to_float stats line = Ok stats' →
  head (Str.words line) = Some first → Str.lower first ≠ n →
  String.length suf = 6%nat →
  stats' !! (n +:+ suf) = stats !! (n +:+ suf).
Proof.
  intros H Hfirst Hne Hsuf.
  apply stats_step_Ok in H
    as (NAME & t1 & t2 & t3 & t4 & t5 & t6 & v1 & v2 & v3 & v4 & v5 & v6 &
        Hw & _ & _ & _ & _ & _ & _ & ->).
  rewrite Hw in Hfirst. injection Hfirst as ->.
  rewrite !lookup_insert_ne; [done|..];
    intros Heq; by apply stat_key_inj in Heq as [? ?].
Qed.

Lemma for_each_stats_other_names lines stats stats' n suf :
  for_each (stats_step to_float) lines stats = Ok stats' →
  (∀ l first, l ∈ lines → head (Str.words l) = Some first → Str.lower first ≠ n) →
  String.length suf = 6%nat →
  stats' !! (n +:+ suf) = stats !! (n +:+ suf).
Proof.
  revert stats. induction lines as [|l lines IH]; intros stats H Hnames Hsuf.
  - by injection H as <-.
  - simpl in H. apply bind_Ok in H as (stats1 & Hstep & H).
    rewrite (IH stats1 H); [|set_solver|done].
    pose proof Hstep as Hstep'.
    apply stats_step_Ok in Hstep'
      as (NAME & t1 & t2 & t3 & t4 & t5 & t6 & v1 & v2 & v3 & v4 & v5 & v6 &
          Hw & _).
    eapply stats_step_other_name; [done| |eapply Hnames|done].
    + by rewrite Hw.
    + by left.
    + by rewrite Hw.
Qed.

(** C5. A statistics line whose tokens are a name and six floats stores
    the six values under the lower-cased name, by position: y_fit, y_rms,
    u_fit, u_rms, x_fit, x_rms; the other keys keep their values.  In the
    dict of the profile the values are those of the line, unless a later
    line of the section has the same lower-cased name. *)
Theorem stats_line_stored
    (line NAME t1 t2 t3 t4 t5 t6 : string) (v1 v2 v3 v4 v5 v6 : float) :
  Str.words line = [NAME; t1; t2; t3; t4; t5; t6] →
  to_float t1 = Some v1 → to_float t2 = Some v2 → to_float t3 = Some v3 →
  to_float t4 = Some v4 → to_float t5 = Some v5 → to_float t6 = Some v6 →
  let stored (stats : gmap string float) :=
    stats !! (Str.lower NAME +:+ "_y_fit") = Some v1 ∧
    stats !! (Str.lower NAME +:+ "_y_rms") = Some v2 ∧
    stats !! (Str.lower NAME +:+ "_u_fit") = Some v3 ∧
    stats !! (Str.lower NAME +:+ "_u_rms") = Some v4 ∧
    stats !! (Str.lower NAME +:+ "_x_fit") = Some v5 ∧
    stats !! (Str.lower NAME +:+ "_x_rms") = Some v6 in
  (∀ stats, ∃ stats',
      stats_step to_float stats line = Ok stats' ∧ stored stats' ∧
      ∀ key, (∀ suf, String.length suf = 6%nat → key ≠ Str.lower NAME +:+ suf) →
             stats' !! key = stats !! key) ∧
  (∀ lines_stats lines_raw lines_fit p before after,
      read_sections to_float lines_stats lines_raw lines_fit = Ok p →
      drop 2 lines_stats = before ++ line :: after →
      (∀ l first, l ∈ after → head (Str.words l) = Some first →
                  Str.lower first ≠ Str.lower NAME) →
      stored (p_stats p)).
Proof.
  intros Hw H1 H2 H3 H4 H5 H6 stored.
  assert (Hstep : ∀ stats, ∃ stats',
      stats_step to_float stats line = Ok stats' ∧ stored stats' ∧
      ∀ key, (∀ suf, String.length suf = 6%nat → key ≠ Str.lower NAME +:+ suf) →
             stats' !! key = stats !! key).
  { intros stats. eexists. split; [|split].
    - apply stats_step_Ok.
      by eexists NAME, t1, t2, t3, t4, t5, t6, v1, v2, v3, v4, v5, v6.
    - unfold stored.
      repeat split;
        repeat (first
          [ by rewrite lookup_insert_eq
          | rewrite lookup_insert_ne;
            [|intros Heq; by apply stat_key_inj in Heq as [_ ?]] ]).
    - intros key Hkey. rewrite !lookup_insert_ne; [done|..];
        intros Heq; by refine (Hkey _ _ (eq_sym Heq)). }
  split; [done|].
  intros lines_stats lines_raw lines_fit p before after Hp Hsec Hlater.
  apply read_sections_Ok in Hp
    as (? & ? & ? & ? & ? & ? & ? & ? & ? & ? & ? & ? & ? & ? & ? & ? & stats &
        _ & _ & _ & _ & Hstats & ->).
  simpl. rewrite Hsec, for_each_app in Hstats.
  apply bind_Ok in Hstats as (s1 & _ & Hstats). simpl in Hstats.
  apply bind_Ok in Hstats as (s2 & Hline & Hafter).
  destruct (Hstep s1) as (s2' & Hline' & Hstored & _).
  rewrite Hline in Hline'. injection Hline' as <-.
  unfold stored in *.
  rewrite !(for_each_stats_other_names after s2 stats (Str.lower NAME)); done.
Qed.

(** *** The columns *)

Lemma traverse_rows lines rows i line :
  traverse (string_to_list to_float) lines = Ok rows →
  lines !! i = Some line →
  ∃ row, string_to_list to_float line = Ok row ∧ rows !! i = Some row.
Proof.
  rewrite traverse_Ok. intros HF Hi.
  destruct (Forall2_lookup_l _ _ _ _ _ HF Hi) as (row & Hrow & Hline). eauto.
Qed.

(** C1, as the code has it.  In the profile of a scanner the arrays [fx],
    [fy], [fu] come from the rows of the raw section and have its number
    of rows; the arrays [x], [y], [u] come from the rows of the fit section
    (items 4, 5 and 6 of each row, counting from 0), like [fx_fit],
    [fy_fit], [fu_fit] (items 3, 1 and 2), and have the number of rows of
    the fit section. *)
Theorem read_node_columns (node_lines : list string) (p : profile) :
  read_node to_float node_lines = Ok p →
  ∃ lines_stats lines_raw lines_fit extra,
    split node_lines "" = Ok (lines_stats :: lines_raw :: lines_fit :: extra) ∧
    Forall (λ col, length col = length (drop 2 lines_raw))
      [p_fx p; p_fy p; p_fu p] ∧
    Forall (λ col, length col = length (drop 2 lines_fit))
      [p_x p; p_y p; p_u p; p_fx_fit p; p_fy_fit p; p_fu_fit p] ∧
    (∀ i line, drop 2 lines_raw !! i = Some line →
       ∃ pos fy fu fx x y u more,
         string_to_list to_float line
         = Ok (pos :: fy :: fu :: fx :: x :: y :: u :: more) ∧
         p_fy p !! i = Some fy ∧ p_fu p !! i = Some fu ∧ p_fx p !! i = Some fx) ∧
    (∀ i line, drop 2 lines_fit !! i = Some line →
       ∃ pos fy_fit fu_fit fx_fit x y u more,
         string_to_list to_float line
         = Ok (pos :: fy_fit :: fu_fit :: fx_fit :: x :: y :: u :: more) ∧
         p_fy_fit p !! i = Some fy_fit ∧ p_fu_fit p !! i = Some fu_fit ∧
         p_fx_fit p !! i = Some fx_fit ∧
         p_x p !! i = Some x ∧ p_y p !! i = Some y ∧ p_u p !! i = Some u).
Proof.
  intros H. apply read_node_Ok in H as (sections & s1 & s2 & s3 & Hsplit & Hthree & H).
  destruct sections as [|a1 [|a2 [|a3 extra]]]; simplify_eq/=.
  exists s1, s2, s3, extra. split; [done|].
  apply read_sections_Ok in H
    as (raw & pos & fy & fu & fx & x & y & u &
        fit & pos' & fy_fit & fu_fit & fx_fit & x' & y' & u' & stats &
        Hraw & Hcols & Hfit & Hcols' & _ & ->).
  apply transpose_seven in Hcols as [Hlen Hrows].
  apply transpose_seven in Hcols' as [Hlen' Hrows'].
  rewrite <- (traverse_length _ _ _ Hraw), <- (traverse_length _ _ _ Hfit).
  simpl. repeat split.
  - rewrite !Forall_cons in Hlen. rewrite !Forall_cons. tauto.
  - rewrite !Forall_cons in Hlen'. rewrite !Forall_cons. tauto.
  - intros i line Hline.
    destruct (traverse_rows _ _ _ _ Hraw Hline) as (row & Hrow & Hi).
    destruct (Hrows i row Hi)
      as (v0 & v1 & v2 & v3 & v4 & v5 & v6 & more & -> & ? & ? & ? & ? & ? & ? & ?).
    by exists v0, v1, v2, v3, v4, v5, v6, more.
  - intros i line Hline.
    destruct (traverse_rows _ _ _ _ Hfit Hline) as (row & Hrow & Hi).
    destruct (Hrows' i row Hi)
      as (v0 & v1 & v2 & v3 & v4 & v5 & v6 & more & -> & ? & ? & ? & ? & ? & ? & ?).
    by exists v0, v1, v2, v3, v4, v5, v6, more.
Qed.

(** *** Rows that a successful parse has accepted *)

Lemma string_to_list_Ok_tokens line row :
  string_to_list to_float line = Ok row →
  Forall (λ token, is_Some (to_float token)) (Str.words line).
Proof.
  unfold string_to_list. rewrite traverse_Ok. intros HF.
  apply Forall_lookup. intros i token Hi.
  destruct (Forall2_lookup_l _ _ _ _ _ HF Hi) as (v & _ & Hv).
  apply float_of_Ok in Hv. by exists v.
Qed.

(** The first token that [float] rejects decides the exception of a row. *)
Lemma string_to_list_Raise line e :
  string_to_list to_float line = Raise e →
  ∃ before token after,
    Str.words line = before ++ token :: after ∧
    Forall (λ t, is_Some (to_float t)) before ∧
    to_float token = None ∧ e = ValueError_float token.
Proof.
  unfold string_to_list. induction (Str.words line) as [|t ts IH]; [done|].
  simpl. destruct (float_of to_float t) as [v|e'] eqn:Ht; simpl.
  - destruct (traverse (float_of to_float) ts) as [vs|e'']; [done|].
    simpl. intros [= <-].
    destruct (IH eq_refl) as (before & token & after & -> & Hb & Hn & He).
    exists (t :: before), token, after. repeat split; try done.
    constructor; [|done]. apply float_of_Ok in Ht. by exists v.
  - intros [= <-]. apply float_of_Raise in Ht as [Hn ->].
    by exists [], t, ts.
Qed.

Lemma read_node_Ok_lines node_lines p sections :
  read_node to_float node_lines = Ok p →
  split node_lines "" = Ok sections →
  (∀ lines_stats line,
      sections !! 0%nat = Some lines_stats → line ∈ drop 2 lines_stats →
      ∃ NAME values,
        Str.words line = NAME :: values ∧ length values = 6%nat ∧
        Forall (λ token, is_Some (to_float token)) values) ∧
  (∀ k lines line,
      k = 1%nat ∨ k = 2%nat → sections !! k = Some lines → line ∈ drop 2 lines →
      Forall (λ token, is_Some (to_float token)) (Str.words line)).
Proof.
  intros H Hsplit.
  apply read_node_Ok in H as (sections' & s1 & s2 & s3 & Hsplit' & Hthree & H).
  rewrite Hsplit in Hsplit'. injection Hsplit' as <-.
  destruct sections as [|a1 [|a2 [|a3 extra]]]; simplify_eq/=.
  apply read_sections_Ok in H
    as (raw & ? & ? & ? & ? & ? & ? & ? & fit & ? & ? & ? & ? & ? & ? & ? & stats &
        Hraw & _ & Hfit & _ & Hstats & _).
  split.
  - intros lines_stats line [= <-] Hline.
    destruct (for_each_Ok_elem _ _ _ _ _ Hstats Hline) as (st1 & st2 & Hstep).
    apply stats_step_Ok in Hstep
      as (NAME & t1 & t2 & t3 & t4 & t5 & t6 & v1 & v2 & v3 & v4 & v5 & v6 &
          Hw & F1 & F2 & F3 & F4 & F5 & F6 & _).
    exists NAME, [t1; t2; t3; t4; t5; t6]. split; [done|]. split; [done|].
    repeat (constructor; [by eexists|]). constructor.
  - intros k lines line [-> | ->] [= <-] Hline.
    + destruct (traverse_Ok_elem _ _ _ _ Hraw Hline) as (row & Hrow & _).
      by eapply string_to_list_Ok_tokens.
    + destruct (traverse_Ok_elem _ _ _ _ Hfit Hline) as (row & Hrow & _).
      by eapply string_to_list_Ok_tokens.
Qed.

End Node.

(** ** The line-collection loop *)

Section Collect.
Implicit Types (file : list string) (st : collect_state) (id line raw : string).

Lemma marker_lines_cons raw file :
  marker_lines (raw :: file)
  = if is_marker (Str.rstrip raw) then Str.rstrip raw :: marker_lines file
    else marker_lines file.
Proof.
  unfold marker_lines, stripped. rewrite fmap_cons, filter_cons.
  destruct (is_marker (Str.rstrip raw)); by case_decide.
Qed.

Lemma logger_lines_cons raw file :
  logger_lines (raw :: file)
  = if is_logger_line (Str.rstrip raw) then Str.rstrip raw :: logger_lines file
    else logger_lines file.
Proof.
  unfold logger_lines, stripped. rewrite fmap_cons, filter_cons.
  destruct (is_logger_line (Str.rstrip raw)); by case_decide.
Qed.

(** A line cannot be a marker and a logger-ID line. *)
Lemma logger_line_not_marker line :
  is_logger_line line = true → is_marker line = false.
Proof.
  unfold is_logger_line, is_marker, Str.startswith.
  destruct line as [|c line]; [done|].
  rewrite (StrFacts.prefix_cons "P" "VLoggerID"), (StrFacts.prefix_cons "R" "TBT_Diag").
  destruct (ascii_dec "P" c) as [<-|]; [|done]. intros _.
  by destruct (ascii_dec "R" "P").
Qed.

Lemma current_scanner_cons cur raw file :
  current_scanner cur (raw :: file)
  = current_scanner
      (if is_marker (Str.rstrip raw) then Some (Str.rstrip raw) else cur) file.
Proof.
  unfold current_scanner. rewrite marker_lines_cons.
  destruct (is_marker (Str.rstrip raw)); [|done].
  rewrite last_cons. by destruct (last (marker_lines file)).
Qed.

(** The two ways an iteration can go. *)
Lemma collect_step_marker st raw :
  is_marker (Str.rstrip raw) = true →
  collect_step st raw
  = Ok (CollectState (cs_lines st) (Some (Str.rstrip raw)) (cs_pvloggerid st)).
Proof. unfold collect_step, is_marker. by intros ->. Qed.

Lemma collect_step_line st raw st' :
  is_marker (Str.rstrip raw) = false →
  collect_step st raw = Ok st' →
  cs_ws_id st' = cs_ws_id st ∧
  cs_lines st' =
    match cs_ws_id st with
    | Some ws_id => setdefault_append (cs_lines st) ws_id (Str.rstrip raw)
    | None => cs_lines st
    end ∧
  if is_logger_line (Str.rstrip raw)
  then ∃ n, logger_id_of (Str.rstrip raw) = Ok n ∧ cs_pvloggerid st' = Some n
  else cs_pvloggerid st' = cs_pvloggerid st.
Proof.
  unfold collect_step, is_marker, is_logger_line, logger_id_of.
  intros ->. destruct (Str.startswith (Str.rstrip raw) "PVLoggerID").
  - intros H. apply bind_Ok in H as (value & Hvalue & H).
    apply bind_Ok in H as (n & Hn & H). injection H as <-. simpl.
    repeat split. exists n. by rewrite Hvalue.
  - by intros [= <-].
Qed.

Lemma setdefault_append_lookup (lines : gmap string (list string)) ws_id line id :
  setdefault_append lines ws_id line !! id
  = if decide (ws_id = id) then Some (default [] (lines !! id) ++ [line])
    else lines !! id.
Proof.
  unfold setdefault_append. rewrite lookup_insert.
  case_decide; by subst.
Qed.

Lemma extend_snoc old line new :
  extend (Some (default [] old ++ [line])) new = extend old (line :: new).
Proof. destruct new; simpl; [done|]. by rewrite <- app_assoc. Qed.

(** What the loop has computed when it ends, from any state. *)
Lemma for_each_collect file st0 st :
  for_each collect_step file st0 = Ok st →
  cs_ws_id st = current_scanner (cs_ws_id st0) file ∧
  (∀ id, cs_lines st !! id
         = extend (cs_lines st0 !! id) (lines_after id (cs_ws_id st0) file)) ∧
  match last (logger_lines file) with
  | Some line => ∃ n, logger_id_of line = Ok n ∧ cs_pvloggerid st = Some n
  | None => cs_pvloggerid st = cs_pvloggerid st0
  end.
Proof.
  revert st0. induction file as [|raw file IH]; intros st0 H.
  - by injection H as <-.
  - simpl in H. apply bind_Ok in H as (st1 & Hstep & H).
    destruct (IH st1 H) as (Hid & Hlines & Hpv). clear IH H.
    rewrite current_scanner_cons, logger_lines_cons. simpl.
    destruct (is_marker (Str.rstrip raw)) eqn:Hm.
    + rewrite collect_step_marker in Hstep by done. injection Hstep as <-.
      simpl in *. split; [done|]. split; [done|].
      destruct (is_logger_line (Str.rstrip raw)) eqn:Hl.
      { apply logger_line_not_marker in Hl. congruence. }
      done.
    + destruct (collect_step_line _ _ _ Hm Hstep) as (Hid1 & Hlines1 & Hpv1).
      rewrite Hid1 in Hid, Hlines. split; [done|]. split.
      * intros id. rewrite Hlines, Hlines1.
        destruct (cs_ws_id st0) as [w|]; [|by case_decide].
        rewrite setdefault_append_lookup.
        destruct (decide (w = id)) as [->|Hne].
        -- rewrite decide_True by done. apply extend_snoc.
        -- rewrite decide_False by congruence. done.
      * destruct (is_logger_line (Str.rstrip raw)); [|by rewrite <- Hpv1].
        rewrite last_cons. destruct (last (logger_lines file)); [done|].
        destruct Hpv1 as (n & Hn & Hpv1). exists n. by rewrite Hpv.
Qed.

Lemma collect_Ok file st :
  collect file = Ok st →
  cs_ws_id st = current_scanner None file ∧
  (∀ id, cs_lines st !! id = extend None (lines_after id None file)) ∧
  match last (logger_lines file) with
  | Some line => ∃ n, logger_id_of line = Ok n ∧ cs_pvloggerid st = Some n
  | None => cs_pvloggerid st = None
  end.
Proof.
  intros H. destruct (for_each_collect _ _ _ H) as (Hid & Hlines & Hpv).
  split; [done|]. split; [|done].
  intros id. rewrite Hlines. simpl. by rewrite lookup_empty.
Qed.

End Collect.

(** ** The lines of a scanner *)

Section Blocks.
Implicit Types (file : list string) (id line raw : string) (cur : option string).

Lemma lines_after_not_marker id cur file line :
  line ∈ lines_after id cur file → is_marker line = false.
Proof.
  revert cur. induction file as [|raw file IH]; intros cur; simpl; [by inversion 1|].
  destruct (is_marker (Str.rstrip raw)) eqn:Hm; [apply IH|].
  case_decide; [|apply IH].
  intros [->|Hin]%elem_of_cons; [done | by eapply IH].
Qed.

Lemma lines_after_app id cur file1 file2 :
  lines_after id cur (file1 ++ file2)
  = lines_after id cur file1 ++ lines_after id (current_scanner cur file1) file2.
Proof.
  revert cur. induction file1 as [|raw file1 IH]; intros cur; [done|].
  rewrite current_scanner_cons. simpl.
  destruct (is_marker (Str.rstrip raw)); [apply IH|].
  case_decide; [|apply IH]. by rewrite IH.
Qed.

(** A scanner has lines exactly when one of its markers is directly
    followed by a line that is not a marker (or it is the scanner before
    the file and the file starts with such a line). *)
Lemma lines_after_nonempty id cur file :
  lines_after id cur file ≠ [] ↔
  (cur = Some id ∧ ∃ next rest, file = next :: rest ∧ is_marker (Str.rstrip next) = false) ∨
  (∃ before raw next rest,
      file = before ++ raw :: next :: rest ∧ Str.rstrip raw = id ∧
      is_marker id = true ∧ is_marker (Str.rstrip next) = false).
Proof.
  split.
  - revert cur. induction file as [|raw file IH]; intros cur; simpl; [done|].
    destruct (is_marker (Str.rstrip raw)) eqn:Hm.
    + intros H. right. destruct (IH _ H) as [[[= Hid] (next & rest & -> & Hn)]|
        (before & raw' & next & rest & -> & Hid & Hmid & Hn)].
      * exists [], raw, next, rest. by rewrite Hid in *.
      * by exists (raw :: before), raw', next, rest.
    + case_decide as Hcur.
      * intros _. left. split; [done|]. by exists raw, file.
      * intros H. right. destruct (IH _ H) as [[? _]|
          (before & raw' & next & rest & -> & Hid & Hmid & Hn)]; [done|].
        by exists (raw :: before), raw', next, rest.
  - intros [[-> (next & rest & -> & Hn)]|
      (before & raw & next & rest & -> & Hid & Hmid & Hn)].
    + simpl. rewrite Hn. by rewrite decide_True.
    + rewrite lines_after_app. simpl. rewrite Hid, Hmid, Hn.
      rewrite decide_True by done. by destruct (lines_after id cur before).
Qed.

(** A line that is not a marker belongs to the scanner of the last marker
    before it. *)
Lemma lines_after_elem id before raw rest :
  is_marker (Str.rstrip raw) = false →
  current_scanner None before = Some id →
  Str.rstrip raw ∈ lines_after id None (before ++ raw :: rest).
Proof.
  intros Hm Hcur. rewrite lines_after_app, Hcur. simpl. rewrite Hm.
  rewrite decide_True by done. apply elem_of_app. right. by left.
Qed.

Lemma elem_of_marker_lines id file :
  id ∈ marker_lines file ↔
  is_marker id = true ∧ ∃ before raw rest, file = before ++ raw :: rest ∧ Str.rstrip raw = id.
Proof.
  unfold marker_lines, stripped. rewrite list_elem_of_filter, list_elem_of_fmap.
  split.
  - intros [Hm (raw & -> & Hraw)]. split; [done|].
    apply list_elem_of_split in Hraw as (before & rest & ->). by exists before, raw, rest.
  - intros [Hm (before & raw & rest & -> & <-)]. split; [done|].
    exists raw. split; [done|]. apply elem_of_app. right. by left.
Qed.

(** When every marker is followed by a line that is not one, every marker
    has lines. *)
Lemma lines_after_of_marker id cur file :
  every_marker_followed file = true →
  id ∈ marker_lines file → lines_after id cur file ≠ [].
Proof.
  revert cur. induction file as [|raw file IH]; intros cur Hf Hid.
  - by inversion Hid.
  - simpl in Hf. apply andb_true_iff in Hf as [Hraw Hf].
    rewrite marker_lines_cons in Hid. simpl.
    destruct (is_marker (Str.rstrip raw)) eqn:Hm.
    + apply elem_of_cons in Hid as [->|Hid]; [|by apply IH].
      destruct file as [|next rest]; [done|].
      apply negb_true_iff in Hraw. simpl. rewrite Hraw.
      by rewrite decide_True.
    + case_decide; [done | by apply IH].
Qed.

Lemma lines_after_marker id file :
  lines_after id None file ≠ [] → id ∈ marker_lines file.
Proof.
  intros [[[=] _]|(before & raw & next & rest & -> & Hid & Hm & _)]%lines_after_nonempty.
  apply elem_of_marker_lines. split; [done|]. by exists before, raw, (next :: rest).
Qed.

Lemma extend_None_Some new block :
  extend None new = Some block ↔ new = block ∧ block ≠ [].
Proof.
  destruct new as [|l new]; simpl; split.
  - done.
  - by intros [<- ?].
  - by intros [= <-].
  - by intros [-> _].
Qed.

End Blocks.

(** ** The constructor *)

Lemma sorted_Permutation (keys : list string) : sorted keys ≡ₚ keys.
Proof. apply merge_sort_Permutation. Qed.

Lemma sorted_StronglySorted (keys : list string) : StronglySorted String.le (sorted keys).
Proof. apply (StronglySorted_merge_sort String.le). Qed.

Lemma elem_of_sorted_keys {V : Type} (d : gmap string V) (key : string) :
  key ∈ sorted_keys d ↔ is_Some (d !! key).
Proof.
  unfold sorted_keys. rewrite sorted_Permutation, elem_of_elements. apply elem_of_dom.
Qed.

Lemma NoDup_sorted_keys {V : Type} (d : gmap string V) : NoDup (sorted_keys d).
Proof. unfold sorted_keys. rewrite sorted_Permutation. apply NoDup_elements. Qed.

(** ** The exceptions the constructor can raise *)

Lemma item_Raise {A : Type} (xs : list A) (i : nat) (e : exn) :
  item xs i = Raise e → e = IndexError.
Proof. unfold item. destruct (xs !! i); congruence. Qed.

Lemma item_last_Raise {A : Type} (xs : list A) (e : exn) :
  item_last xs = Raise e → e = IndexError.
Proof. unfold item_last. destruct (last xs); congruence. Qed.

Lemma unpack_error_kind {A : Type} (n : nat) (xs : list A) :
  index_or_value_error (unpack_error n xs).
Proof. unfold unpack_error. by destruct (length xs <? n)%nat. Qed.

Lemma unpack2_Raise {A : Type} (xs : list A) (e : exn) :
  unpack2 xs = Raise e → index_or_value_error e.
Proof.
  destruct xs as [|? [|? [|? ?]]]; simpl; intros [= <-]; apply unpack_error_kind.
Qed.

Lemma unpack3_Raise {A : Type} (xs : list A) (e : exn) :
  unpack3 xs = Raise e → index_or_value_error e.
Proof.
  destruct xs as [|? [|? [|? [|? ?]]]]; simpl; intros [= <-]; apply unpack_error_kind.
Qed.

Lemma unpack6_Raise {A : Type} (xs : list A) (e : exn) :
  unpack6 xs = Raise e → index_or_value_error e.
Proof.
  destruct xs as [|? [|? [|? [|? [|? [|? [|? ?]]]]]]]; simpl; intros [= <-];
    apply unpack_error_kind.
Qed.

Lemma unpack7_Raise {A : Type} (xs : list A) (e : exn) :
  unpack7 xs = Raise e → index_or_value_error e.
Proof.
  destruct xs as [|? [|? [|? [|? [|? [|? [|? [|? ?]]]]]]]]; simpl; intros [= <-];
    apply unpack_error_kind.
Qed.

Lemma to_int_Raise (s : string) (e : exn) :
  Str.to_int s = Raise e → e = ValueError_int s.
Proof. unfold Str.to_int. repeat case_match; congruence. Qed.

Lemma make_datetime_Raise (y mo d h mi sec : Z) (e : exn) :
  make_datetime y mo d h mi sec = Raise e →
  index_or_value_error e ∨ e = OverflowError.
Proof.
  unfold make_datetime. repeat case_match; intros [= <-]; (by left) || (by right).
Qed.

(** Splits a hypothesis [... = Raise e] of a chain of steps into the step
    that raised. *)
Ltac raise_inv :=
  repeat match goal with
    | H : bind _ _ = Raise _ |- _ => apply bind_Raise in H as [H|(? & ? & H)]
    | H : (let '(_, _) := ?a in _) = Raise _ |- _ => destruct a
    | H : item _ _ = Raise _ |- _ => apply item_Raise in H as ->
    | H : item_last _ = Raise _ |- _ => apply item_last_Raise in H as ->
    | H : Str.to_int _ = Raise _ |- _ => apply to_int_Raise in H as ->
    | H : traverse _ _ = Raise _ |- _ => apply traverse_Raise in H as (? & _ & H)
    | H : for_each _ _ _ = Raise _ |- _ => apply for_each_Raise in H as (? & ? & _ & H)
    | H : unpack2 _ = Raise _ |- _ => by apply unpack2_Raise in H
    | H : unpack3 _ = Raise _ |- _ => by apply unpack3_Raise in H
    | H : unpack6 _ = Raise _ |- _ => by apply unpack6_Raise in H
    | H : unpack7 _ = Raise _ |- _ => by apply unpack7_Raise in H
    end.

(** The timestamp part raises an [IndexError], a [ValueError], or the
    [OverflowError] of [datetime]. *)
Lemma read_timestamp_Raise (fn : string) (e : exn) :
  read_timestamp fn = Raise e → index_or_value_error e ∨ e = OverflowError.
Proof.
  unfold read_timestamp. intros H.
  repeat match goal with
    | H : bind _ _ = Raise _ |- _ => apply bind_Raise in H as [H|(? & ? & H)]
    | H : (let '(_, _) := ?a in _) = Raise _ |- _ => destruct a
    | H : item _ _ = Raise _ |- _ => apply item_Raise in H as ->
    | H : item_last _ = Raise _ |- _ => apply item_last_Raise in H as ->
    | H : Str.to_int _ = Raise _ |- _ => apply to_int_Raise in H as ->
    | H : traverse _ _ = Raise _ |- _ => apply traverse_Raise in H as (? & _ & H)
    | H : unpack2 _ = Raise _ |- _ => apply unpack2_Raise in H
    | H : unpack3 _ = Raise _ |- _ => apply unpack3_Raise in H
    | H : make_datetime _ _ _ _ _ _ = Raise _ |- _ => apply make_datetime_Raise in H
    end; try done; by left.
Qed.

Lemma collect_Raise (file : list string) (e : exn) :
  collect file = Raise e → index_or_value_error e.
Proof.
  unfold collect. intros H. raise_inv. unfold collect_step in H.
  repeat case_match; try done; raise_inv; done.
Qed.

Section Kind.
Context {float : Type} (to_float : string → option float).

Lemma float_of_Raise_kind token e :
  float_of to_float token = Raise e → index_or_value_error e.
Proof. intros [_ ->]%float_of_Raise. done. Qed.

Lemma split_Raise (items : list string) (token : string) (e : exn) :
  split items token = Raise e → e = IndexError.
Proof.
  unfold split. intros H.
  repeat (raise_inv; try done; repeat case_match; try done).
Qed.

Lemma read_node_Raise node_lines e :
  read_node to_float node_lines = Raise e → index_or_value_error e.
Proof.
  unfold read_node, read_sections, stats_step, string_to_list. intros H.
  raise_inv; try done.
  - by apply split_Raise in H as ->.
  - by apply float_of_Raise_kind in H.
  - by apply float_of_Raise_kind in H.
  - by apply float_of_Raise_kind in H.
Qed.

(** The constructor raises an [IndexError] or a [ValueError], or the
    [OverflowError] of the timestamp of the file name. *)
Lemma PTA_init_Raise_kind fn file e :
  PTA_init to_float fn file = Raise e →
  index_or_value_error e ∨
  (e = OverflowError ∧ read_timestamp fn = Raise OverflowError).
Proof.
  unfold PTA_init, read_file. intros H.
  apply bind_Raise in H as [H|(short & _ & H)];
    [left; by apply item_last_Raise in H as ->|].
  apply bind_Raise in H as [H|([ts ts_short] & _ & H)].
  { destruct (read_timestamp_Raise _ _ H) as [?| ->]; [by left | by right]. }
  left.
  apply bind_Raise in H as [H|(st & _ & H)]; [by apply collect_Raise in H|].
  apply bind_Raise in H as [H|(self & _ & H)]; [|done].
  apply for_each_Raise in H as (self & id & Hid & H).
  apply elem_of_sorted_keys in Hid as [node_lines Hid].
  unfold node_step, getitem in H. rewrite Hid in H. simpl in H.
  apply bind_Raise in H as [H|(p & _ & H)]; [|done].
  by apply read_node_Raise in H.
Qed.
End Kind.

Section File.
Context {float : Type} (to_float : string → option float).
Implicit Types (file : list string) (m : @PTA float) (id : string).

(** What the per-scanner loop has stored when it ends. *)
Lemma for_each_node_step lines ids (self0 self : gmap string (@profile float)) :
  for_each (node_step to_float lines) ids self0 = Ok self →
  (∀ id, id ∈ ids →
     ∃ node_lines p, lines !! id = Some node_lines ∧
       read_node to_float node_lines = Ok p ∧ self !! id = Some p) ∧
  (∀ id, id ∉ ids → self !! id = self0 !! id).
Proof.
  revert self0. induction ids as [|k ids IH]; intros self0 H.
  - injection H as <-. split; [by inversion 1 | done].
  - simpl in H. apply bind_Ok in H as (self1 & Hstep & H).
    destruct (IH _ H) as [Hin Hout]. clear IH H.
    unfold node_step, getitem in Hstep.
    destruct (lines !! k) as [node_lines|] eqn:Hk; [|done].
    simpl in Hstep. apply bind_Ok in Hstep as (p & Hp & Hstep).
    injection Hstep as <-.
    split.
    + intros id Hid. destruct (decide (id ∈ ids)) as [?|Hnot]; [by apply Hin|].
      apply elem_of_cons in Hid as [->|?]; [|done].
      exists node_lines, p. rewrite (Hout _ Hnot), lookup_insert_eq. done.
    + intros id [Hne Hnot]%not_elem_of_cons.
      by rewrite (Hout _ Hnot), lookup_insert_ne.
Qed.

(** What a successful construction has gone through. *)
Lemma PTA_init_Ok fn file m :
  PTA_init to_float fn file = Ok m ↔
  ∃ short ts ts_short st self,
    item_last (Str.split fn "/") = Ok short ∧
    read_timestamp fn = Ok (ts, ts_short) ∧
    collect file = Ok st ∧
    for_each (node_step to_float (cs_lines st)) (sorted_keys (cs_lines st)) ∅ = Ok self ∧
    m = MkPTA fn short ts ts_short (cs_pvloggerid st) (sorted_keys (cs_lines st)) self.
Proof.
  unfold PTA_init, read_file. split.
  - intros H. apply bind_Ok in H as (short & Hshort & H).
    apply bind_Ok in H as ([ts ts_short] & Hts & H).
    apply bind_Ok in H as (st & Hst & H).
    apply bind_Ok in H as (self & Hself & H). injection H as <-.
    by exists short, ts, ts_short, st, self.
  - intros (short & ts & ts_short & st & self & -> & -> & -> & Hself & ->).
    simpl. by rewrite Hself.
Qed.

(** After a successful construction the dict holds, for every scanner
    that has lines, the result of reading exactly these lines, and
    nothing else. *)
Lemma PTA_init_profiles fn file m :
  PTA_init to_float fn file = Ok m →
  ∃ st, collect file = Ok st ∧
    pvloggerid m = cs_pvloggerid st ∧
    node_ids m = sorted_keys (cs_lines st) ∧
    (∀ id node_lines, cs_lines st !! id = Some node_lines →
       ∃ p, read_node to_float node_lines = Ok p ∧ profiles m !! id = Some p) ∧
    (∀ id, cs_lines st !! id = None → profiles m !! id = None).
Proof.
  intros H. apply PTA_init_Ok in H
    as (short & ts & ts_short & st & self & _ & _ & Hst & Hself & ->).
  exists st. simpl. repeat split; try done.
  - intros id node_lines Hid.
    destruct (proj1 (for_each_node_step _ _ _ _ Hself) id)
      as (node_lines' & p & Hl & Hp & Hs).
    { apply elem_of_sorted_keys. by exists node_lines. }
    exists p. by simplify_eq.
  - intros id Hid.
    rewrite (proj2 (for_each_node_step _ _ _ _ Hself) id); [done|].
    rewrite elem_of_sorted_keys, Hid. by intros [? ?].
Qed.

(** A construction that does not return an object raises an [IndexError]
    or a [ValueError], or the [OverflowError] of the timestamp of the file
    name. *)
Lemma PTA_init_Raise fn file :
  (∀ m, PTA_init to_float fn file ≠ Ok m) →
  ∃ e, PTA_init to_float fn file = Raise e ∧
       (index_or_value_error e ∨
        (e = OverflowError ∧ read_timestamp fn = Raise OverflowError)).
Proof.
  intros H. destruct (not_Ok_Raise _ H) as [e He].
  exists e. split; [done | by eapply PTA_init_Raise_kind].
Qed.

(** The lines the loop has collected for a scanner, once it has ended. *)
Lemma collect_lines file st id :
  collect file = Ok st →
  cs_lines st !! id = extend None (lines_after id None file).
Proof. intros H. by destruct (collect_Ok _ _ H) as (_ & Hl & _). Qed.

Lemma collect_lines_Some file st id node_lines :
  collect file = Ok st →
  cs_lines st !! id = Some node_lines ↔
  node_lines = lines_after id None file ∧ node_lines ≠ [].
Proof.
  intros H. rewrite (collect_lines _ _ _ H), extend_None_Some.
  split; intros [Heq Hne]; by subst.
Qed.

(** A construction that succeeds has read every scanner that has lines. *)
Lemma PTA_init_reads fn file m id :
  PTA_init to_float fn file = Ok m →
  lines_after id None file ≠ [] →
  ∃ p, read_node to_float (lines_after id None file) = Ok p ∧
       profiles m !! id = Some p.
Proof.
  intros Hm Hne.
  destruct (PTA_init_profiles _ _ _ Hm) as (st & Hst & _ & _ & Hin & _).
  apply Hin. by apply (collect_lines_Some _ _ _ _ Hst).
Qed.

Lemma split_Ok_nonempty (node_lines : list string) sections :
  split node_lines "" = Ok sections → node_lines ≠ [].
Proof. by intros H ->. Qed.

(** C3. When the lines of a scanner split into sections and a line of the
    stats section (after its two header lines) has not exactly six tokens
    after the name, or a row of the raw section (after its two header
    lines) has a token that [float] rejects, the construction raises an
    exception and returns no object, whatever the file name; the exception
    is an [IndexError] or a [ValueError], but for a file name whose
    timestamp has a field that does not fit a C [int]: reading the
    timestamp, which comes first, then raises [OverflowError]. *)
Theorem malformed_line_aborts fn file id sections :
  split (lines_after id None file) "" = Ok sections →
  (∃ lines_stats line,
      sections !! 0%nat = Some lines_stats ∧ line ∈ drop 2 lines_stats ∧
      length (drop 1 (Str.words line)) ≠ 6%nat) ∨
  (∃ lines_raw line token,
      sections !! 1%nat = Some lines_raw ∧ line ∈ drop 2 lines_raw ∧
      token ∈ Str.words line ∧ to_float token = None) →
  ∃ e, PTA_init to_float fn file = Raise e ∧
       (index_or_value_error e ∨
        (e = OverflowError ∧ read_timestamp fn = Raise OverflowError)).
Proof.
  intros Hsplit Hbad. apply PTA_init_Raise. intros m Hm.
  destruct (PTA_init_reads _ _ _ id Hm) as (p & Hp & _).
  { by eapply split_Ok_nonempty. }
  destruct (read_node_Ok_lines _ _ _ _ Hp Hsplit) as [Hstats Hrows].
  destruct Hbad as [(lines_stats & line & Hsec & Hline & Hlen)|
                    (lines_raw & line & token & Hsec & Hline & Htok & Hnone)].
  - destruct (Hstats _ _ Hsec Hline) as (NAME & values & Hw & Hsix & _).
    rewrite Hw in Hlen. simpl in Hlen. by rewrite drop_0 in Hlen.
  - pose proof (Hrows 1%nat _ _ (or_introl eq_refl) Hsec Hline) as HF.
    rewrite Forall_forall in HF. destruct (HF _ Htok) as [v Hv]. congruence.
Qed.

Lemma traverse_float_Raise tokens token :
  token ∈ tokens → to_float token = None →
  ∃ before bad after,
    tokens = before ++ bad :: after ∧
    Forall (λ t, is_Some (to_float t)) before ∧ to_float bad = None ∧
    traverse (float_of to_float) tokens = Raise (ValueError_float bad).
Proof.
  induction tokens as [|t tokens IH]; intros Hin Hnone; [by inversion Hin|].
  destruct (to_float t) as [v|] eqn:Ht.
  - apply elem_of_cons in Hin as [->|Hin]; [congruence|].
    destruct (IH Hin Hnone) as (before & bad & after & -> & Hb & Hbad & Hr).
    exists (t :: before), bad, after. repeat split; try done.
    + constructor; [by exists v | done].
    + simpl. unfold float_of at 1. rewrite Ht. simpl. by rewrite Hr.
  - exists [], t, tokens. repeat split; try done.
    simpl. unfold float_of at 1. by rewrite Ht.
Qed.

(** C7, as the code has it.  A token that [float] rejects, in a row of
    the raw or fit section or among the values of a stats line, makes the
    construction raise, whatever the file name: an [IndexError] or a
    [ValueError], but for a file name whose timestamp has a field that does
    not fit a C [int], where reading the timestamp, which comes first,
    raises [OverflowError]; converting the line raises the [ValueError] of
    [float] for the first token of the line that [float] rejects, and the
    exception carries this token only. *)
Theorem non_numeric_token_aborts fn file id sections (k : nat) lines line token :
  split (lines_after id None file) "" = Ok sections →
  sections !! k = Some lines → line ∈ drop 2 lines →
  (k = 0%nat ∧ token ∈ drop 1 (Str.words line)) ∨
  ((k = 1%nat ∨ k = 2%nat) ∧ token ∈ Str.words line) →
  to_float token = None →
  (∃ e, PTA_init to_float fn file = Raise e ∧
        (index_or_value_error e ∨
         (e = OverflowError ∧ read_timestamp fn = Raise OverflowError))) ∧
  ∃ before bad after,
    (if decide (k = 0%nat) then drop 1 (Str.words line) else Str.words line)
    = before ++ bad :: after ∧
    Forall (λ t, is_Some (to_float t)) before ∧ to_float bad = None ∧
    if decide (k = 0%nat)
    then ∀ stats, stats_step to_float stats line = Raise (ValueError_float bad)
    else string_to_list to_float line = Raise (ValueError_float bad).
Proof.
  intros Hsplit Hsec Hline Htok Hnone. split.
  - apply PTA_init_Raise. intros m Hm.
    destruct (PTA_init_reads _ _ _ id Hm) as (p & Hp & _).
    { by eapply split_Ok_nonempty. }
    destruct (read_node_Ok_lines _ _ _ _ Hp Hsplit) as [Hstats Hrows].
    destruct Htok as [[-> Htok]|[Hk Htok]].
    + destruct (Hstats _ _ Hsec Hline) as (NAME & values & Hw & _ & HF).
      rewrite Hw in Htok. simpl in Htok. rewrite drop_0 in Htok.
      rewrite Forall_forall in HF. destruct (HF _ Htok) as [v Hv]. congruence.
    + pose proof (Hrows k _ _ Hk Hsec Hline) as HF.
      rewrite Forall_forall in HF. destruct (HF _ Htok) as [v Hv]. congruence.
  - destruct Htok as [[-> Htok]|[Hk Htok]].
    + destruct (decide (0%nat = 0%nat)) as [_|?]; [|done].
      destruct (traverse_float_Raise _ _ Htok Hnone)
        as (before & bad & after & Heq & Hb & Hbad & Hr).
      exists before, bad, after. repeat split; try done.
      intros stats. unfold stats_step.
      destruct (Str.words line) as [|NAME values]; [by destruct before|].
      simpl in Hr |- *. rewrite drop_0 in Hr |- *. by rewrite Hr.
    + destruct (decide (k = 0%nat)) as [?|_]; [lia|].
      destruct (traverse_float_Raise _ _ Htok Hnone)
        as (before & bad & after & Heq & Hb & Hbad & Hr).
      by exists before, bad, after.
Qed.

(** C10. A scanner has an entry exactly when one of its marker lines is
    directly followed by a line that is not a marker; the entry is the
    one list of all the lines that belong to the scanner, in the order of
    the file, whatever the number of its markers: reading more of the file
    appends to the list; the scanner IDs of the object are distinct and
    the profile of each is read from this list. *)
Theorem scanner_blocks_merged file st :
  collect file = Ok st →
  (∀ id, cs_lines st !! id
         = match lines_after id None file with
           | [] => None
           | line :: more => Some (line :: more)
           end) ∧
  (∀ id, is_Some (cs_lines st !! id) ↔
     ∃ before raw next rest,
       file = before ++ raw :: next :: rest ∧ Str.rstrip raw = id ∧
       is_marker id = true ∧ is_marker (Str.rstrip next) = false) ∧
  (∀ file1 file2 st1 id,
      file = file1 ++ file2 → collect file1 = Ok st1 →
      cs_lines st !! id
      = extend (cs_lines st1 !! id) (lines_after id (cs_ws_id st1) file2)) ∧
  (∀ fn m, PTA_init to_float fn file = Ok m →
     NoDup (node_ids m) ∧
     ∀ id, (id ∈ node_ids m ↔ is_Some (cs_lines st !! id)) ∧
           (is_Some (profiles m !! id) ↔ is_Some (cs_lines st !! id)) ∧
           ∀ p, profiles m !! id = Some p →
                read_node to_float (lines_after id None file) = Ok p).
Proof.
  intros Hst.
  assert (Hl : ∀ id, cs_lines st !! id
         = match lines_after id None file with
           | [] => None
           | line :: more => Some (line :: more)
           end).
  { intros id. rewrite (collect_lines _ _ _ Hst).
    by destruct (lines_after id None file). }
  split; [done|]. split; [|split].
  - intros id. rewrite Hl.
    assert (is_Some (match lines_after id None file with
                     | [] => None
                     | line :: more => Some (line :: more)
                     end) ↔ lines_after id None file ≠ []) as ->.
    { destruct (lines_after id None file); split; try done;
        first [by intros [? ?] | by eexists]. }
    rewrite lines_after_nonempty. split; [|by right].
    by intros [[[=] _]|?].
  - intros file1 file2 st1 id -> Hst1.
    unfold collect in Hst. rewrite for_each_app, (Hst1 : for_each _ _ _ = _) in Hst.
    simpl in Hst. by destruct (for_each_collect _ _ _ Hst) as (_ & Hlines & _).
  - intros fn m Hm.
    destruct (PTA_init_profiles _ _ _ Hm) as (st' & Hst' & _ & Hids & Hin & Hout).
    rewrite Hst in Hst'. injection Hst' as <-.
    split; [rewrite Hids; apply NoDup_sorted_keys|].
    intros id. split; [by rewrite Hids, elem_of_sorted_keys|].
    destruct (cs_lines st !! id) as [node_lines|] eqn:Hid.
    + destruct (Hin _ _ Hid) as (p & Hp & Hmp). split.
      * rewrite Hmp. split; by eexists.
      * intros p' Hp'. apply (collect_lines_Some _ _ _ _ Hst) in Hid as [<- _].
        congruence.
    + rewrite (Hout _ Hid). split; [done|]. by intros p [=].
Qed.

(** C4. After a successful construction from a file in which every marker
    line is followed by a line that is not a marker, the scanner IDs are
    in ascending order without duplicates, they are the marker lines of
    the file, as many as there are different marker lines (as many as
    there are marker lines when none is repeated), they are the keys of
    the dict, and no line collected for a scanner is a marker line. *)
Theorem scanner_ids_of_markers fn file m :
  PTA_init to_float fn file = Ok m →
  every_marker_followed file = true →
  StronglySorted String.le (node_ids m) ∧ NoDup (node_ids m) ∧
  (∀ id, id ∈ node_ids m ↔ id ∈ marker_lines file) ∧
  length (node_ids m) = length (remove_dups (marker_lines file)) ∧
  (NoDup (marker_lines file) → length (node_ids m) = length (marker_lines file)) ∧
  dom (profiles m) = list_to_set (node_ids m) ∧
  ∃ st, collect file = Ok st ∧
    ∀ id node_lines line,
      cs_lines st !! id = Some node_lines → line ∈ node_lines →
      is_marker line = false.
Proof.
  intros Hm Hvalid.
  destruct (PTA_init_profiles _ _ _ Hm) as (st & Hst & _ & Hids & Hin & Hout).
  assert (Helem : ∀ id, id ∈ node_ids m ↔ id ∈ marker_lines file).
  { intros id. rewrite Hids, elem_of_sorted_keys, (collect_lines _ _ _ Hst).
    split.
    - intros [node_lines [<- Hne]%extend_None_Some]. by apply lines_after_marker.
    - intros Hid. pose proof (lines_after_of_marker id None file Hvalid Hid) as Hne.
      exists (lines_after id None file). by apply extend_None_Some. }
  assert (Hnodup : NoDup (node_ids m)).
  { rewrite Hids. apply NoDup_sorted_keys. }
  assert (Hlen : length (node_ids m) = length (remove_dups (marker_lines file))).
  { apply Permutation_length, NoDup_Permutation; [done|apply NoDup_remove_dups|].
    intros id. by rewrite Helem, elem_of_remove_dups. }
  split; [rewrite Hids; apply sorted_StronglySorted|].
  split; [done|]. split; [done|]. split; [done|]. split; [|split].
  - intros Hnd. by apply Permutation_length, NoDup_Permutation.
  - apply set_eq. intros id.
    rewrite elem_of_dom, elem_of_list_to_set, Hids, elem_of_sorted_keys.
    destruct (cs_lines st !! id) as [node_lines|] eqn:Hid.
    + destruct (Hin _ _ Hid) as (p & _ & ->). split; by eexists.
    + rewrite (Hout _ Hid). done.
  - exists st. split; [done|]. intros id node_lines line Hid Hline.
    apply (collect_lines_Some _ _ _ _ Hst) in Hid as [-> _].
    by eapply lines_after_not_marker.
Qed.

End File.

(** ** [str.split(sep)] *)

Section StrSplit.
Implicit Types (s a rest sep : string) (c : ascii).

Lemma all_app f a rest : Str.all f (a +:+ rest) = Str.all f a && Str.all f rest.
Proof.
  induction a as [|c a IH]; [done|].
  rewrite StrFacts.app_cons. simpl. by rewrite IH, andb_assoc.
Qed.

Lemma all_impl (f g : ascii → bool) s :
  (∀ c, f c = true → g c = true) → Str.all f s = true → Str.all g s = true.
Proof.
  intros Hfg. induction s as [|c s IH]; simpl; [done|].
  intros [Hc Hs]%andb_true_iff. by rewrite (Hfg _ Hc), IH.
Qed.

Lemma digit_is_not c x : Str.isdigit c = false → Str.isdigit x = true → Str.is_not c x = true.
Proof.
  intros Hc Hx. unfold Str.is_not. destruct (Ascii.eqb_spec x c) as [->|]; [congruence|done].
Qed.

Lemma numeral_all_digits s : Str.is_numeral s = true → Str.all Str.isdigit s = true.
Proof. by destruct s. Qed.

Lemma numeral_is_not c s :
  Str.isdigit c = false → Str.is_numeral s = true → Str.all (Str.is_not c) s = true.
Proof.
  intros Hc Hs. eapply all_impl; [|by apply numeral_all_digits].
  intros x. by apply digit_is_not.
Qed.

(** Passing over the rest of a separator occurrence. *)
Lemma split_from_skip sep a rest :
  Str.split_from sep (String.length a) (a +:+ rest) = Str.split_from sep 0 rest.
Proof.
  induction a as [|c a IH]; [done|].
  rewrite StrFacts.app_cons. simpl. apply IH.
Qed.

(** A string that starts with the separator: an empty piece, then the
    pieces of the rest. *)
Lemma split_from_sep c sep rest :
  Str.split_from (String c sep) 0 (String c sep +:+ rest)
  = let '(w, ws) := Str.split_from (String c sep) 0 rest in ("", w :: ws).
Proof.
  rewrite StrFacts.app_cons. cbn [Str.split_from].
  rewrite <- StrFacts.app_cons, StrFacts.prefix_app.
  replace (String.length (String c sep) - 1)%nat with (String.length sep)
    by (simpl; lia).
  by rewrite split_from_skip.
Qed.

(** One step over a character at which no separator starts. *)
Lemma split_from_char sep c s :
  String.prefix sep (String c s) = false →
  Str.split_from sep 0 (String c s)
  = let '(w, ws) := Str.split_from sep 0 s in (String c w, ws).
Proof. intros H. cbn [Str.split_from]. by rewrite H. Qed.

(** Without an occurrence of the separator there is one piece. *)
Lemma split_from_absent sep s :
  Str.contains s sep = false → Str.split_from sep 0 s = (s, []).
Proof.
  induction s as [|c s IH]; [done|].
  cbn [Str.contains Str.split_from]. intros [Hp Hs]%orb_false_iff.
  rewrite Hp, (IH Hs). done.
Qed.

Lemma contains_char_absent c s :
  Str.all (Str.is_not c) s = true → Str.contains s (String c "") = false.
Proof.
  induction s as [|x s IH]; [done|].
  cbn [Str.contains Str.all]. intros [Hx Hs]%andb_true_iff.
  rewrite (IH Hs), orb_false_r, StrFacts.prefix_cons.
  unfold Str.is_not in Hx. apply negb_true_iff in Hx.
  destruct (ascii_dec c x) as [->|]; [|done].
  by rewrite Ascii.eqb_refl in Hx.
Qed.

(** Splitting on one character: up to its first occurrence. *)
Lemma split_from_char_sep c a rest :
  Str.all (Str.is_not c) a = true →
  Str.split_from (String c "") 0 (a +:+ String c rest)
  = let '(w, ws) := Str.split_from (String c "") 0 rest in (a, w :: ws).
Proof.
  intros Ha. induction a as [|x a IH].
  - apply (split_from_sep c "" rest).
  - simpl in Ha. apply andb_true_iff in Ha as [Hx Ha].
    rewrite StrFacts.app_cons, split_from_char, (IH Ha).
    + by destruct (Str.split_from (String c "") 0 rest).
    + rewrite StrFacts.prefix_cons.
      unfold Str.is_not in Hx. apply negb_true_iff in Hx.
      destruct (ascii_dec c x) as [->|]; [|done].
      by rewrite Ascii.eqb_refl in Hx.
Qed.

Lemma split_char_sep c a rest :
  Str.all (Str.is_not c) a = true →
  Str.split (a +:+ String c rest) (String c "") = a :: Str.split rest (String c "").
Proof.
  intros Ha. unfold Str.split. rewrite (split_from_char_sep _ _ _ Ha).
  by destruct (Str.split_from (String c "") 0 rest).
Qed.

Lemma split_char_absent c s :
  Str.all (Str.is_not c) s = true → Str.split s (String c "") = [s].
Proof.
  intros Hs. unfold Str.split.
  by rewrite (split_from_absent _ _ (contains_char_absent _ _ Hs)).
Qed.

(** Splitting on a separator of two or more characters: when the second
    character of the separator differs from the first and does not occur
    in [a], the first piece of [a + sep + rest] is [a]. *)
Lemma split_from_first_piece c1 c2 sep a rest :
  c1 ≠ c2 → Str.all (Str.is_not c2) a = true →
  Str.split_from (String c1 (String c2 sep)) 0 (a +:+ String c1 (String c2 sep) +:+ rest)
  = let '(w, ws) := Str.split_from (String c1 (String c2 sep)) 0 rest in (a, w :: ws).
Proof.
  intros Hne Ha. induction a as [|x a IH].
  - apply split_from_sep.
  - simpl in Ha. apply andb_true_iff in Ha as [Hx Ha].
    rewrite StrFacts.app_cons, split_from_char, (IH Ha).
    + by destruct (Str.split_from (String c1 (String c2 sep)) 0 rest).
    + rewrite StrFacts.prefix_cons.
      destruct (ascii_dec c1 x) as [<-|]; [|done].
      destruct a as [|y a].
      * rewrite StrFacts.app_nil_l, StrFacts.app_cons, StrFacts.prefix_cons.
        by destruct (ascii_dec c2 c1) as [->|].
      * rewrite StrFacts.app_cons, StrFacts.prefix_cons.
        simpl in Ha. apply andb_true_iff in Ha as [Hy _].
        unfold Str.is_not in Hy. apply negb_true_iff in Hy.
        destruct (ascii_dec c2 y) as [->|]; [|done].
        by rewrite Ascii.eqb_refl in Hy.
Qed.

End StrSplit.

(** ** The timestamp *)

Section Timestamp.
Implicit Types (s dir tail suffix : string).

Lemma prefix_get p s k :
  String.prefix p s = true → (k < String.length p)%nat → get k s = get k p.
Proof.
  intros [r ->]%StrFacts.prefix_inv Hk. symmetry. by apply append_correct1.
Qed.

Lemma prefix_long p a rest :
  String.prefix p (a +:+ rest) = true → (String.length p <= String.length a)%nat →
  ∃ a', a = p +:+ a'.
Proof.
  revert a. induction p as [|c p IH]; intros a H Hlen.
  - by exists a.
  - destruct a as [|d a]; [simpl in Hlen; lia|].
    rewrite StrFacts.app_cons, StrFacts.prefix_cons in H.
    destruct (ascii_dec c d) as [->|]; [|done].
    destruct (IH a H) as [a' ->]; [simpl in Hlen; lia|]. by exists a'.
Qed.

(** The marker does not overlap itself: an occurrence that starts before
    another one ends before it. *)
Lemma marker_no_overlap dir rest :
  String.prefix "WireAnalysisFmt-" (dir +:+ "WireAnalysisFmt-" +:+ rest) = true →
  dir = "" ∨ (16 <= String.length dir)%nat.
Proof.
  intros H.
  destruct (decide (String.length dir = 0%nat)) as [H0|H0];
    [left; by apply StrFacts.length_zero|].
  destruct (decide (16 <= String.length dir)%nat) as [?|Hlt]; [by right|].
  exfalso.
  pose proof (prefix_get _ _ (String.length dir) H) as Hget.
  assert (Hw : get (String.length dir) (dir +:+ "WireAnalysisFmt-" +:+ rest)
               = Some "W"%char)
    by exact (eq_sym (append_correct2 dir ("WireAnalysisFmt-" +:+ rest) 0)).
  rewrite Hw in Hget. specialize (Hget ltac:(simpl; lia)).
  destruct (String.length dir) as [|k]; [done|].
  do 15 (destruct k as [|k]; [by vm_compute in Hget|]).
  simpl in Hlt. lia.
Qed.

(** The text after the last occurrence of the marker. *)
Lemma split_from_marker_last dir tail :
  Str.contains tail "WireAnalysisFmt-" = false →
  ∃ w ws,
    Str.split_from "WireAnalysisFmt-" 0 (dir +:+ "WireAnalysisFmt-" +:+ tail) = (w, ws) ∧
    last ws = Some tail.
Proof.
  intros Htail. remember (String.length dir) as n eqn:Hn.
  revert dir Hn. induction n as [n IH] using lt_wf_ind. intros dir ->.
  destruct dir as [|c dir].
  - rewrite StrFacts.app_nil_l, (split_from_sep "W" "ireAnalysisFmt-" tail).
    rewrite (split_from_absent _ _ Htail). by eexists _, _.
  - destruct (String.prefix "WireAnalysisFmt-"
                (String c dir +:+ "WireAnalysisFmt-" +:+ tail)) eqn:Hp.
    + destruct (marker_no_overlap _ _ Hp) as [?|Hlen]; [done|].
      destruct (prefix_long _ _ _ Hp Hlen) as [dir' Hdir]. rewrite Hdir.
      rewrite StrFacts.app_assoc, (split_from_sep "W" "ireAnalysisFmt-").
      destruct (IH (String.length dir')) with (dir := dir')
        as (w & ws & -> & Hlast); [|done|].
      { rewrite Hdir, StrFacts.length_app. simpl. lia. }
      eexists _, _. split; [done|]. by rewrite last_cons, Hlast.
    + rewrite StrFacts.app_cons in Hp |- *. rewrite (split_from_char _ _ _ Hp).
      destruct (IH (String.length dir)) with (dir := dir)
        as (w & ws & -> & Hlast); [simpl; lia|done|].
      by eexists _, _.
Qed.

Lemma split_marker_last dir tail :
  Str.contains tail "WireAnalysisFmt-" = false →
  item_last (Str.split (dir +:+ "WireAnalysisFmt-" +:+ tail) "WireAnalysisFmt-") = Ok tail.
Proof.
  intros Htail. unfold Str.split, item_last.
  destruct (split_from_marker_last dir tail Htail) as (w & ws & -> & Hlast).
  by rewrite last_cons, Hlast.
Qed.

(** A front without the first character of the pattern holds no
    occurrence of it. *)
Lemma contains_app_head c p a rest :
  Str.all (Str.is_not c) a = true →
  Str.contains (a +:+ rest) (String c p) = Str.contains rest (String c p).
Proof.
  induction a as [|x a IH]; [done|].
  cbn [Str.all]. intros [Hx Ha]%andb_true_iff.
  rewrite StrFacts.app_cons. cbn [Str.contains].
  rewrite StrFacts.prefix_cons, (IH Ha).
  unfold Str.is_not in Hx. apply negb_true_iff in Hx.
  destruct (ascii_dec c x) as [->|]; [|done].
  by rewrite Ascii.eqb_refl in Hx.
Qed.

Lemma drop_app n a rest :
  (n <= String.length a)%nat → Str.drop n (a +:+ rest) = Str.drop n a +:+ rest.
Proof.
  revert a. induction n as [|n IH]; intros a Hn; [done|].
  destruct a as [|c a]; [simpl in Hn; lia|].
  rewrite StrFacts.app_cons. simpl. apply IH. simpl in Hn. lia.
Qed.

Lemma forallb_seqZ (f : Z → bool) (lo len x : Z) :
  forallb f (seqZ lo len) = true → lo ≤ x < lo + len → f x = true.
Proof.
  rewrite forallb_forall. intros Hall Hx. apply Hall.
  apply list_elem_of_In, elem_of_seqZ. lia.
Qed.

Lemma year_short y :
  1000 ≤ y ≤ 9999 →
  Str.drop 2 (Str.of_int y) = Str.format_02_0f (y mod 100) ∧
  String.length (Str.of_int y) = 4%nat.
Proof.
  intros Hy.
  assert (Hrange : 1000 ≤ y < 1000 + 9000) by lia.
  assert (Hall : forallb year_short_ok (seqZ 1000 9000) = true)
    by (vm_compute; reflexivity).
  pose proof (forallb_seqZ _ _ _ y Hall Hrange) as Hok. clear Hall.
  unfold year_short_ok in Hok. apply andb_true_iff in Hok as [Hs Hl].
  apply String.eqb_eq in Hs. apply Nat.eqb_eq in Hl. done.
Qed.

Lemma two_chars n : 0 ≤ n ≤ 99 → String.length (Str.format_02_0f n) = 2%nat.
Proof.
  intros Hn.
  assert (Hrange : 0 ≤ n < 0 + 100) by lia.
  assert (Hall : forallb two_chars_ok (seqZ 0 100) = true)
    by (vm_compute; reflexivity).
  pose proof (forallb_seqZ _ _ _ n Hall Hrange) as Hok. clear Hall.
  by apply Nat.eqb_eq in Hok.
Qed.

Lemma days_in_month_le y mo : days_in_month y mo ≤ 31.
Proof.
  unfold days_in_month. repeat case_match; lia.
Qed.

Lemma in_range_true (lo x hi : Z) : lo ≤ x ≤ hi → in_range lo x hi = true.
Proof. intros H. unfold in_range. apply andb_true_iff. split; apply Z.leb_le; lia. Qed.

Lemma fits_c_int_true (x : Z) : - 2147483648 ≤ x ≤ 2147483647 → fits_c_int x = true.
Proof. intros H. unfold fits_c_int. apply in_range_true. simpl. lia. Qed.

Lemma make_datetime_Ok (y mo d h mi sec : Z) :
  1 ≤ y ≤ 9999 → 1 ≤ mo ≤ 12 → 1 ≤ d ≤ days_in_month y mo →
  0 ≤ h ≤ 23 → 0 ≤ mi ≤ 59 → 0 ≤ sec ≤ 59 →
  make_datetime y mo d h mi sec = Ok (Datetime y mo d h mi sec).
Proof.
  intros Hy Hmo Hd Hh Hmi Hsec. unfold make_datetime.
  pose proof (days_in_month_le y mo) as Hdays.
  assert (Hfits : forallb fits_c_int [y; mo; d; h; mi; sec] = true).
  { cbn [forallb]. by rewrite !fits_c_int_true by lia. }
  rewrite Hfits. cbn [negb].
  by rewrite (in_range_true _ _ _ Hy), (in_range_true _ _ _ Hmo),
    (in_range_true _ _ _ Hd), (in_range_true _ _ _ Hh),
    (in_range_true _ _ _ Hmi), (in_range_true _ _ _ Hsec).
Qed.

(** Three numerals joined by dots pass a test that digits and the dot
    pass. *)
Lemma all_dotted (f : ascii → bool) (s1 s2 s3 : string) :
  (∀ c, Str.isdigit c = true → f c = true) → f "."%char = true →
  Str.is_numeral s1 = true → Str.is_numeral s2 = true → Str.is_numeral s3 = true →
  Str.all f (s1 +:+ "." +:+ s2 +:+ "." +:+ s3) = true.
Proof.
  intros Hf Hdot H1 H2 H3.
  rewrite !all_app.
  rewrite (all_impl _ _ _ Hf (numeral_all_digits _ H1)),
    (all_impl _ _ _ Hf (numeral_all_digits _ H2)),
    (all_impl _ _ _ Hf (numeral_all_digits _ H3)).
  simpl. by rewrite Hdot.
Qed.

Lemma split_dotted (s1 s2 s3 : string) :
  Str.is_numeral s1 = true → Str.is_numeral s2 = true → Str.is_numeral s3 = true →
  Str.split (s1 +:+ "." +:+ s2 +:+ "." +:+ s3) "." = [s1; s2; s3].
Proof.
  intros H1 H2 H3.
  change (s1 +:+ "." +:+ s2 +:+ "." +:+ s3)
    with (s1 +:+ String "." (s2 +:+ String "." s3)).
  rewrite !split_char_sep, split_char_absent; [done|..];
    by apply numeral_is_not.
Qed.

(** Discharges "digits and dots pass [is_not c]" for a character [c]
    that is neither. *)
Ltac dotted_side :=
  first [ done | intros ?c; by apply digit_is_not ].
Ltac dotted := apply all_dotted; dotted_side.

(** C8, as the code has it.  For a file name that ends in
    [WireAnalysisFmt-<Y>.<M>.<D>_<h>.<m>.<s>.pta<suffix>], where the six
    fields are decimal numerals of a calendar date and time with a year
    from 1000 to 9999, and the suffix holds no underscore and no further
    [WireAnalysisFmt-], the timestamp has the six fields and the short
    form is the last two digits of the year followed by month, day, hour,
    minute and second, each padded with zeros to two characters: twelve
    characters. *)
Theorem read_timestamp_pattern
    (dir sY sM sD sh sm ss suffix : string) (Y M D h mi sec : Z) :
  Str.is_numeral sY = true → Str.is_numeral sM = true → Str.is_numeral sD = true →
  Str.is_numeral sh = true → Str.is_numeral sm = true → Str.is_numeral ss = true →
  Str.to_int sY = Ok Y → Str.to_int sM = Ok M → Str.to_int sD = Ok D →
  Str.to_int sh = Ok h → Str.to_int sm = Ok mi → Str.to_int ss = Ok sec →
  1000 ≤ Y ≤ 9999 → 1 ≤ M ≤ 12 → 1 ≤ D ≤ days_in_month Y M →
  0 ≤ h ≤ 23 → 0 ≤ mi ≤ 59 → 0 ≤ sec ≤ 59 →
  Str.all (Str.is_not "_") suffix = true →
  Str.contains suffix "WireAnalysisFmt-" = false →
  let date := sY +:+ "." +:+ sM +:+ "." +:+ sD in
  let time := sh +:+ "." +:+ sm +:+ "." +:+ ss in
  let short :=
    Str.format_02_0f (Y mod 100) +:+ Str.format_02_0f M +:+ Str.format_02_0f D +:+
    Str.format_02_0f h +:+ Str.format_02_0f mi +:+ Str.format_02_0f sec in
  read_timestamp
    (dir +:+ "WireAnalysisFmt-" +:+ date +:+ "_" +:+ time +:+ ".pta" +:+ suffix)
  = Ok (Datetime Y M D h mi sec, short) ∧
  String.length short = 12%nat.
Proof.
  intros NY NM ND Nh Nm Ns IY IM ID Ih Im Is HY HM HD Hh Hmi Hsec Hsuf Hmark
    date time short.
  assert (Htail : Str.contains (date +:+ "_" +:+ time +:+ ".pta" +:+ suffix)
                    "WireAnalysisFmt-" = false).
  { rewrite (contains_app_head "W" _ date)
      by dotted.
    rewrite (contains_app_head "W" _ "_") by done.
    rewrite (contains_app_head "W" _ time)
      by dotted.
    by rewrite (contains_app_head "W" _ ".pta") by done. }
  assert (Htime : Str.all (Str.is_not "_") (time +:+ ".pta" +:+ suffix) = true).
  { rewrite (all_app _ time), (all_app _ ".pta"), Hsuf.
    by replace (Str.all (Str.is_not "_") time) with true by (symmetry; dotted). }
  split.
  - unfold read_timestamp.
    rewrite (split_marker_last dir _ Htail). cbn [bind].
    change (date +:+ "_" +:+ time +:+ ".pta" +:+ suffix)
      with (date +:+ String "_" (time +:+ ".pta" +:+ suffix)).
    rewrite (split_char_sep "_" date)
      by dotted.
    rewrite (split_char_absent "_" _ Htime). cbn [unpack2 bind].
    unfold Str.split at 1.
    rewrite (split_from_first_piece "." "p" "ta" time suffix)
      by (done || dotted).
    destruct (Str.split_from ".pta" 0 suffix) as [w ws].
    cbn [item lookup list_lookup bind].
    unfold date, time. rewrite !split_dotted by done.
    cbn [traverse]. rewrite IY, IM, ID, Ih, Im, Is. cbn [bind unpack3].
    rewrite make_datetime_Ok by (done || lia). cbn [bind].
    destruct (year_short Y HY) as [Hdrop Hlen].
    rewrite drop_app by lia. by rewrite Hdrop.
  - unfold short. rewrite !StrFacts.length_app.
    rewrite !two_chars; [done|..]; try lia.
    + pose proof (days_in_month_le Y M). lia.
    + pose proof (Z.mod_pos_bound Y 100). lia.
Qed.

End Timestamp.

(** * The properties on the sample data *)

(** The section splitter on the empty-string token. *)
Lemma split_laws_witness :
  ("" ∉ ["Stats"; "-----"]) ∧
  split ["Stats"; "-----"] "" = Raise IndexError ∧
  split (replicate 3 "") "" = Ok [[]; []].
Proof.
  assert (Hnot : "" ∉ ["Stats"; "-----"]) by (by apply (bool_decide_unpack _)).
  split; [exact Hnot|]. split.
  - exact (proj1 (split_laws "") ["Stats"; "-----"] Hnot).
  - exact (proj2 (split_laws "") 2%nat).
Defined.

(** C2 as the specification states it fails: a sequence without the token
    is not returned as one section, and two tokens give one section, not
    none. *)
Lemma split_laws_fail :
  split ["Stats"; "-----"] "" = Raise IndexError ∧
  split ["Stats"; "-----"] "" ≠ Ok [["Stats"; "-----"]] ∧
  split [""; ""] "" = Ok [[]] ∧
  split [""; ""] "" ≠ Ok [].
Proof. repeat split; (reflexivity || discriminate). Qed.

Lemma read_node_sections_witness :
  ("" ∉ ["Stats"; "-----"]) ∧
  read_node float_of_int_literal ["Stats"; "-----"] = Raise IndexError ∧
  split ["Stats"; ""; "Raw"; ""] "" = Ok [["Stats"]; ["Raw"]] ∧
  read_node float_of_int_literal ["Stats"; ""; "Raw"; ""]
  = Raise (ValueError_not_enough 3 2) ∧
  split (sample_block ++ ["PVLoggerID=12345"]) ""
  = Ok [ ["Stats"; "-----"; "Sigma 10 20 30 40 50 60"];
         ["Raw"; "-----"; "0 1 2 3 4 5 6"];
         ["Fit"; "-----"; "0 11 12 13 14 15 16"];
         ["PVLoggerID=12345"] ] ∧
  read_node float_of_int_literal (sample_block ++ ["PVLoggerID=12345"])
  = read_sections float_of_int_literal
      ["Stats"; "-----"; "Sigma 10 20 30 40 50 60"]
      ["Raw"; "-----"; "0 1 2 3 4 5 6"]
      ["Fit"; "-----"; "0 11 12 13 14 15 16"].
Proof.
  assert (Hnot : "" ∉ ["Stats"; "-----"]) by (by apply (bool_decide_unpack _)).
  assert (Htwo : split ["Stats"; ""; "Raw"; ""] "" = Ok [["Stats"]; ["Raw"]])
    by reflexivity.
  assert (Hfour : split (sample_block ++ ["PVLoggerID=12345"]) ""
    = Ok [ ["Stats"; "-----"; "Sigma 10 20 30 40 50 60"];
           ["Raw"; "-----"; "0 1 2 3 4 5 6"];
           ["Fit"; "-----"; "0 11 12 13 14 15 16"];
           ["PVLoggerID=12345"] ]) by reflexivity.
  split; [exact Hnot|]. split.
  { exact (proj1 (read_node_sections float_of_int_literal _) Hnot). }
  split; [exact Htwo|]. split.
  { apply (proj1 (proj2 (read_node_sections float_of_int_literal _)) _ Htwo).
    simpl. lia. }
  split; [exact Hfour|].
  exact (proj2 (proj2 (read_node_sections float_of_int_literal _)) _ _ _ _ Hfour).
Defined.

Lemma read_node_columns_witness :
  read_node float_of_int_literal sample_block = Ok sample_profile ∧
  ∃ lines_stats lines_raw lines_fit extra,
    split sample_block "" = Ok (lines_stats :: lines_raw :: lines_fit :: extra) ∧
    Forall (λ col, length col = length (drop 2 lines_raw))
      [p_fx sample_profile; p_fy sample_profile; p_fu sample_profile] ∧
    Forall (λ col, length col = length (drop 2 lines_fit))
      [p_x sample_profile; p_y sample_profile; p_u sample_profile;
       p_fx_fit sample_profile; p_fy_fit sample_profile; p_fu_fit sample_profile] ∧
    (∀ i line, drop 2 lines_raw !! i = Some line →
       ∃ pos fy fu fx x y u more,
         string_to_list float_of_int_literal line
         = Ok (pos :: fy :: fu :: fx :: x :: y :: u :: more) ∧
         p_fy sample_profile !! i = Some fy ∧ p_fu sample_profile !! i = Some fu ∧
         p_fx sample_profile !! i = Some fx) ∧
    (∀ i line, drop 2 lines_fit !! i = Some line →
       ∃ pos fy_fit fu_fit fx_fit x y u more,
         string_to_list float_of_int_literal line
         = Ok (pos :: fy_fit :: fu_fit :: fx_fit :: x :: y :: u :: more) ∧
         p_fy_fit sample_profile !! i = Some fy_fit ∧
         p_fu_fit sample_profile !! i = Some fu_fit ∧
         p_fx_fit sample_profile !! i = Some fx_fit ∧
         p_x sample_profile !! i = Some x ∧ p_y sample_profile !! i = Some y ∧
         p_u sample_profile !! i = Some u).
Proof.
  assert (H : read_node float_of_int_literal sample_block = Ok sample_profile)
    by (vm_compute; reflexivity).
  split; [exact H|].
  exact (read_node_columns float_of_int_literal sample_block sample_profile H).
Defined.

(** C1 as the specification states it fails: the raw row [0 1 2 3 4 5 6]
    gives [fy = 1], [fu = 2], [fx = 3], but the stored [x], [y], [u] are
    those of the fit rows, and there are as many as fit rows. *)
Lemma positions_not_from_raw :
  ∃ p, read_node float_of_int_literal uneven_block = Ok p ∧
       string_to_list float_of_int_literal "0 1 2 3 4 5 6" = Ok [0; 1; 2; 3; 4; 5; 6] ∧
       (p_fy p, p_fu p, p_fx p) = ([1], [2], [3]) ∧
       (p_x p, p_y p, p_u p) = ([14; 24], [15; 25], [16; 26]) ∧
       p_x p !! 0%nat ≠ Some 4 ∧ p_y p !! 0%nat ≠ Some 5 ∧ p_u p !! 0%nat ≠ Some 6 ∧
       length (p_x p) ≠ length (p_fx p).
Proof.
  eexists. split; [vm_compute; reflexivity|].
  repeat split; (reflexivity || discriminate).
Qed.

Lemma stats_line_stored_witness :
  Str.words "Sigma 10 20 30 40 50 60" = ["Sigma"; "10"; "20"; "30"; "40"; "50"; "60"] ∧
  (∃ stats',
      stats_step float_of_int_literal ∅ "Sigma 10 20 30 40 50 60" = Ok stats' ∧
      stats' !! "sigma_y_fit" = Some 10 ∧ stats' !! "sigma_y_rms" = Some 20 ∧
      stats' !! "sigma_u_fit" = Some 30 ∧ stats' !! "sigma_u_rms" = Some 40 ∧
      stats' !! "sigma_x_fit" = Some 50 ∧ stats' !! "sigma_x_rms" = Some 60) ∧
  read_sections float_of_int_literal
    ["Stats"; "-----"; "Sigma 10 20 30 40 50 60"]
    ["Raw"; "-----"; "0 1 2 3 4 5 6"]
    ["Fit"; "-----"; "0 11 12 13 14 15 16"] = Ok sample_profile ∧
  p_stats sample_profile !! "sigma_y_fit" = Some 10 ∧
  p_stats sample_profile !! "sigma_y_rms" = Some 20 ∧
  p_stats sample_profile !! "sigma_u_fit" = Some 30 ∧
  p_stats sample_profile !! "sigma_u_rms" = Some 40 ∧
  p_stats sample_profile !! "sigma_x_fit" = Some 50 ∧
  p_stats sample_profile !! "sigma_x_rms" = Some 60.
Proof.
  assert (Hw : Str.words "Sigma 10 20 30 40 50 60"
               = ["Sigma"; "10"; "20"; "30"; "40"; "50"; "60"]) by reflexivity.
  assert (Hp : read_sections float_of_int_literal
    ["Stats"; "-----"; "Sigma 10 20 30 40 50 60"]
    ["Raw"; "-----"; "0 1 2 3 4 5 6"]
    ["Fit"; "-----"; "0 11 12 13 14 15 16"] = Ok sample_profile)
    by (vm_compute; reflexivity).
  destruct (stats_line_stored float_of_int_literal
              "Sigma 10 20 30 40 50 60" "Sigma" "10" "20" "30" "40" "50" "60"
              10 20 30 40 50 60 Hw
              eq_refl eq_refl eq_refl eq_refl eq_refl eq_refl) as [Hstep Hfinal].
  split; [exact Hw|]. split.
  - destruct (Hstep ∅) as (stats' & Hs & Hstored & _). exists stats'. by split.
  - split; [exact Hp|].
    apply (Hfinal _ _ _ sample_profile [] [] Hp eq_refl).
    intros l first Hl. by inversion Hl.
Defined.

Lemma malformed_line_aborts_witness :
  split (lines_after "RTBT_Diag:WS20" None five_values_file) ""
  = Ok [ ["Stats"; "-----"; "Sigma 10 20 30 40 50"];
         ["Raw"; "-----"; "0 1 2 3 4 5 6"];
         ["Fit"; "-----"; "0 11 12 13 14 15 16"] ] ∧
  length (drop 1 (Str.words "Sigma 10 20 30 40 50")) ≠ 6%nat ∧
  (∃ e, PTA_init float_of_int_literal sample_filename five_values_file = Raise e ∧
        index_or_value_error e) ∧
  PTA_init float_of_int_literal overflow_filename five_values_file
  = Raise OverflowError.
Proof.
  assert (Hsplit : split (lines_after "RTBT_Diag:WS20" None five_values_file) ""
    = Ok [ ["Stats"; "-----"; "Sigma 10 20 30 40 50"];
           ["Raw"; "-----"; "0 1 2 3 4 5 6"];
           ["Fit"; "-----"; "0 11 12 13 14 15 16"] ]) by (vm_compute; reflexivity).
  assert (Hlen : length (drop 1 (Str.words "Sigma 10 20 30 40 50")) ≠ 6%nat)
    by (vm_compute; lia).
  assert (Hbad : ∃ lines_stats line,
      [ ["Stats"; "-----"; "Sigma 10 20 30 40 50"];
        ["Raw"; "-----"; "0 1 2 3 4 5 6"];
        ["Fit"; "-----"; "0 11 12 13 14 15 16"] ] !! 0%nat = Some lines_stats ∧
      line ∈ drop 2 lines_stats ∧ length (drop 1 (Str.words line)) ≠ 6%nat).
  { exists ["Stats"; "-----"; "Sigma 10 20 30 40 50"], "Sigma 10 20 30 40 50".
    split; [reflexivity|]. split; [simpl; by left | exact Hlen]. }
  split; [exact Hsplit|]. split; [exact Hlen|]. split.
  - destruct (malformed_line_aborts float_of_int_literal sample_filename
                five_values_file "RTBT_Diag:WS20" _ Hsplit (or_introl Hbad))
      as (e & He & [Hkind|[_ Hts]]).
    + exists e. exact (conj He Hkind).
    + exfalso. vm_compute in Hts. discriminate.
  - destruct (malformed_line_aborts float_of_int_literal overflow_filename
                five_values_file "RTBT_Diag:WS20" _ Hsplit (or_introl Hbad))
      as (e & He & [Hkind|[-> _]]).
    + exfalso.
      assert (Ho : PTA_init float_of_int_literal overflow_filename five_values_file
                   = Raise OverflowError) by (vm_compute; reflexivity).
      rewrite Ho in He. injection He as <-. exact Hkind.
    + exact He.
Defined.

Lemma non_numeric_token_aborts_witness :
  split (lines_after "RTBT_Diag:WS20" None bad_raw_file) ""
  = Ok [ ["Stats"; "-----"; "Sigma 10 20 30 40 50 60"];
         ["Raw"; "-----"; "0 1 2 abc 4 5 6"];
         ["Fit"; "-----"; "0 11 12 13 14 15 16"] ] ∧
  float_of_int_literal "abc" = None ∧
  (∃ e, PTA_init float_of_int_literal sample_filename bad_raw_file = Raise e ∧
        index_or_value_error e) ∧
  ∃ before bad after,
    Str.words "0 1 2 abc 4 5 6" = before ++ bad :: after ∧
    Forall (λ t, is_Some (float_of_int_literal t)) before ∧
    float_of_int_literal bad = None ∧
    string_to_list float_of_int_literal "0 1 2 abc 4 5 6" = Raise (ValueError_float bad).
Proof.
  assert (Hsplit : split (lines_after "RTBT_Diag:WS20" None bad_raw_file) ""
    = Ok [ ["Stats"; "-----"; "Sigma 10 20 30 40 50 60"];
           ["Raw"; "-----"; "0 1 2 abc 4 5 6"];
           ["Fit"; "-----"; "0 11 12 13 14 15 16"] ]) by (vm_compute; reflexivity).
  split; [exact Hsplit|]. split; [reflexivity|].
  destruct (non_numeric_token_aborts float_of_int_literal sample_filename bad_raw_file
              "RTBT_Diag:WS20" _ 1%nat ["Raw"; "-----"; "0 1 2 abc 4 5 6"]
              "0 1 2 abc 4 5 6" "abc" Hsplit) as [(e & He & Hkind) Hline].
  - reflexivity.
  - simpl. by left.
  - right. split; [by left|]. apply (bool_decide_unpack _). by vm_compute.
  - reflexivity.
  - split; [|exact Hline]. exists e. split; [exact He|].
    destruct Hkind as [Hkind|[_ Hts]]; [exact Hkind|].
    exfalso. vm_compute in Hts. discriminate.
Defined.

(** C7 as the specification states it fails: the exception of a token that
    is not a number is the same for different scanners and different lines,
    it carries the token only; and the eighth token of a row is dropped
    without an exception when another row has seven. *)
Lemma float_error_names_token_only :
  PTA_init float_of_int_literal sample_filename bad_raw_file
  = Raise (ValueError_float "abc") ∧
  PTA_init float_of_int_literal sample_filename bad_fit_file
  = Raise (ValueError_float "abc") ∧
  is_ok (read_node float_of_int_literal extra_token_block) = true ∧
  read_node float_of_int_literal extra_token_block
  = read_node float_of_int_literal seven_token_block.
Proof. repeat split; vm_compute; reflexivity. Qed.

Lemma scanner_ids_of_markers_witness :
  PTA_init float_of_int_literal sample_filename sample_file = Ok sample_pta ∧
  every_marker_followed sample_file = true ∧
  marker_lines sample_file = ["RTBT_Diag:WS24"; "RTBT_Diag:WS20"] ∧
  StronglySorted String.le (node_ids sample_pta) ∧ NoDup (node_ids sample_pta) ∧
  (∀ id, id ∈ node_ids sample_pta ↔ id ∈ marker_lines sample_file) ∧
  length (node_ids sample_pta) = length (remove_dups (marker_lines sample_file)) ∧
  (NoDup (marker_lines sample_file) →
   length (node_ids sample_pta) = length (marker_lines sample_file)) ∧
  dom (profiles sample_pta) = list_to_set (node_ids sample_pta) ∧
  ∃ st, collect sample_file = Ok st ∧
    ∀ id node_lines line,
      cs_lines st !! id = Some node_lines → line ∈ node_lines →
      is_marker line = false.
Proof.
  assert (Hm : PTA_init float_of_int_literal sample_filename sample_file = Ok sample_pta)
    by (vm_compute; reflexivity).
  assert (Hvalid : every_marker_followed sample_file = true) by (vm_compute; reflexivity).
  split; [exact Hm|]. split; [exact Hvalid|]. split; [vm_compute; reflexivity|].
  exact (scanner_ids_of_markers float_of_int_literal sample_filename sample_file
           sample_pta Hm Hvalid).
Defined.

Lemma scanner_blocks_merged_witness :
  ∃ st, collect repeated_marker_file = Ok st ∧
    cs_lines st !! "RTBT_Diag:WS20"
    = Some ["Stats"; "-----"; "Sigma 10 20 30 40 50 60"; ""] ∧
    cs_lines st !! "RTBT_Diag:WS21" = None ∧
    (is_Some (cs_lines st !! "RTBT_Diag:WS21") ↔
     ∃ before raw next rest,
       repeated_marker_file = before ++ raw :: next :: rest ∧
       Str.rstrip raw = "RTBT_Diag:WS21" ∧
       is_marker "RTBT_Diag:WS21" = true ∧ is_marker (Str.rstrip next) = false).
Proof.
  destruct (collect repeated_marker_file) as [st|e] eqn:Hst; [|by vm_compute in Hst].
  exists st. split; [reflexivity|].
  destruct (scanner_blocks_merged float_of_int_literal repeated_marker_file st Hst)
    as (Hlines & Hsome & _ & _).
  split; [by rewrite Hlines|]. split; [by rewrite Hlines|]. apply Hsome.
Defined.

Lemma read_timestamp_pattern_witness :
  read_timestamp sample_filename
  = Ok (Datetime 2023 2 27 23 57 0, "230227235700") ∧
  String.length "230227235700" = 12%nat.
Proof.
  apply (read_timestamp_pattern "" "2023" "02" "27" "23" "57" "00" ".txt"
           2023 2 27 23 57 0); try reflexivity; try lia.
  change (days_in_month 2023 2) with 28. lia.
Defined.

(** C8 as the specification states it fails: with an underscore after
    [.pta] the date and the time cannot be told apart and no timestamp is
    produced, and with a year below 1000 the short form is shorter than
    twelve characters and does not start with the last two digits of the
    year. *)
Lemma read_timestamp_pattern_fails :
  read_timestamp "WireAnalysisFmt-2023.02.27_23.57.00.pta_v2.txt"
  = Raise (ValueError_too_many 2) ∧
  read_timestamp "WireAnalysisFmt-0999.02.27_23.57.00.pta.txt"
  = Ok (Datetime 999 2 27 23 57 0, "90227235700") ∧
  String.length "90227235700" = 11%nat.
Proof. repeat split; vm_compute; reflexivity. Qed.

(** A logger-ID line among the rows of a section is converted like a row. *)
Example logger_line_in_rows :
  PTA_init float_of_int_literal sample_filename logger_in_rows_file
  = Raise (ValueError_float "PVLoggerID=12345").
Proof. vm_compute. reflexivity. Qed.

(** The attributes of the object built from the sample file. *)
Example sample_attributes :
  attributes sample_pta
  = (Datetime 2023 2 27 23 57 0, "230227235700", Some 12345,
     ["RTBT_Diag:WS20"; "RTBT_Diag:WS24"]).
Proof. reflexivity. Qed.


(** * Further properties of the functions *)

Section SplitSections.
Context {A : Type} `{EqDecision A}.
Implicit Types (items first section : list A) (more : list (list A)) (token : A).

Lemma indices_from_app_absent i first items token :
  token ∉ first →
  indices_from i (first ++ items) token = indices_from (i + length first) items token.
Proof.
  revert i. induction first as [|x first IH]; intros i Hnot; simpl.
  - by rewrite Nat.add_0_r.
  - apply not_elem_of_cons in Hnot as [Hne Hnot].
    destruct (decide (x = token)); [congruence|].
    rewrite IH by done. f_equal. lia.
Qed.

Lemma indices_from_token i items token :
  indices_from i (token :: items) token = i :: indices_from (S i) items token.
Proof. simpl. by destruct (decide (token = token)). Qed.

(** The positions of the tokens in front of the sections of [more], when
    the first of them is at position [i]. *)
Lemma indices_from_sections i section more token :
  token ∉ section →
  indices_from i (flat_map (λ s, token :: s) (section :: more)) token
  = i :: indices_from (i + S (length section)) (flat_map (λ s, token :: s) more) token.
Proof.
  intros Hs.
  change (flat_map (λ s, token :: s) (section :: more))
    with (token :: (section ++ flat_map (λ s, token :: s) more)).
  rewrite indices_from_token, indices_from_app_absent by done.
  do 2 f_equal. lia.
Qed.

(** The slices between consecutive tokens are the sections but the last. *)
Lemma slices_between front section more token :
  Forall (λ s, token ∉ s) (section :: more) →
  (λ '(lo, hi), slice (lo + 1) hi (front ++ flat_map (λ s, token :: s) (section :: more)))
    <$> zip (indices_from (length front)
               (flat_map (λ s, token :: s) (section :: more)) token)
            (drop 1 (indices_from (length front)
               (flat_map (λ s, token :: s) (section :: more)) token))
  = take (length more) (section :: more).
Proof.
  revert front section. induction more as [|next more IH]; intros front section HF.
  - apply Forall_cons in HF as [Hs _].
    rewrite indices_from_sections by done. reflexivity.
  - apply Forall_cons in HF as [Hs HF].
    rewrite indices_from_sections by done.
    specialize (IH (front ++ token :: section) next HF).
    rewrite length_app in IH. cbn [length] in IH.
    pose proof HF as [Hn _]%Forall_cons.
    rewrite indices_from_sections in IH |- * by done.
    change (drop 1 (?x :: ?l)) with l in IH |- *.
    cbn [zip zip_with fmap list_fmap] in IH |- *.
    change (length (next :: more)) with (S (length more)). cbn [take].
    f_equal.
    + unfold slice.
      replace (length front + S (length section) - (length front + 1))%nat
        with (length section) by lia.
      change (flat_map (λ s, token :: s) (section :: next :: more))
        with (token :: (section ++ flat_map (λ s, token :: s) (next :: more))).
      rewrite drop_app_ge by lia.
      replace (length front + 1 - length front)%nat with 1%nat by lia.
      change (drop 1 (?x :: ?l)) with l. by rewrite take_app_length.
    + rewrite <- IH.
      change (flat_map (λ s, token :: s) (section :: next :: more))
        with ((token :: section) ++ flat_map (λ s, token :: s) (next :: more)).
      by rewrite <- !app_assoc.
Qed.

Lemma zip_take_init {B : Type} (l : list B) :
  zip (take (length l - 1) l) (drop 1 l) = zip l (drop 1 l).
Proof.
  destruct l as [|x l]; [done|]. change (drop 1 (x :: l)) with l.
  replace (length (x :: l) - 1)%nat with (length l) by (simpl; lia).
  revert x. induction l as [|y l IH]; intros x; [done|].
  cbn [length take zip zip_with]. f_equal. apply IH.
Qed.

(** The text after the last token is the last section. *)
Lemma drop_after_last_index front section more token :
  Forall (λ s, token ∉ s) (section :: more) →
  ∃ il,
    last (indices_from (length front)
            (flat_map (λ s, token :: s) (section :: more)) token) = Some il ∧
    Some (drop (il + 1) (front ++ flat_map (λ s, token :: s) (section :: more)))
    = last (section :: more).
Proof.
  revert front section. induction more as [|next more IH]; intros front section HF.
  - apply Forall_cons in HF as [Hs _]. exists (length front).
    rewrite indices_from_sections by done. split; [done|].
    change (flat_map (λ s, token :: s) [section]) with (token :: (section ++ [])).
    rewrite drop_app_ge by lia.
    replace (length front + 1 - length front)%nat with 1%nat by lia.
    change (drop 1 (?x :: ?l)) with l. by rewrite app_nil_r.
  - apply Forall_cons in HF as [Hs HF].
    destruct (IH (front ++ token :: section) next HF) as (il & Hlast & Hdrop).
    rewrite length_app in Hlast. cbn [length] in Hlast.
    exists il. rewrite indices_from_sections by done.
    rewrite last_cons, Hlast. split; [done|].
    rewrite (last_cons section), <- Hdrop.
    change (flat_map (λ s, token :: s) (section :: next :: more))
      with ((token :: section) ++ flat_map (λ s, token :: s) (next :: more)).
    rewrite <- !app_assoc.
    by destruct (last (next :: more)) eqn:E; [|by apply last_None in E].
Qed.

Lemma last_join front section more token :
  last (front ++ flat_map (λ s, token :: s) (section :: more))
  = match last (section :: more) with
    | Some (x :: s) => last (x :: s)
    | _ => Some token
    end.
Proof.
  revert front section. induction more as [|next more IH]; intros front section.
  - change (flat_map (λ s, token :: s) [section]) with (token :: (section ++ [])).
    rewrite app_nil_r, last_app. cbn [last].
    destruct section as [|x s]; [done|].
    rewrite last_cons. by destruct (last (x :: s)) eqn:E; [|by apply last_None in E].
  - change (flat_map (λ s, token :: s) (section :: next :: more))
      with ((token :: section) ++ flat_map (λ s, token :: s) (next :: more)).
    rewrite app_assoc, IH, (last_cons section).
    by destruct (last (next :: more)) eqn:E; [|by apply last_None in E].
Qed.

(** [split] on a sequence of sections separated by the token: the
    sections, without the first and the last one when they are empty. *)
Lemma split_join_sections token first more :
  token ∉ first → Forall (λ s, token ∉ s) more → more ≠ [] →
  split (join_sections token first more) token = Ok (kept_sections first more).
Proof.
  intros Hfirst Hmore Hne. destruct more as [|section more]; [done|]. clear Hne.
  unfold split, join_sections, kept_sections.
  rewrite (indices_from_app_absent 0 first) by done. cbn [Nat.add].
  rewrite zip_take_init, slices_between by done.
  destruct (drop_after_last_index first section more token Hmore)
    as (il & Hil & Hdrop).
  unfold item_last. rewrite Hil, last_join. cbn [bind].
  replace (length (section :: more) - 1)%nat with (length more) by (simpl; lia).
  rewrite indices_from_sections by (by apply Forall_cons in Hmore as [? _]).
  assert (Hlast_section : ∀ sl, last (section :: more) = Some sl → token ∉ sl).
  { intros sl Hsl. rewrite Forall_forall in Hmore. apply Hmore.
    by eapply last_Some_elem_of. }
  assert (Hfinal : ∀ x s y, last (x :: s) = Some y → token ∉ x :: s → y ≠ token).
  { intros x s y Hy Hnot ->. apply Hnot. by eapply last_Some_elem_of. }
  destruct first as [|a first'].
  - change (item ([] ++ flat_map (λ s, token :: s) (section :: more)) 0)
      with (Ok (A:=A) token).
    cbn [bind]. destruct (decide (token ≠ token)) as [?|_]; [done|]. cbn [bind app].
    destruct (last (section :: more)) as [[|x s]|] eqn:Hl.
    + cbn [bind]. destruct (decide (token ≠ token)) as [?|_]; [done|].
      by rewrite app_nil_r.
    + destruct (last (x :: s)) as [y|] eqn:Hy; [|by apply last_None in Hy].
      cbn [bind]. destruct (decide (y ≠ token)) as [_|Heq].
      * injection Hdrop as Hdrop. cbn [app]. repeat f_equal. exact Hdrop.
      * destruct Heq. eapply Hfinal; [done|]. by apply Hlast_section.
    + by apply last_None in Hl.
  - change (item ((a :: first') ++ flat_map (λ s, token :: s) (section :: more)) 0)
      with (Ok (A:=A) a).
    cbn [bind]. apply not_elem_of_cons in Hfirst as [Ha Hfirst].
    destruct (decide (a ≠ token)) as [_|?]; [|done].
    change (item (length (a :: first') :: ?l) 0) with (Ok (length (a :: first'))).
    cbn [bind]. rewrite take_app_length. cbn [app].
    destruct (last (section :: more)) as [[|x s]|] eqn:Hl.
    + cbn [bind]. destruct (decide (token ≠ token)) as [?|_]; [done|].
      by rewrite app_nil_r.
    + destruct (last (x :: s)) as [y|] eqn:Hy; [|by apply last_None in Hy].
      cbn [bind]. destruct (decide (y ≠ token)) as [_|Heq].
      * injection Hdrop as Hdrop. cbn [app]. repeat f_equal. exact Hdrop.
      * destruct Heq. eapply Hfinal; [done|]. by apply Hlast_section.
    + by apply last_None in Hl.
Qed.
End SplitSections.

Section SplitResult.
Context {A : Type} `{EqDecision A}.
Implicit Types (items first section : list A) (more : list (list A)) (token : A).

(** Every sequence is a sequence of sections without the token, separated
    by the token. *)
Lemma sections_of items token :
  ∃ first more,
    items = join_sections token first more ∧
    (token ∉ first) ∧ Forall (λ s, token ∉ s) more ∧
    (more = [] ↔ token ∉ items).
Proof.
  induction items as [|x items (first & more & -> & Hfirst & Hmore & Hiff)].
  - exists [], []. repeat split; try done; try (by inversion 1); by intros _ ?%not_elem_of_nil.
  - destruct (decide (x = token)) as [->|Hne].
    + exists [], (first :: more). unfold join_sections. repeat split; try done.
      * by inversion 1.
      * by constructor.
      * intros Hnot. destruct Hnot. by left.
    + exists (x :: first), more. unfold join_sections in *. repeat split; try done.
      * by apply not_elem_of_cons.
      * intros Hm. apply not_elem_of_cons. split; [done | by apply Hiff].
      * intros [_ Hnot]%not_elem_of_cons. by apply Hiff.
Qed.

Lemma filter_join token first more :
  token ∉ first → Forall (λ s, token ∉ s) more →
  filter (λ x, x ≠ token) (join_sections token first more) = first ++ concat more.
Proof.
  intros Hfirst Hmore. unfold join_sections. rewrite filter_app.
  assert (Hkeep : ∀ s : list A, token ∉ s → filter (λ x, x ≠ token) s = s).
  { intros s Hs. induction s as [|y s IH]; [done|].
    apply not_elem_of_cons in Hs as [Hy Hs].
    rewrite filter_cons_True by done. by rewrite IH. }
  rewrite (Hkeep _ Hfirst). f_equal.
  induction Hmore as [|s more Hs Hmore IH]; [done|].
  cbn [flat_map concat]. rewrite filter_app, filter_cons_False by (by intros ?).
  by rewrite (Hkeep _ Hs), IH.
Qed.

Lemma concat_kept first more :
  concat (kept_sections first more) = first ++ concat more.
Proof.
  unfold kept_sections. rewrite !concat_app. f_equal.
  - destruct first; [done|]. simpl. by rewrite app_nil_r.
  - destruct more as [|s more] using rev_ind; [done|].
    rewrite last_snoc, length_app. cbn [length].
    replace (length more + 1 - 1)%nat with (length more) by lia.
    rewrite take_app_length, concat_app. f_equal.
    destruct s; simpl; by rewrite ?app_nil_r.
Qed.

Lemma kept_sections_elem first more section :
  section ∈ kept_sections first more → section = first ∨ section ∈ more.
Proof.
  unfold kept_sections. rewrite !elem_of_app. intros [H1|[H2|H3]].
  - destruct first; [by inversion H1|]. apply list_elem_of_singleton in H1. by left.
  - right. apply elem_of_take in H2 as (i & Hi & _). by eapply list_elem_of_lookup_2.
  - right. destruct (last more) as [[|x s]|] eqn:Hl; try by inversion H3.
    apply list_elem_of_singleton in H3 as ->. by eapply last_Some_elem_of.
Qed.

(** What [split] returns when it returns: the token occurs in the
    sequence, no section contains it, and the sections, one after the other,
    are the sequence without its tokens. *)
Lemma split_Ok_sections items token sections :
  split items token = Ok sections →
  token ∈ items ∧ Forall (λ s, token ∉ s) sections ∧
  concat sections = filter (λ x, x ≠ token) items.
Proof.
  intros H0.
  destruct (sections_of items token) as (first & more & -> & Hfirst & Hmore & Hiff).
  destruct (decide (more = [])) as [Hnil|Hne].
  { rewrite split_absent in H0 by (by apply Hiff). done. }
  rewrite split_join_sections in H0 by done. injection H0 as <-.
  split; [|split].
  - destruct (decide (token ∈ join_sections token first more)) as [?|Hnot]; [done|].
    by apply Hiff in Hnot.
  - apply Forall_forall. intros s [->|Hs]%kept_sections_elem; [done|].
    rewrite Forall_forall in Hmore. by apply Hmore.
  - by rewrite concat_kept, filter_join.
Qed.

Lemma split_present items token :
  token ∈ items → ∃ sections, split items token = Ok sections.
Proof.
  intros Hin.
  destruct (sections_of items token) as (first & more & -> & Hfirst & Hmore & Hiff).
  destruct (decide (more = [])) as [Hnil|Hne]; [by apply Hiff in Hnil|].
  rewrite split_join_sections by done. by eexists.
Qed.
End SplitResult.

Section Transpose.
Context {A : Type}.
Implicit Types (rows : list (list A)) (row col : list A).

Lemma min_width_cons row row' rows :
  min_width (row :: row' :: rows) = Nat.min (length row) (min_width (row' :: rows)).
Proof. reflexivity. Qed.

Lemma transpose_cons row row' rows :
  transpose (row :: row' :: rows) = zip_with cons row (transpose (row' :: rows)).
Proof. reflexivity. Qed.

Lemma length_transpose rows : length (transpose rows) = min_width rows.
Proof.
  induction rows as [|row rows IH]; [done|].
  destruct rows as [|row' rows].
  - simpl. by rewrite length_fmap.
  - by rewrite transpose_cons, min_width_cons, length_zip_with, IH.
Qed.

Lemma min_width_le rows row : row ∈ rows → (min_width rows <= length row)%nat.
Proof.
  induction rows as [|r rows IH]; [by inversion 1|].
  destruct rows as [|r' rows].
  - intros ->%list_elem_of_singleton. done.
  - rewrite min_width_cons. intros [->|Hin]%elem_of_cons; [lia|].
    specialize (IH Hin). lia.
Qed.

Lemma min_width_attained rows :
  rows ≠ [] → ∃ row, row ∈ rows ∧ length row = min_width rows.
Proof.
  induction rows as [|r rows IH]; [done|]. intros _.
  destruct rows as [|r' rows].
  - exists r. split; [by left | done].
  - rewrite min_width_cons. destruct (IH ltac:(done)) as (row & Hin & Hlen).
    destruct (decide (length r <= min_width (r' :: rows))%nat).
    + exists r. split; [by left | lia].
    + exists row. split; [by right | lia].
Qed.

Lemma min_width_constant rows n :
  rows ≠ [] → Forall (λ row, length row = n) rows → min_width rows = n.
Proof.
  intros Hne HF. destruct (min_width_attained rows Hne) as (row & Hin & <-).
  rewrite Forall_forall in HF. by apply HF.
Qed.

Lemma min_width_ext {B : Type} rows (others : list (list B)) :
  Forall2 (λ row (other : list B), length row = length other) rows others →
  min_width rows = min_width others.
Proof.
  induction 1 as [|r o rs os Hr HF IH]; [done|].
  destruct HF as [|r2 o2 rs os Hr2 HF]; [done|].
  rewrite !min_width_cons. by rewrite Hr, IH.
Qed.

(** Every column is as long as the array. *)
Lemma transpose_columns rows col :
  col ∈ transpose rows → length col = length rows.
Proof.
  intros [k Hk]%list_elem_of_lookup. by destruct (transpose_lookup rows k col Hk).
Qed.
End Transpose.

(** X3. The shape of [transpose(array)]: as many columns as the shortest row
    has items (none for no rows), every column as long as the array, and
    column [k] holds item [k] of every row, in the order of the rows. *)
Theorem transpose_shape {A : Type} (rows : list (list A)) :
  length (transpose rows) = min_width rows ∧
  (∀ row, row ∈ rows → (length (transpose rows) <= length row)%nat) ∧
  (∀ col, col ∈ transpose rows → length col = length rows) ∧
  (∀ k i row, (k < min_width rows)%nat → rows !! i = Some row →
     ∃ col v, transpose rows !! k = Some col ∧ col !! i = Some v ∧ row !! k = Some v).
Proof.
  split; [apply length_transpose|]. split; [|split].
  - intros row Hrow. rewrite length_transpose. by apply min_width_le.
  - apply transpose_columns.
  - intros k i row Hk Hrow.
    destruct (lookup_lt_is_Some_2 (transpose rows) k) as [col Hcol];
      [by rewrite length_transpose|].
    destruct (transpose_lookup rows k col Hcol) as [_ Hrows].
    destruct (Hrows i row Hrow) as [[v Hv] Hi].
    exists col, v. by rewrite Hi.
Qed.

(** X4. Transposing twice gives the array back when the array has a row and
    all its rows have one length, which is not zero. *)
Theorem transpose_involutive {A : Type} (rows : list (list A)) (width : nat) :
  rows ≠ [] → (0 < width)%nat → Forall (λ row, length row = width) rows →
  transpose (transpose rows) = rows.
Proof.
  intros Hne Hwidth Hrect.
  assert (Hw : min_width rows = width) by (by apply min_width_constant).
  assert (Hcols : Forall (λ col, length col = length rows) (transpose rows)).
  { apply Forall_forall. apply transpose_columns. }
  assert (Hne' : transpose rows ≠ []).
  { intros Heq. apply (f_equal length) in Heq.
    rewrite length_transpose, Hw in Heq. simpl in Heq. lia. }
  assert (Hlen : length (transpose (transpose rows)) = length rows).
  { rewrite length_transpose. by apply min_width_constant. }
  apply list_eq_same_length with (length rows); [done..|].
  intros i back row Hi Hback Hrow.
  destruct (transpose_lookup _ _ _ Hback) as [Hlen_back Hitems].
  rewrite length_transpose, Hw in Hlen_back.
  rewrite Forall_forall in Hrect.
  pose proof (Hrect row (list_elem_of_lookup_2 _ _ _ Hrow)) as Hlen_row.
  apply list_eq_same_length with width; [done..|].
  intros k x y Hk Hx Hy.
  destruct (lookup_lt_is_Some_2 (transpose rows) k) as [col Hcol];
    [by rewrite length_transpose, Hw|].
  destruct (Hitems k col Hcol) as [_ Hbk].
  destruct (transpose_lookup _ _ _ Hcol) as [_ Hrows].
  destruct (Hrows i row Hrow) as [_ Hci].
  congruence.
Qed.

Section Accept.
Context {float : Type} (to_float : string → option float).
Implicit Types (line : string) (lines : list string).

Lemma traverse_float_Ok tokens :
  numeric_tokens to_float tokens ↔ ∃ vals, traverse (float_of to_float) tokens = Ok vals.
Proof.
  unfold numeric_tokens. induction tokens as [|t tokens IH]; simpl.
  - split; [by eexists | constructor].
  - rewrite Forall_cons, IH. split.
    + intros [[v Hv] [vals Hvals]]. exists (v :: vals).
      unfold float_of at 1. rewrite Hv. simpl. by rewrite Hvals.
    + intros [vals H]. apply bind_Ok in H as (v & Hv & H).
      apply bind_Ok in H as (vals' & Hvals & _).
      apply float_of_Ok in Hv. split; by eexists.
Qed.

Lemma traverse_rows_Ok lines :
  Forall (λ line, numeric_tokens to_float (Str.words line)) lines ↔
  ∃ rows, traverse (string_to_list to_float) lines = Ok rows.
Proof.
  induction lines as [|line lines IH]; simpl.
  - split; [by eexists | constructor].
  - rewrite Forall_cons, IH, traverse_float_Ok. split.
    + intros [[row Hrow] [rows Hrows]]. exists (row :: rows).
      unfold string_to_list at 1. rewrite Hrow. simpl. by rewrite Hrows.
    + intros [rows H]. apply bind_Ok in H as (row & Hrow & H).
      apply bind_Ok in H as (rows' & Hrows & _). split; by eexists.
Qed.

(** The rows have as many floats as their lines have tokens. *)
Lemma traverse_rows_width lines rows :
  traverse (string_to_list to_float) lines = Ok rows →
  min_width rows = min_width (Str.words <$> lines).
Proof.
  intros H. apply traverse_Ok in H. symmetry. apply min_width_ext.
  apply Forall2_fmap_l. eapply Forall2_impl; [done|].
  intros line row Hrow. simpl. symmetry. unfold string_to_list in Hrow.
  by apply traverse_length in Hrow.
Qed.

Lemma unpack7_transpose (rows : list (list float)) :
  (∃ cols, unpack7 (transpose rows) = Ok cols) ↔ min_width rows = 7%nat.
Proof.
  rewrite <- length_transpose. split.
  - intros [[[[[[[c0 c1] c2] c3] c4] c5] c6] H]. apply unpack7_Ok in H. by rewrite H.
  - intros H. destruct (transpose rows) as [|? [|? [|? [|? [|? [|? [|? [|? ?]]]]]]]];
      try done. by eexists.
Qed.

Lemma unpack7_transpose_Raise (rows : list (list float)) :
  min_width rows ≠ 7%nat →
  unpack7 (transpose rows)
  = Raise (if (min_width rows <? 7)%nat
           then ValueError_not_enough 7 (min_width rows)
           else ValueError_too_many 7).
Proof.
  rewrite <- length_transpose. intros H.
  destruct (transpose rows) as [|? [|? [|? [|? [|? [|? [|? [|? ?]]]]]]]]; done.
Qed.

Lemma stats_step_accepts stats line :
  stats_line_accepted to_float line ↔
  ∃ stats', stats_step to_float stats line = Ok stats'.
Proof.
  split.
  - intros (name & values & Hw & Hlen & Hnum).
    apply traverse_float_Ok in Hnum as [vals Hvals].
    pose proof (traverse_length _ _ _ Hvals) as Hl. rewrite Hlen in Hl.
    destruct vals as [|v1 [|v2 [|v3 [|v4 [|v5 [|v6 [|? ?]]]]]]]; try done.
    unfold stats_step. rewrite Hw. simpl. rewrite drop_0, Hvals. simpl. by eexists.
  - intros [stats' H]. apply stats_step_Ok in H
      as (NAME & t1 & t2 & t3 & t4 & t5 & t6 & v1 & v2 & v3 & v4 & v5 & v6 &
          Hw & F1 & F2 & F3 & F4 & F5 & F6 & _).
    exists NAME, [t1; t2; t3; t4; t5; t6]. split; [done|]. split; [done|].
    unfold numeric_tokens. repeat (constructor; [by eexists|]). constructor.
Qed.

Lemma for_each_stats_accepts lines stats :
  Forall (stats_line_accepted to_float) lines ↔
  ∃ stats', for_each (stats_step to_float) lines stats = Ok stats'.
Proof.
  revert stats. induction lines as [|line lines IH]; intros stats; simpl.
  - split; [by eexists | constructor].
  - rewrite Forall_cons. split.
    + intros [Hline Hlines].
      apply (stats_step_accepts stats) in Hline as [stats1 Hstep].
      rewrite Hstep. simpl. by apply IH.
    + intros [stats' H]. apply bind_Ok in H as (stats1 & Hstep & H). split.
      * apply (stats_step_accepts stats). by eexists.
      * apply (IH stats1). by eexists.
Qed.

Lemma rows_accepted_Ok lines :
  rows_accepted to_float lines ↔
  ∃ rows c0 c1 c2 c3 c4 c5 c6,
    traverse (string_to_list to_float) lines = Ok rows ∧
    transpose rows = [c0; c1; c2; c3; c4; c5; c6].
Proof.
  unfold rows_accepted. split.
  - intros (Hne & Hnum & Hw). apply traverse_rows_Ok in Hnum as [rows Hrows].
    rewrite <- (traverse_rows_width _ _ Hrows) in Hw.
    apply unpack7_transpose in Hw as [[[[[[[c0 c1] c2] c3] c4] c5] c6] Hc].
    apply unpack7_Ok in Hc. by exists rows, c0, c1, c2, c3, c4, c5, c6.
  - intros (rows & c0 & c1 & c2 & c3 & c4 & c5 & c6 & Hrows & Hc).
    assert (Hw : min_width rows = 7%nat) by (by rewrite <- length_transpose, Hc).
    split; [|split].
    + intros ->. injection Hrows as <-. done.
    + apply traverse_rows_Ok. by eexists.
    + by rewrite <- (traverse_rows_width _ _ Hrows).
Qed.

(** X6. The per-scanner body returns a profile exactly for sections whose
    raw and fit parts, after their two header lines, each have a row, only
    tokens that [float] converts and seven tokens in their shortest row,
    and whose stats lines, after the two header lines, each are a name and
    six tokens that [float] converts; the stats part may have no line. *)
Theorem read_sections_accepts lines_stats lines_raw lines_fit :
  (∃ p, read_sections to_float lines_stats lines_raw lines_fit = Ok p) ↔
  rows_accepted to_float (drop 2 lines_raw) ∧
  rows_accepted to_float (drop 2 lines_fit) ∧
  Forall (stats_line_accepted to_float) (drop 2 lines_stats).
Proof.
  split.
  - intros [p Hp]. apply read_sections_Ok in Hp
      as (raw & pos & fy & fu & fx & x & y & u &
          fit & pos' & fy_fit & fu_fit & fx_fit & x' & y' & u' & stats &
          Hraw & Hcols & Hfit & Hcols' & Hstats & _).
    split; [|split].
    + apply rows_accepted_Ok. by exists raw, pos, fy, fu, fx, x, y, u.
    + apply rows_accepted_Ok. by exists fit, pos', fy_fit, fu_fit, fx_fit, x', y', u'.
    + apply (for_each_stats_accepts _ ∅). by eexists.
  - intros (Hraw & Hfit & Hstats).
    apply rows_accepted_Ok in Hraw
      as (raw & pos & fy & fu & fx & x & y & u & Hraw & Hcols).
    apply rows_accepted_Ok in Hfit
      as (fit & pos' & fy_fit & fu_fit & fx_fit & x' & y' & u' & Hfit & Hcols').
    apply (for_each_stats_accepts _ ∅) in Hstats as [stats Hstats].
    eexists. apply read_sections_Ok.
    by exists raw, pos, fy, fu, fx, x, y, u,
      fit, pos', fy_fit, fu_fit, fx_fit, x', y', u', stats.
Qed.

(** X7. The exception for rows of the wrong width.  When all the tokens of
    the raw rows are converted but the shortest row has not seven of them,
    the body raises the [ValueError] of the unpacking: not enough values
    (expected 7, got the number of tokens of the shortest row; 0 when the
    section has no row) or too many values; likewise for the fit rows when
    the raw rows are accepted. *)
Theorem read_sections_width_error lines_stats lines_raw lines_fit :
  let error (lines : list string) :=
    if (min_width (Str.words <$> lines) <? 7)%nat
    then ValueError_not_enough 7 (min_width (Str.words <$> lines))
    else ValueError_too_many 7 in
  (Forall (λ line, numeric_tokens to_float (Str.words line)) (drop 2 lines_raw) →
   min_width (Str.words <$> drop 2 lines_raw) ≠ 7%nat →
   read_sections to_float lines_stats lines_raw lines_fit
   = Raise (error (drop 2 lines_raw))) ∧
  (rows_accepted to_float (drop 2 lines_raw) →
   Forall (λ line, numeric_tokens to_float (Str.words line)) (drop 2 lines_fit) →
   min_width (Str.words <$> drop 2 lines_fit) ≠ 7%nat →
   read_sections to_float lines_stats lines_raw lines_fit
   = Raise (error (drop 2 lines_fit))).
Proof.
  intros error. unfold error, read_sections. split.
  - intros Hnum Hw. apply traverse_rows_Ok in Hnum as [rows Hrows].
    rewrite Hrows. cbn [bind].
    rewrite <- (traverse_rows_width _ _ Hrows) in Hw |- *.
    by rewrite unpack7_transpose_Raise.
  - intros Hraw Hnum Hw.
    apply rows_accepted_Ok in Hraw
      as (raw & pos & fy & fu & fx & x & y & u & Hraw & Hcols).
    rewrite Hraw. cbn [bind]. rewrite Hcols. cbn [unpack7 bind].
    apply traverse_rows_Ok in Hnum as [rows Hrows].
    rewrite Hrows. cbn [bind].
    rewrite <- (traverse_rows_width _ _ Hrows) in Hw |- *.
    by rewrite unpack7_transpose_Raise.
Qed.
End Accept.

Section StatsKeys.
Context {float : Type} (to_float : string → option float).
Implicit Types (line key : string) (lines : list string) (stats : gmap string float).

Lemma stats_step_keys stats line stats' key :
  stats_step to_float stats line = Ok stats' →
  is_Some (stats' !! key) ↔
  is_Some (stats !! key) ∨
  ∃ name suffix, head (Str.words line) = Some name ∧
    suffix ∈ stat_suffixes ∧ key = Str.lower name +:+ suffix.
Proof.
  intros H. apply stats_step_Ok in H
    as (NAME & t1 & t2 & t3 & t4 & t5 & t6 & v1 & v2 & v3 & v4 & v5 & v6 &
        Hw & _ & _ & _ & _ & _ & _ & ->).
  rewrite Hw. cbn [head]. rewrite !lookup_insert_is_Some. split.
  - intros H. unfold stat_suffixes.
    repeat (destruct H as [<-|[_ H]];
            [right; exists NAME; eexists; split; [done|]; split; [|done]; set_solver|]).
    by left.
  - intros [H|(name & suffix & [= <-] & Hsuf & ->)].
    + repeat match goal with
             | |- ?k = key ∨ _ =>
                 destruct (decide (k = key)); [by left | right; split; [done|]]
             end.
      done.
    + unfold stat_suffixes in Hsuf.
      repeat (apply elem_of_cons in Hsuf as [->|Hsuf];
              [repeat match goal with
                      | |- ?k = ?key ∨ _ =>
                          destruct (decide (k = key)); [by left | right; split; [done|]]
                      end; congruence|]).
      by inversion Hsuf.
Qed.

Lemma for_each_stats_keys lines stats stats' key :
  for_each (stats_step to_float) lines stats = Ok stats' →
  is_Some (stats' !! key) ↔
  is_Some (stats !! key) ∨
  ∃ line name suffix, line ∈ lines ∧ head (Str.words line) = Some name ∧
    suffix ∈ stat_suffixes ∧ key = Str.lower name +:+ suffix.
Proof.
  revert stats. induction lines as [|line lines IH]; intros stats H.
  - injection H as <-. split; [by left|]. intros [?|(? & ? & ? & Hin & _)]; [done|].
    by inversion Hin.
  - simpl in H. apply bind_Ok in H as (stats1 & Hstep & H).
    rewrite (IH _ H), (stats_step_keys _ _ _ key Hstep). split.
    + intros [[?|(name & suffix & ? & ? & ?)]|(l & name & suffix & ? & ? & ? & ?)].
      * by left.
      * right. exists line, name, suffix. split; [by left | done].
      * right. exists l, name, suffix. split; [by right | done].
    + intros [?|(l & name & suffix & [->|Hin]%elem_of_cons & ? & ? & ?)].
      * left. by left.
      * left. right. by exists name, suffix.
      * right. by exists l, name, suffix.
Qed.

(** X8. The keys of the stats dict of a profile are exactly the lower-cased
    first tokens of the stats lines (after the two header lines) followed
    by one of [_x_rms], [_x_fit], [_y_rms], [_y_fit], [_u_rms], [_u_fit]. *)
Theorem stats_keys lines_stats lines_raw lines_fit p key :
  read_sections to_float lines_stats lines_raw lines_fit = Ok p →
  is_Some (p_stats p !! key) ↔
  ∃ line name suffix,
    line ∈ drop 2 lines_stats ∧ head (Str.words line) = Some name ∧
    suffix ∈ stat_suffixes ∧ key = Str.lower name +:+ suffix.
Proof.
  intros Hp. apply read_sections_Ok in Hp
    as (? & ? & ? & ? & ? & ? & ? & ? & ? & ? & ? & ? & ? & ? & ? & ? & stats &
        _ & _ & _ & _ & Hstats & ->).
  simpl. rewrite (for_each_stats_keys _ _ _ key Hstats), lookup_empty.
  split; [|by right]. intros [[? ?]|?]; done.
Qed.
End StatsKeys.

Section FileName.
Implicit Types (s dir name tail fn : string) (c : ascii).

Lemma prefix_char c x s :
  String.prefix (String c "") (String x s) = Ascii.eqb x c.
Proof.
  rewrite StrFacts.prefix_cons. destruct (ascii_dec c x) as [->|Hne].
  - rewrite Ascii.eqb_refl. by destruct s.
  - symmetry. apply Ascii.eqb_neq. congruence.
Qed.

(** One step of [split] on one character. *)
Lemma split_from_char_step c x s :
  Str.split_from (String c "") 0 (String x s)
  = let '(w, ws) := Str.split_from (String c "") 0 s in
    if Ascii.eqb x c then ("", w :: ws) else (String x w, ws).
Proof.
  cbn [Str.split_from]. rewrite prefix_char.
  destruct (Ascii.eqb x c); [|done].
  change (String.length (String c "") - 1)%nat with 0%nat. done.
Qed.

Lemma length_split_char c s :
  length (Str.split s (String c "")) = S (count_char c s).
Proof.
  unfold Str.split. induction s as [|x s IH]; [done|].
  rewrite split_from_char_step. cbn [count_char].
  destruct (Str.split_from (String c "") 0 s) as [w ws].
  destruct (Ascii.eqb x c); simpl in *; lia.
Qed.

(** The text after the last occurrence of a character. *)
Lemma split_char_last c dir name :
  Str.all (Str.is_not c) name = true →
  item_last (Str.split (dir +:+ String c name) (String c "")) = Ok name.
Proof.
  intros Hname. unfold Str.split, item_last.
  assert (H : ∃ w ws, Str.split_from (String c "") 0 (dir +:+ String c name) = (w, ws) ∧
                      last ws = Some name).
  { induction dir as [|x dir (w & ws & IH & Hlast)].
    - rewrite StrFacts.app_nil_l, split_from_char_step, Ascii.eqb_refl.
      rewrite (split_from_absent _ _ (contains_char_absent _ _ Hname)).
      by eexists _, _.
    - rewrite StrFacts.app_cons, split_from_char_step, IH.
      destruct (Ascii.eqb x c); eexists _, _; split; try done.
      by rewrite last_cons, Hlast. }
  destruct H as (w & ws & -> & Hlast). by rewrite last_cons, Hlast.
Qed.

Lemma split_last_never_raises s sep : ∃ piece, item_last (Str.split s sep) = Ok piece.
Proof.
  unfold Str.split, item_last. destruct (Str.split_from sep 0 s) as [w ws].
  destruct (last (w :: ws)) eqn:E; [by eexists | by apply last_None in E].
Qed.
End FileName.

Section FileNameShort.
Context {float : Type} (to_float : string → option float).

(** X9. In an object that has been built, [filename_short] is the part of
    the file name after its last slash, the whole name when it has no
    slash; [filename] is the name as given. *)
Theorem filename_short_basename fn file (m : @PTA float) :
  PTA_init to_float fn file = Ok m →
  filename m = fn ∧
  (Str.all (Str.is_not "/") fn = true → filename_short m = fn) ∧
  (∀ dir name, fn = dir +:+ "/" +:+ name → Str.all (Str.is_not "/") name = true →
               filename_short m = name).
Proof.
  intros Hm. apply PTA_init_Ok in Hm
    as (short & ts & ts_short & st & self & Hshort & _ & _ & _ & ->).
  simpl. split; [done|]. split.
  - intros Hfn. rewrite (split_char_absent "/" _ Hfn) in Hshort. by injection Hshort.
  - intros dir name -> Hname.
    change (dir +:+ "/" +:+ name) with (dir +:+ String "/" name) in Hshort.
    rewrite (split_char_last "/" dir name Hname) in Hshort. by injection Hshort.
Qed.
End FileNameShort.

Section TimestampMore.
Implicit Types (s dir tail fn : string).

(** X10. The timestamp is read from the text after the last occurrence of
    [WireAnalysisFmt-]: what precedes it plays no part, and a file name
    without the marker is read as a whole. *)
Theorem read_timestamp_after_marker dir tail :
  Str.contains tail "WireAnalysisFmt-" = false →
  read_timestamp (dir +:+ "WireAnalysisFmt-" +:+ tail) = read_timestamp tail.
Proof.
  intros Htail.
  assert (Hwhole : item_last (Str.split tail "WireAnalysisFmt-") = Ok tail).
  { unfold Str.split, item_last. by rewrite (split_from_absent _ _ Htail). }
  unfold read_timestamp. by rewrite (split_marker_last dir tail Htail), Hwhole.
Qed.

Lemma unpack2_length {A : Type} (xs : list A) :
  length xs ≠ 2%nat → unpack2 xs = Raise (unpack_error 2 xs).
Proof. by destruct xs as [|? [|? [|? ?]]]. Qed.

(** X11. The text after the marker must hold exactly one underscore: with
    none the unpacking of date and time raises "not enough values (expected
    2, got 1)", with two or more "too many values (expected 2)". *)
Theorem read_timestamp_underscores fn tail :
  item_last (Str.split fn "WireAnalysisFmt-") = Ok tail →
  count_char "_" tail ≠ 1%nat →
  read_timestamp fn
  = Raise (if (count_char "_" tail =? 0)%nat
           then ValueError_not_enough 2 1
           else ValueError_too_many 2).
Proof.
  intros Htail Hcount. unfold read_timestamp. rewrite Htail. cbn [bind].
  pose proof (length_split_char "_" tail) as Hlen.
  rewrite unpack2_length by lia. cbn [bind]. unfold unpack_error. rewrite Hlen.
  destruct (count_char "_" tail) as [|[|n]]; done.
Qed.

Lemma Ok_pair_inj {A B : Type} (a a' : A) (b b' : B) :
  Ok (a, b) = Ok (a', b') → a = a' ∧ b = b'.
Proof. by intros [= -> ->]. Qed.

Lemma make_datetime_inv (y mo d h mi sec : Z) ts :
  make_datetime y mo d h mi sec = Ok ts →
  ts = Datetime y mo d h mi sec ∧
  1 ≤ y ≤ 9999 ∧ 1 ≤ mo ≤ 12 ∧ 1 ≤ d ≤ days_in_month y mo ∧
  0 ≤ h ≤ 23 ∧ 0 ≤ mi ≤ 59 ∧ 0 ≤ sec ≤ 59.
Proof.
  unfold make_datetime, in_range.
  repeat (case_match; [done|]).
  intros [= <-].
  repeat match goal with
         | H : negb _ = false |- _ => apply negb_false_iff, andb_true_iff in H as [?%Z.leb_le ?%Z.leb_le]
         end.
  repeat split; lia.
Qed.

(** X12. A timestamp that has been read is a calendar date and time: year
    1 to 9999, month 1 to 12, a day of that month, hour 0 to 23, minute
    and second 0 to 59.  The short form is the year and the five other
    fields, each in two characters, without the first two characters: for
    a year of four digits these are twelve characters that start with the
    last two digits of the year. *)
Theorem read_timestamp_valid fn ts short :
  read_timestamp fn = Ok (ts, short) →
  (1 ≤ year ts ≤ 9999 ∧ 1 ≤ month ts ≤ 12 ∧
   1 ≤ day ts ≤ days_in_month (year ts) (month ts) ∧
   0 ≤ hour ts ≤ 23 ∧ 0 ≤ minute ts ≤ 59 ∧ 0 ≤ second ts ≤ 59) ∧
  short = Str.drop 2
    (Str.of_int (year ts) +:+ Str.format_02_0f (month ts) +:+
     Str.format_02_0f (day ts) +:+ Str.format_02_0f (hour ts) +:+
     Str.format_02_0f (minute ts) +:+ Str.format_02_0f (second ts)) ∧
  (1000 ≤ year ts →
   String.length short = 12%nat ∧
   short = Str.format_02_0f (year ts mod 100) +:+ Str.format_02_0f (month ts) +:+
           Str.format_02_0f (day ts) +:+ Str.format_02_0f (hour ts) +:+
           Str.format_02_0f (minute ts) +:+ Str.format_02_0f (second ts)).
Proof.
  unfold read_timestamp. intros H.
  apply bind_Ok in H as (tail & _ & H).
  apply bind_Ok in H as ([date time] & _ & H).
  apply bind_Ok in H as (time' & _ & H).
  apply bind_Ok in H as (ymd & _ & H).
  apply bind_Ok in H as ([[y mo] d] & _ & H).
  apply bind_Ok in H as (hms & _ & H).
  apply bind_Ok in H as ([[h mi] sec] & _ & H).
  apply bind_Ok in H as (ts' & Hts & H).
  apply Ok_pair_inj in H as [<- <-].
  apply make_datetime_inv in Hts as (-> & Hy & Hmo & Hd & Hh & Hmi & Hsec).
  unfold year, month, day, hour, minute, second. cbv beta iota.
  split; [done|]. split; [done|].
  intros Hy'. destruct (year_short y ltac:(lia)) as [Hdrop Hlen].
  rewrite drop_app by lia. rewrite Hdrop. split; [|done].
  rewrite !StrFacts.length_app, !two_chars; [done|..]; try lia.
  - pose proof (days_in_month_le y mo). lia.
  - pose proof (Z.mod_pos_bound y 100). lia.
Qed.
End TimestampMore.

Section Lines.
Implicit Types (s line raw : string) (file junk : list string) (st : collect_state).

Lemma rstrip_idempotent s : Str.rstrip (Str.rstrip s) = Str.rstrip s.
Proof.
  induction s as [|c s IH]; [done|].
  cbn [Str.rstrip]. destruct (Str.rstrip s) as [|d r] eqn:E.
  - destruct (Str.isspace c) eqn:Hc; [done|].
    cbn [Str.rstrip]. by rewrite Hc.
  - cbn [Str.rstrip]. cbn [Str.rstrip] in IH. rewrite IH. done.
Qed.

Lemma collect_step_stripped st raw :
  collect_step st (Str.rstrip raw) = collect_step st raw.
Proof. unfold collect_step. by rewrite rstrip_idempotent. Qed.

Lemma for_each_collect_stripped file st :
  for_each collect_step (stripped file) st = for_each collect_step file st.
Proof.
  revert st. induction file as [|raw file IH]; intros st; [done|].
  cbn [stripped fmap list_fmap for_each]. rewrite collect_step_stripped.
  destruct (collect_step st raw); [apply IH | done].
Qed.

(** A line that is neither a marker nor a logger-ID line, before any
    marker, leaves the state of the loop as it is. *)
Lemma collect_step_ignored st raw :
  cs_ws_id st = None →
  is_marker (Str.rstrip raw) = false → is_logger_line (Str.rstrip raw) = false →
  collect_step st raw = Ok st.
Proof.
  unfold collect_step, is_marker, is_logger_line. intros Hid -> ->.
  rewrite Hid. destruct st as [lines ws_id pvloggerid].
  cbn [cs_lines cs_ws_id cs_pvloggerid] in *. by subst.
Qed.

Lemma for_each_collect_ignored junk st :
  cs_ws_id st = None →
  Forall (λ raw, is_marker (Str.rstrip raw) = false ∧
                 is_logger_line (Str.rstrip raw) = false) junk →
  for_each collect_step junk st = Ok st.
Proof.
  intros Hid. induction 1 as [|raw junk [Hm Hl] _ IH]; [done|].
  simpl. by rewrite collect_step_ignored.
Qed.
End Lines.

Section FileMore.
Context {float : Type} (to_float : string → option float).
Implicit Types (file junk : list string) (m : @PTA float) (id fn : string).

(** The constructor as a function of what the loop has collected. *)
Lemma PTA_init_collect fn file1 file2 st1 st2 :
  collect file1 = Ok st1 → collect file2 = Ok st2 →
  cs_lines st1 = cs_lines st2 → cs_pvloggerid st1 = cs_pvloggerid st2 →
  PTA_init to_float fn file1 = PTA_init to_float fn file2.
Proof.
  intros H1 H2 Hl Hp. unfold PTA_init.
  destruct (item_last (Str.split fn "/")) as [short|]; [|done].
  unfold read_file. cbn [bind].
  destruct (read_timestamp fn) as [[ts ts_short]|]; [|done].
  cbn [bind]. rewrite H1, H2. cbn [bind]. by rewrite Hl, Hp.
Qed.

Lemma PTA_init_collect_eq fn file1 file2 :
  collect file1 = collect file2 →
  PTA_init to_float fn file1 = PTA_init to_float fn file2.
Proof.
  intros Heq. unfold PTA_init.
  destruct (item_last (Str.split fn "/")) as [short|]; [|done].
  unfold read_file. cbn [bind].
  destruct (read_timestamp fn) as [[ts ts_short]|]; [|done].
  cbn [bind]. by rewrite Heq.
Qed.

(** X13. White space at the end of the lines, the line ends among it, plays
    no part: two files whose lines are equal up to it give the same object
    or the same exception. *)
Theorem trailing_space_ignored fn file1 file2 :
  stripped file1 = stripped file2 →
  PTA_init to_float fn file1 = PTA_init to_float fn file2.
Proof.
  intros Heq. apply PTA_init_collect_eq. unfold collect.
  by rewrite <- (for_each_collect_stripped file1),
             <- (for_each_collect_stripped file2), Heq.
Qed.

(** X14. The lines before the first marker are dropped: lines that are
    neither markers nor logger-ID lines, put in front of a file, change
    nothing. *)
Theorem leading_lines_ignored fn junk file :
  Forall (λ raw, is_marker (Str.rstrip raw) = false ∧
                 is_logger_line (Str.rstrip raw) = false) junk →
  PTA_init to_float fn (junk ++ file) = PTA_init to_float fn file.
Proof.
  intros Hjunk. apply PTA_init_collect_eq. unfold collect.
  by rewrite for_each_app, (for_each_collect_ignored junk collect_init eq_refl Hjunk).
Qed.

(** X15. A logger-ID line whose value cannot be read aborts the
    construction with the exception of reading it, when the timestamp and
    the lines before it are read without one, wherever the line is, also
    before the first marker: [IndexError] when the line has no [=], the
    [ValueError] of [int] otherwise. *)
Theorem logger_line_error fn file before raw rest e tss :
  read_timestamp fn = Ok tss →
  file = before ++ raw :: rest →
  (∃ st, collect before = Ok st) →
  is_logger_line (Str.rstrip raw) = true →
  logger_id_of (Str.rstrip raw) = Raise e →
  PTA_init to_float fn file = Raise e ∧
  (count_char "=" (Str.rstrip raw) = 0%nat → e = IndexError) ∧
  (count_char "=" (Str.rstrip raw) ≠ 0%nat → ∃ value, e = ValueError_int value).
Proof.
  intros Hts -> [st Hst] Hlog He. split; [|split].
  - unfold PTA_init. destruct (split_last_never_raises fn "/") as [short ->].
    unfold read_file. cbn [bind]. rewrite Hts. destruct tss as [ts short'].
    cbn [bind]. unfold collect in *. rewrite for_each_app, Hst. cbn [bind for_each].
    assert (Hstep : collect_step st raw = Raise e).
    { unfold collect_step.
      pose proof (logger_line_not_marker _ Hlog) as Hm.
      unfold is_marker, is_logger_line, logger_id_of in *.
      rewrite Hm, Hlog. apply bind_Raise in He as [He|(value & Hv & He)].
      - by rewrite He.
      - rewrite Hv. cbn [bind]. by rewrite He. }
    by rewrite Hstep.
  - intros Hcount. unfold logger_id_of in He.
    pose proof (length_split_char "=" (Str.rstrip raw)) as Hlen. rewrite Hcount in Hlen.
    destruct (Str.split (Str.rstrip raw) "=") as [|piece [|? ?]]; try done.
    by injection He.
  - intros Hcount. unfold logger_id_of in He.
    pose proof (length_split_char "=" (Str.rstrip raw)) as Hlen.
    destruct (Str.split (Str.rstrip raw) "=") as [|piece [|value pieces]];
      [simpl in Hlen; lia..|].
    cbn in He. exists value. by apply to_int_Raise in He.
Qed.

(** No line belongs to a scanner whose ID is not a marker line. *)
Lemma lines_after_no_marker id file :
  id ∉ marker_lines file → lines_after id None file = [].
Proof.
  intros Hm. destruct (lines_after id None file) eqn:E; [done|].
  assert (Hne : lines_after id None file ≠ []) by (by rewrite E).
  by apply lines_after_marker in Hne.
Qed.


Lemma for_each_node_step_Ok lines ids (self : gmap string (@profile float)) :
  (∀ id, id ∈ ids → ∃ node_lines p,
      lines !! id = Some node_lines ∧ read_node to_float node_lines = Ok p) →
  ∃ self', for_each (node_step to_float lines) ids self = Ok self'.
Proof.
  revert self. induction ids as [|id ids IH]; intros self Hall; [by eexists|].
  destruct (Hall id) as (node_lines & p & Hl & Hp); [by left|].
  simpl. unfold node_step at 1, getitem. rewrite Hl. cbn [bind]. rewrite Hp. cbn [bind].
  apply IH. intros id' Hid'. apply Hall. by right.
Qed.

(** X17. When the lines of several scanners cannot be read, the exception is
    that of the first of them in the order of the IDs, not in the order of
    the file: the construction raises the exception of a scanner when the
    scanners with smaller IDs are read without one. *)
Theorem first_failing_scanner fn file tss st id node_lines e :
  read_timestamp fn = Ok tss →
  collect file = Ok st →
  cs_lines st !! id = Some node_lines →
  read_node to_float node_lines = Raise e →
  (∀ id' node_lines',
      cs_lines st !! id' = Some node_lines' → String.le id' id → id' ≠ id →
      ∃ p, read_node to_float node_lines' = Ok p) →
  PTA_init to_float fn file = Raise e.
Proof.
  intros Hts Hst Hid He Hsmaller.
  unfold PTA_init. destruct (split_last_never_raises fn "/") as [short ->].
  unfold read_file. cbn [bind]. rewrite Hts. destruct tss as [ts short'].
  cbn [bind]. rewrite Hst. cbn [bind].
  assert (Hin : id ∈ sorted_keys (cs_lines st)).
  { apply elem_of_sorted_keys. by eexists. }
  apply list_elem_of_split in Hin as (l1 & l2 & Hsplit).
  pose proof (sorted_StronglySorted (elements (dom (cs_lines st)))) as Hsorted.
  pose proof (NoDup_sorted_keys (cs_lines st)) as Hnodup.
  unfold sorted_keys in Hsplit, Hnodup. rewrite Hsplit in Hsorted, Hnodup.
  unfold sorted_keys. rewrite Hsplit, for_each_app.
  destruct (for_each_node_step_Ok (cs_lines st) l1 ∅) as [self1 ->].
  { intros id' Hid'.
    assert (Hkey : id' ∈ sorted_keys (cs_lines st)).
    { unfold sorted_keys. rewrite Hsplit. apply elem_of_app. by left. }
    apply elem_of_sorted_keys in Hkey as [node_lines' Hl'].
    destruct (Hsmaller id' node_lines' Hl') as [p Hp].
    - eapply (StronglySorted_app_1_elem_of String.le l1 (id :: l2)); [done..|by left].
    - intros ->. apply NoDup_app in Hnodup as (_ & Hdisj & _).
      apply (Hdisj id); [done | by left].
    - by exists node_lines', p. }
  cbn [bind for_each]. unfold node_step at 1, getitem. rewrite Hid. cbn [bind].
  by rewrite He.
Qed.

(** X18. The object depends on the file through the lines of each scanner
    and the last logger-ID line only: two files whose logger-ID lines can
    be read and that agree on them, such as files with the same scanners in
    another order, give the same object or the same exception. *)
Theorem same_lines_same_object fn file1 file2 st1 st2 :
  collect file1 = Ok st1 → collect file2 = Ok st2 →
  (∀ id, lines_after id None file1 = lines_after id None file2) →
  last (logger_lines file1) = last (logger_lines file2) →
  PTA_init to_float fn file1 = PTA_init to_float fn file2.
Proof.
  intros H1 H2 Hlines Hlast. apply (PTA_init_collect fn _ _ st1 st2 H1 H2).
  - apply map_eq. intros id.
    by rewrite (collect_lines _ _ id H1), (collect_lines _ _ id H2), Hlines.
  - destruct (collect_Ok _ _ H1) as (_ & _ & Hpv1).
    destruct (collect_Ok _ _ H2) as (_ & _ & Hpv2).
    rewrite <- Hlast in Hpv2.
    destruct (last (logger_lines file1)) as [line|]; [|congruence].
    destruct Hpv1 as (n1 & Hn1 & ->). destruct Hpv2 as (n2 & Hn2 & ->). congruence.
Qed.

(** X19. The three lines at the end of the module: an exception of the
    construction is the exception of the script; after a construction
    without one, the script raises [KeyError] when no line belongs to the
    scanner [RTBT_Diag:WS24], and prints the stats read from the lines of
    this scanner otherwise. *)
Theorem script_result file :
  (∀ e, PTA_init to_float "WireAnalysisFmt-2023.02.27_23.57.00.pta.txt" file = Raise e →
        script to_float file = Raise e) ∧
  (∀ m, PTA_init to_float "WireAnalysisFmt-2023.02.27_23.57.00.pta.txt" file = Ok m →
        lines_after "RTBT_Diag:WS24" None file = [] →
        script to_float file = Raise (KeyError "RTBT_Diag:WS24")) ∧
  (∀ m, PTA_init to_float "WireAnalysisFmt-2023.02.27_23.57.00.pta.txt" file = Ok m →
        lines_after "RTBT_Diag:WS24" None file ≠ [] →
        ∃ p, read_node to_float (lines_after "RTBT_Diag:WS24" None file) = Ok p ∧
             profiles m !! "RTBT_Diag:WS24" = Some p ∧
             script to_float file = Ok (p_stats p)).
Proof.
  unfold script. split; [|split].
  - by intros e ->.
  - intros m Hm Hnil. rewrite Hm. cbn [bind].
    destruct (PTA_init_profiles _ _ _ _ Hm) as (st & Hst & _ & _ & _ & Hout).
    pose proof (collect_lines _ _ "RTBT_Diag:WS24" Hst) as Hl.
    rewrite Hnil in Hl. unfold getitem. by rewrite (Hout _ Hl).
  - intros m Hm Hne. rewrite Hm. cbn [bind].
    destruct (PTA_init_profiles _ _ _ _ Hm) as (st & Hst & _ & _ & Hin & _).
    destruct (Hin "RTBT_Diag:WS24" (lines_after "RTBT_Diag:WS24" None file))
      as (p & Hp & Hmp).
    { by apply (collect_lines_Some _ _ _ _ Hst). }
    exists p. split; [done|]. split; [done|].
    unfold getitem. by rewrite Hmp.
Qed.
End FileMore.

Section SplitTheorems.
Context {A : Type} `{EqDecision A}.
Implicit Types (items first section : list A) (more sections : list (list A)) (token : A).

Lemma join_terminated token first sections :
  flat_map (λ section, section ++ [token]) (first :: sections)
  = join_sections token first (sections ++ [[]]).
Proof.
  unfold join_sections. revert first.
  induction sections as [|section sections IH]; intros first.
  - simpl. by rewrite app_nil_r.
  - change (flat_map (λ s, s ++ [token]) (first :: section :: sections))
      with ((first ++ [token]) ++ flat_map (λ s, s ++ [token]) (section :: sections)).
    rewrite IH, <- app_assoc. done.
Qed.

Lemma kept_sections_all first more :
  first ≠ [] → more ≠ [] → Forall (λ section, section ≠ []) more →
  kept_sections first more = first :: more.
Proof.
  intros Hfirst Hne Hall. unfold kept_sections.
  destruct first as [|x first]; [done|]. simpl. f_equal.
  destruct (last more) as [final|] eqn:Hlast; [|by apply last_None in Hlast].
  apply last_Some in Hlast as [init ->]. rewrite length_app.
  rewrite Forall_app, Forall_singleton in Hall. destruct Hall as [_ Hfinal].
  replace (length init + length [final] - 1)%nat
    with (length init) by (simpl; lia).
  rewrite take_app_length. by destruct final.
Qed.

Lemma kept_sections_terminated first sections :
  first ≠ [] → kept_sections first (sections ++ [[]]) = first :: sections.
Proof.
  intros Hfirst. unfold kept_sections.
  destruct first as [|x first]; [done|]. simpl. f_equal.
  rewrite last_snoc, length_app.
  replace (length sections + length [[] : list A] - 1)%nat
    with (length sections) by (simpl; lia).
  by rewrite take_app_length, app_nil_r.
Qed.

(** X1. [split] gives back the sections a sequence was made of.  For
    sections without the token: the sequence that has the token between
    the sections is split into them, without the first and the last section
    when they are empty; when no section is empty the result is the list of
    the sections; and so it is for the sequence that has the token after
    every section, the form of the lines of a scanner, when the first
    section is not empty. *)
Theorem split_round_trip token first more :
  token ∉ first → Forall (λ section, token ∉ section) more →
  (more ≠ [] →
   split (join_sections token first more) token = Ok (kept_sections first more)) ∧
  (more ≠ [] → first ≠ [] → Forall (λ section, section ≠ []) more →
   split (join_sections token first more) token = Ok (first :: more)) ∧
  (first ≠ [] →
   split (flat_map (λ section, section ++ [token]) (first :: more)) token
   = Ok (first :: more)).
Proof.
  intros Hfirst Hmore. split; [|split].
  - intros Hne. by apply split_join_sections.
  - intros Hne Hnil Hall.
    rewrite split_join_sections by done. by rewrite kept_sections_all.
  - intros Hnil. rewrite join_terminated, split_join_sections.
    + by rewrite kept_sections_terminated.
    + done.
    + apply Forall_app. split; [done|]. apply Forall_singleton, not_elem_of_nil.
    + by destruct more.
Qed.

(** X2. [split] returns exactly when the token occurs in the sequence; no
    section it returns contains the token, and the sections, one after the
    other, are the items of the sequence that are not the token, in order:
    no item is lost, repeated or moved. *)
Theorem split_sections items token :
  (token ∈ items ↔ ∃ sections, split items token = Ok sections) ∧
  (∀ sections, split items token = Ok sections →
     Forall (λ section, token ∉ section) sections ∧
     concat sections = filter (λ x, x ≠ token) items).
Proof.
  split.
  - split.
    + apply split_present.
    + intros [sections H]. by apply split_Ok_sections in H as (Hin & _).
  - intros sections H. by apply split_Ok_sections in H as (_ & Hall & Hcat).
Qed.
End SplitTheorems.

Section Tokens.
Context {float : Type} (to_float : string → option float).
Implicit Types (line token : string).

Lemma words_blank line : Str.all Str.isspace line = true → Str.words line = [].
Proof.
  induction line as [|c line IH]; [done|]. cbn [Str.all Str.words].
  intros [Hc Hline]%andb_true_iff. rewrite Hc. by apply IH.
Qed.

(** X5. [string_to_list] converts a line exactly when [float] converts all
    its white-space separated tokens; the list has one float for each token,
    in order, and a line of white space only gives the empty list. *)
Theorem string_to_list_tokens line :
  (numeric_tokens to_float (Str.words line) ↔
   ∃ values, string_to_list to_float line = Ok values) ∧
  (∀ values, string_to_list to_float line = Ok values →
     length values = length (Str.words line) ∧
     ∀ i token, Str.words line !! i = Some token →
       ∃ v, values !! i = Some v ∧ to_float token = Some v) ∧
  (Str.all Str.isspace line = true → string_to_list to_float line = Ok []).
Proof.
  split; [|split].
  - apply traverse_float_Ok.
  - unfold string_to_list. intros values H. split; [by apply traverse_length in H|].
    intros i token Hi. apply traverse_Ok in H.
    destruct (Forall2_lookup_l _ _ _ _ _ H Hi) as (v & Hv & Hf).
    exists v. split; [done|]. by apply float_of_Ok in Hf.
  - intros Hblank. unfold string_to_list. by rewrite words_blank.
Qed.
End Tokens.

(** * The further properties on the sample data *)

Lemma split_round_trip_witness :
  split ["cat"; "dog"; "x"; "tree"; "bark"] "x" = Ok [["cat"; "dog"]; ["tree"; "bark"]] ∧
  split ["x"; "cat"; "x"; "x"] "x" = Ok [["cat"]; []] ∧
  split sample_block ""
  = Ok [ ["Stats"; "-----"; "Sigma 10 20 30 40 50 60"];
         ["Raw"; "-----"; "0 1 2 3 4 5 6"];
         ["Fit"; "-----"; "0 11 12 13 14 15 16"] ].
Proof.
  split; [|split].
  - apply (proj1 (proj2 (split_round_trip "x" ["cat"; "dog"] [["tree"; "bark"]]
                           ltac:(by apply (bool_decide_unpack _))
                           ltac:(by apply (bool_decide_unpack _))))).
    + discriminate.
    + discriminate.
    + repeat constructor; discriminate.
  - apply (proj1 (split_round_trip "x" [] [["cat"]; []; []]
                    ltac:(by apply (bool_decide_unpack _))
                    ltac:(by apply (bool_decide_unpack _)))).
    discriminate.
  - apply (proj2 (proj2 (split_round_trip ""
                           ["Stats"; "-----"; "Sigma 10 20 30 40 50 60"]
                           [ ["Raw"; "-----"; "0 1 2 3 4 5 6"];
                             ["Fit"; "-----"; "0 11 12 13 14 15 16"] ]
                           ltac:(by apply (bool_decide_unpack _))
                           ltac:(by apply (bool_decide_unpack _))))).
    discriminate.
Defined.

Lemma split_sections_witness :
  ("" ∈ sample_block) ∧
  ∃ sections,
    split sample_block "" = Ok sections ∧
    Forall (λ section, "" ∉ section) sections ∧
    concat sections = filter (λ line, line ≠ "") sample_block.
Proof.
  assert (Hin : "" ∈ sample_block) by (by apply (bool_decide_unpack _)).
  split; [exact Hin|].
  destruct (proj1 (proj1 (split_sections sample_block "")) Hin) as [sections H].
  exists sections. split; [exact H|].
  exact (proj2 (split_sections sample_block "") sections H).
Defined.

Lemma string_to_list_tokens_witness :
  numeric_tokens float_of_int_literal (Str.words "0 1 2 3 4 5 6") ∧
  (∃ values, string_to_list float_of_int_literal "0 1 2 3 4 5 6" = Ok values) ∧
  (∃ v, [0; 1; 2; 3; 4; 5; 6] !! 3%nat = Some v ∧ float_of_int_literal "3" = Some v) ∧
  string_to_list float_of_int_literal "  	 " = Ok [].
Proof.
  assert (Hnum : numeric_tokens float_of_int_literal (Str.words "0 1 2 3 4 5 6")).
  { repeat constructor; by eexists. }
  split; [exact Hnum|]. split; [|split].
  - exact (proj1 (proj1 (string_to_list_tokens float_of_int_literal "0 1 2 3 4 5 6")) Hnum).
  - exact (proj2 (proj1 (proj2 (string_to_list_tokens float_of_int_literal "0 1 2 3 4 5 6"))
                    [0; 1; 2; 3; 4; 5; 6] eq_refl) 3%nat "3" eq_refl).
  - exact (proj2 (proj2 (string_to_list_tokens float_of_int_literal "  	 ")) eq_refl).
Defined.

Lemma transpose_shape_witness :
  length (transpose [[1; 2; 3]; [4; 5]; [6; 7; 8]]) = 2%nat ∧
  Nat.le (length (transpose [[1; 2; 3]; [4; 5]; [6; 7; 8]])) (length [6; 7; 8]) ∧
  length [2; 5; 7] = 3%nat ∧
  ∃ col v, transpose [[1; 2; 3]; [4; 5]; [6; 7; 8]] !! 1%nat = Some col ∧
           col !! 2%nat = Some v ∧ [6; 7; 8] !! 1%nat = Some v.
Proof.
  destruct (transpose_shape [[1; 2; 3]; [4; 5]; [6; 7; 8]])
    as (Hlen & Hle & Hcol & Hitem).
  split; [exact Hlen|]. split; [|split].
  - apply Hle. by apply (bool_decide_unpack _).
  - apply (Hcol [2; 5; 7]). by apply (bool_decide_unpack _).
  - apply (Hitem 1%nat 2%nat [6; 7; 8]); [simpl; lia | reflexivity].
Defined.

Lemma transpose_involutive_witness :
  transpose [[1; 2; 3]; [4; 5; 6]] = [[1; 4]; [2; 5]; [3; 6]] ∧
  transpose (transpose [[1; 2; 3]; [4; 5; 6]]) = [[1; 2; 3]; [4; 5; 6]].
Proof.
  split; [reflexivity|].
  apply (transpose_involutive [[1; 2; 3]; [4; 5; 6]] 3).
  - discriminate.
  - lia.
  - repeat constructor.
Defined.

Lemma read_sections_accepts_witness :
  rows_accepted float_of_int_literal ["0 1 2 3 4 5 6"] ∧
  rows_accepted float_of_int_literal ["0 11 12 13 14 15 16"] ∧
  Forall (stats_line_accepted float_of_int_literal) ["Sigma 10 20 30 40 50 60"] ∧
  ∃ p, read_sections float_of_int_literal
         ["Stats"; "-----"; "Sigma 10 20 30 40 50 60"]
         ["Raw"; "-----"; "0 1 2 3 4 5 6"]
         ["Fit"; "-----"; "0 11 12 13 14 15 16"] = Ok p.
Proof.
  assert (Hraw : rows_accepted float_of_int_literal ["0 1 2 3 4 5 6"]).
  { split; [discriminate|]. split; [|reflexivity].
    repeat constructor; by eexists. }
  assert (Hfit : rows_accepted float_of_int_literal ["0 11 12 13 14 15 16"]).
  { split; [discriminate|]. split; [|reflexivity].
    repeat constructor; by eexists. }
  assert (Hstats : Forall (stats_line_accepted float_of_int_literal)
                     ["Sigma 10 20 30 40 50 60"]).
  { constructor; [|constructor].
    exists "Sigma", ["10"; "20"; "30"; "40"; "50"; "60"].
    split; [reflexivity|]. split; [reflexivity|]. repeat constructor; by eexists. }
  split; [exact Hraw|]. split; [exact Hfit|]. split; [exact Hstats|].
  exact (proj2 (read_sections_accepts float_of_int_literal
                  ["Stats"; "-----"; "Sigma 10 20 30 40 50 60"]
                  ["Raw"; "-----"; "0 1 2 3 4 5 6"]
                  ["Fit"; "-----"; "0 11 12 13 14 15 16"])
               (conj Hraw (conj Hfit Hstats))).
Defined.

Lemma read_sections_width_error_witness :
  read_sections float_of_int_literal
    ["Stats"; "-----"; "Sigma 10 20 30 40 50 60"]
    ["Raw"; "-----"; "0 1 2 3 4 5 6"; "0 1 2 3 4 5"]
    ["Fit"; "-----"; "0 11 12 13 14 15 16"]
  = Raise (ValueError_not_enough 7 6) ∧
  read_sections float_of_int_literal
    ["Stats"; "-----"; "Sigma 10 20 30 40 50 60"]
    ["Raw"; "-----"; "0 1 2 3 4 5 6"]
    ["Fit"; "-----"; "0 11 12 13 14 15 16 17"]
  = Raise (ValueError_too_many 7).
Proof.
  split.
  - apply (proj1 (read_sections_width_error float_of_int_literal
                    ["Stats"; "-----"; "Sigma 10 20 30 40 50 60"]
                    ["Raw"; "-----"; "0 1 2 3 4 5 6"; "0 1 2 3 4 5"]
                    ["Fit"; "-----"; "0 11 12 13 14 15 16"])).
    + repeat constructor; by eexists.
    + discriminate.
  - apply (proj2 (read_sections_width_error float_of_int_literal
                    ["Stats"; "-----"; "Sigma 10 20 30 40 50 60"]
                    ["Raw"; "-----"; "0 1 2 3 4 5 6"]
                    ["Fit"; "-----"; "0 11 12 13 14 15 16 17"])).
    + split; [discriminate|]. split; [|reflexivity]. repeat constructor; by eexists.
    + repeat constructor; by eexists.
    + discriminate.
Defined.

Lemma stats_keys_witness :
  read_sections float_of_int_literal
    ["Stats"; "-----"; "Sigma 10 20 30 40 50 60"]
    ["Raw"; "-----"; "0 1 2 3 4 5 6"]
    ["Fit"; "-----"; "0 11 12 13 14 15 16"] = Ok sample_profile ∧
  is_Some (p_stats sample_profile !! "sigma_x_rms") ∧
  ¬ is_Some (p_stats sample_profile !! "Sigma_x_rms").
Proof.
  assert (Hp : read_sections float_of_int_literal
    ["Stats"; "-----"; "Sigma 10 20 30 40 50 60"]
    ["Raw"; "-----"; "0 1 2 3 4 5 6"]
    ["Fit"; "-----"; "0 11 12 13 14 15 16"] = Ok sample_profile)
    by (vm_compute; reflexivity).
  split; [exact Hp|]. split.
  - apply (proj2 (stats_keys float_of_int_literal _ _ _ _ "sigma_x_rms" Hp)).
    exists "Sigma 10 20 30 40 50 60", "Sigma", "_x_rms".
    split; [by apply (bool_decide_unpack _)|]. split; [reflexivity|].
    split; [by apply (bool_decide_unpack _) | reflexivity].
  - intros Hsome.
    apply (proj1 (stats_keys float_of_int_literal _ _ _ _ "Sigma_x_rms" Hp)) in Hsome
      as (line & name & suffix & Hline & Hname & _ & Hkey).
    apply list_elem_of_singleton in Hline as ->.
    injection Hname as <-. revert Hkey.
    destruct suffix as [|c suffix]; [discriminate|]. discriminate.
Defined.

Lemma filename_short_basename_witness :
  ∃ m, PTA_init float_of_int_literal ("/data/ws/" +:+ sample_filename) sample_file = Ok m ∧
       filename m = "/data/ws/" +:+ sample_filename ∧
       filename_short m = sample_filename.
Proof.
  assert (H : PTA_init float_of_int_literal ("/data/ws/" +:+ sample_filename) sample_file
    = Ok (MkPTA ("/data/ws/" +:+ sample_filename) sample_filename
            (Datetime 2023 2 27 23 57 0) "230227235700" (Some 12345)
            ["RTBT_Diag:WS20"; "RTBT_Diag:WS24"]
            (list_to_map [("RTBT_Diag:WS20", sample_profile);
                          ("RTBT_Diag:WS24", sample_profile)])))
    by (vm_compute; reflexivity).
  eexists. split; [exact H|].
  destruct (filename_short_basename float_of_int_literal _ _ _ H) as (Hfn & _ & Hshort).
  split; [exact Hfn|].
  apply (Hshort "/data/ws" sample_filename); reflexivity.
Defined.

Lemma read_timestamp_after_marker_witness :
  read_timestamp ("/data/WireAnalysisFmt-old/" +:+ "WireAnalysisFmt-" +:+
                  "2023.02.27_23.57.00.pta.txt")
  = read_timestamp "2023.02.27_23.57.00.pta.txt".
Proof.
  apply (read_timestamp_after_marker "/data/WireAnalysisFmt-old/"
           "2023.02.27_23.57.00.pta.txt").
  reflexivity.
Defined.

Lemma read_timestamp_underscores_witness :
  read_timestamp "WireAnalysisFmt-2023.02.27_23.57.00.pta_v2.txt"
  = Raise (ValueError_too_many 2) ∧
  read_timestamp "WireAnalysisFmt-2023.02.27.pta.txt"
  = Raise (ValueError_not_enough 2 1).
Proof.
  split.
  - apply (read_timestamp_underscores "WireAnalysisFmt-2023.02.27_23.57.00.pta_v2.txt"
             "2023.02.27_23.57.00.pta_v2.txt"); [reflexivity | discriminate].
  - apply (read_timestamp_underscores "WireAnalysisFmt-2023.02.27.pta.txt"
             "2023.02.27.pta.txt"); [reflexivity | discriminate].
Defined.

Lemma read_timestamp_valid_witness :
  read_timestamp sample_filename = Ok (Datetime 2023 2 27 23 57 0, "230227235700") ∧
  String.length "230227235700" = 12%nat ∧
  "230227235700"
  = Str.format_02_0f (2023 mod 100) +:+ Str.format_02_0f 2 +:+ Str.format_02_0f 27 +:+
    Str.format_02_0f 23 +:+ Str.format_02_0f 57 +:+ Str.format_02_0f 0.
Proof.
  assert (H : read_timestamp sample_filename
              = Ok (Datetime 2023 2 27 23 57 0, "230227235700"))
    by (vm_compute; reflexivity).
  split; [exact H|].
  apply (proj2 (proj2 (read_timestamp_valid _ _ _ H))). simpl. lia.
Defined.

Lemma trailing_space_ignored_witness :
  stripped sample_file
  = stripped (["Wire analysis  "; "RTBT_Diag:WS24"] ++ sample_block ++
              ["PVLoggerID=12345	"; "RTBT_Diag:WS20"] ++ sample_block) ∧
  PTA_init float_of_int_literal sample_filename
    (["Wire analysis  "; "RTBT_Diag:WS24"] ++ sample_block ++
     ["PVLoggerID=12345	"; "RTBT_Diag:WS20"] ++ sample_block)
  = PTA_init float_of_int_literal sample_filename sample_file.
Proof.
  assert (H : stripped sample_file
    = stripped (["Wire analysis  "; "RTBT_Diag:WS24"] ++ sample_block ++
                ["PVLoggerID=12345	"; "RTBT_Diag:WS20"] ++ sample_block))
    by reflexivity.
  split; [exact H|]. symmetry.
  exact (trailing_space_ignored float_of_int_literal sample_filename _ _ H).
Defined.

Lemma leading_lines_ignored_witness :
  PTA_init float_of_int_literal sample_filename
    (file_of ["Wire scanner data"; ""; "2023.02.27"] ++ sample_file)
  = PTA_init float_of_int_literal sample_filename sample_file.
Proof.
  apply (leading_lines_ignored float_of_int_literal sample_filename
           (file_of ["Wire scanner data"; ""; "2023.02.27"]) sample_file).
  repeat constructor.
Defined.

Lemma logger_line_error_witness :
  PTA_init float_of_int_literal sample_filename
    (file_of ["Wire analysis"; "PVLoggerID 12345"; "RTBT_Diag:WS20"])
  = Raise IndexError ∧
  PTA_init float_of_int_literal sample_filename
    (file_of ["RTBT_Diag:WS20"; "Stats"; "PVLoggerID=12a"; "-----"])
  = Raise (ValueError_int "12a").
Proof.
  assert (Hts : read_timestamp sample_filename
                = Ok (Datetime 2023 2 27 23 57 0, "230227235700"))
    by (vm_compute; reflexivity).
  split.
  - apply (logger_line_error float_of_int_literal sample_filename
             (file_of ["Wire analysis"; "PVLoggerID 12345"; "RTBT_Diag:WS20"])
             (file_of ["Wire analysis"]) ("PVLoggerID 12345" +:+ newline)
             (file_of ["RTBT_Diag:WS20"]) IndexError _ Hts).
    + reflexivity.
    + exists (CollectState ∅ None None). reflexivity.
    + reflexivity.
    + reflexivity.
  - apply (logger_line_error float_of_int_literal sample_filename
             (file_of ["RTBT_Diag:WS20"; "Stats"; "PVLoggerID=12a"; "-----"])
             (file_of ["RTBT_Diag:WS20"; "Stats"]) ("PVLoggerID=12a" +:+ newline)
             (file_of ["-----"]) (ValueError_int "12a") _ Hts).
    + reflexivity.
    + exists (CollectState {["RTBT_Diag:WS20" := ["Stats"]]}
                (Some "RTBT_Diag:WS20") None).
      vm_compute; reflexivity.
    + reflexivity.
    + reflexivity.
Defined.


Lemma first_failing_scanner_witness :
  read_node float_of_int_literal (lines_after "RTBT_Diag:WS24" None failing_file)
  = Raise (ValueError_float "abc") ∧
  read_node float_of_int_literal (lines_after "RTBT_Diag:WS21" None failing_file)
  = Raise (ValueError_not_enough 6 5) ∧
  read_node float_of_int_literal (lines_after "RTBT_Diag:WS20" None failing_file)
  = Ok sample_profile ∧
  PTA_init float_of_int_literal sample_filename failing_file
  = Raise (ValueError_not_enough 6 5).
Proof.
  assert (H24 : read_node float_of_int_literal
                  (lines_after "RTBT_Diag:WS24" None failing_file)
                = Raise (ValueError_float "abc")) by (vm_compute; reflexivity).
  assert (H21 : read_node float_of_int_literal
                  (lines_after "RTBT_Diag:WS21" None failing_file)
                = Raise (ValueError_not_enough 6 5)) by (vm_compute; reflexivity).
  assert (H20 : read_node float_of_int_literal
                  (lines_after "RTBT_Diag:WS20" None failing_file)
                = Ok sample_profile) by (vm_compute; reflexivity).
  split; [exact H24|]. split; [exact H21|]. split; [exact H20|].
  assert (Hts : read_timestamp sample_filename
                = Ok (Datetime 2023 2 27 23 57 0, "230227235700"))
    by (vm_compute; reflexivity).
  assert (∃ st, collect failing_file = Ok st) as [st Hst]
    by (eexists; vm_compute; reflexivity).
  apply (first_failing_scanner float_of_int_literal sample_filename failing_file _ st
           "RTBT_Diag:WS21" (lines_after "RTBT_Diag:WS21" None failing_file) _
           Hts Hst).
  - apply (collect_lines_Some _ _ _ _ Hst). split; [reflexivity|].
    vm_compute. discriminate.
  - exact H21.
  - intros id' node_lines' Hlines Hle Hne.
    apply (collect_lines_Some _ _ _ _ Hst) in Hlines as [-> Hnonempty].
    apply lines_after_marker in Hnonempty.
    assert (Hmarkers : marker_lines failing_file
                       = ["RTBT_Diag:WS24"; "RTBT_Diag:WS21"; "RTBT_Diag:WS20"])
      by (vm_compute; reflexivity).
    rewrite Hmarkers in Hnonempty.
    apply elem_of_cons in Hnonempty as [->|Hnonempty].
    { exfalso. revert Hle. apply (bool_decide_unpack _). vm_compute; reflexivity. }
    apply elem_of_cons in Hnonempty as [Heq|Hnonempty]; [destruct (Hne Heq)|].
    apply list_elem_of_singleton in Hnonempty as ->.
    exists sample_profile. exact H20.
Defined.

Lemma same_lines_same_object_witness :
  PTA_init float_of_int_literal sample_filename swapped_file
  = PTA_init float_of_int_literal sample_filename sample_file.
Proof.
  assert (∃ st, collect swapped_file = Ok st) as [st1 H1]
    by (eexists; vm_compute; reflexivity).
  assert (∃ st, collect sample_file = Ok st) as [st2 H2]
    by (eexists; vm_compute; reflexivity).
  apply (same_lines_same_object float_of_int_literal sample_filename _ _ st1 st2 H1 H2).
  - intros id.
    destruct (decide (id = "RTBT_Diag:WS24")) as [->|H24]; [vm_compute; reflexivity|].
    destruct (decide (id = "RTBT_Diag:WS20")) as [->|H20]; [vm_compute; reflexivity|].
    assert (Hsample : marker_lines sample_file = ["RTBT_Diag:WS24"; "RTBT_Diag:WS20"])
      by (vm_compute; reflexivity).
    assert (Hswapped : marker_lines swapped_file = ["RTBT_Diag:WS20"; "RTBT_Diag:WS24"])
      by (vm_compute; reflexivity).
    rewrite !lines_after_no_marker; [reflexivity|rewrite Hsample|rewrite Hswapped].
    + intros Hin. apply elem_of_cons in Hin as [Heq|Hin]; [exact (H24 Heq)|].
      apply elem_of_cons in Hin as [Heq|Hin]; [exact (H20 Heq)|].
      exact (not_elem_of_nil _ Hin).
    + intros Hin. apply elem_of_cons in Hin as [Heq|Hin]; [exact (H20 Heq)|].
      apply elem_of_cons in Hin as [Heq|Hin]; [exact (H24 Heq)|].
      exact (not_elem_of_nil _ Hin).
  - vm_compute; reflexivity.
Defined.

Lemma script_result_witness :
  script float_of_int_literal sample_file = Ok (p_stats sample_profile) ∧
  script float_of_int_literal one_scanner_file = Raise (KeyError "RTBT_Diag:WS24") ∧
  script float_of_int_literal five_values_file = Raise (ValueError_not_enough 6 5).
Proof.
  split; [|split].
  - assert (∃ m, PTA_init float_of_int_literal sample_filename sample_file = Ok m)
      as [m Hm] by (eexists; vm_compute; reflexivity).
    destruct (proj2 (proj2 (script_result float_of_int_literal sample_file)) m Hm)
      as (p & Hp & _ & Hscript); [discriminate|].
    assert (Hsample : read_node float_of_int_literal
                        (lines_after "RTBT_Diag:WS24" None sample_file)
                      = Ok sample_profile) by (vm_compute; reflexivity).
    rewrite Hsample in Hp. injection Hp as <-. exact Hscript.
  - assert (∃ m, PTA_init float_of_int_literal sample_filename one_scanner_file = Ok m)
      as [m Hm] by (eexists; vm_compute; reflexivity).
    exact (proj1 (proj2 (script_result float_of_int_literal one_scanner_file))
             m Hm eq_refl).
  - apply (proj1 (script_result float_of_int_literal five_values_file)).
    vm_compute; reflexivity.
Defined.


(** * A logger-ID line among the lines of a scanner *)

Section LoggerLine.
Context {float : Type} (to_float : string → option float).
Implicit Types (file : list string) (m : @PTA float) (id line : string).

(** The values of a row of the raw or fit section in the arrays of the
    profile. *)
Lemma read_node_row node_lines p sections (k i : nat) lines line :
  read_node to_float node_lines = Ok p →
  split node_lines "" = Ok sections →
  k = 1%nat ∨ k = 2%nat →
  sections !! k = Some lines → drop 2 lines !! i = Some line →
  ∃ pos v1 v2 v3 v4 v5 v6 more,
    string_to_list to_float line
    = Ok (pos :: v1 :: v2 :: v3 :: v4 :: v5 :: v6 :: more) ∧
    (k = 1%nat →
     p_fy p !! i = Some v1 ∧ p_fu p !! i = Some v2 ∧ p_fx p !! i = Some v3) ∧
    (k = 2%nat →
     p_fy_fit p !! i = Some v1 ∧ p_fu_fit p !! i = Some v2 ∧
     p_fx_fit p !! i = Some v3 ∧
     p_x p !! i = Some v4 ∧ p_y p !! i = Some v5 ∧ p_u p !! i = Some v6).
Proof.
  intros H Hsplit Hk Hsec Hline.
  apply read_node_Ok in H as (sections' & s1 & s2 & s3 & Hsplit' & Hthree & H).
  rewrite Hsplit in Hsplit'. injection Hsplit' as <-.
  destruct sections as [|a1 [|a2 [|a3 extra]]]; simplify_eq/=.
  apply read_sections_Ok in H
    as (rows & pos & fy & fu & fx & x & y & u &
        rows' & pos' & fy_fit & fu_fit & fx_fit & x' & y' & u' & stats &
        Hraw & Hcols & Hfit & Hcols' & _ & ->).
  apply transpose_seven in Hcols as [_ Hrows].
  apply transpose_seven in Hcols' as [_ Hrows'].
  destruct Hk as [-> | ->]; simpl in Hsec; injection Hsec as <-.
  - destruct (traverse_rows _ _ _ _ _ Hraw Hline) as (row & Hrow & Hi).
    destruct (Hrows i row Hi)
      as (v0 & v1 & v2 & v3 & v4 & v5 & v6 & more & -> & ? & ? & ? & ? & ? & ? & ?).
    exists v0, v1, v2, v3, v4, v5, v6, more. simpl. by repeat split.
  - destruct (traverse_rows _ _ _ _ _ Hfit Hline) as (row & Hrow & Hi).
    destruct (Hrows' i row Hi)
      as (v0 & v1 & v2 & v3 & v4 & v5 & v6 & more & -> & ? & ? & ? & ? & ? & ? & ?).
    exists v0, v1, v2, v3, v4, v5, v6, more. simpl. by repeat split.
Qed.

(** The keys that a line of the stats section gives the stats dict. *)
Lemma read_node_stats_line node_lines p sections lines_stats line name suffix :
  read_node to_float node_lines = Ok p →
  split node_lines "" = Ok sections →
  sections !! 0%nat = Some lines_stats → line ∈ drop 2 lines_stats →
  head (Str.words line) = Some name → suffix ∈ stat_suffixes →
  is_Some (p_stats p !! (Str.lower name +:+ suffix)).
Proof.
  intros H Hsplit Hsec Hline Hname Hsuffix.
  apply read_node_Ok in H as (sections' & s1 & s2 & s3 & Hsplit' & Hthree & H).
  rewrite Hsplit in Hsplit'. injection Hsplit' as <-.
  destruct sections as [|a1 [|a2 [|a3 extra]]]; simplify_eq/=.
  apply read_sections_Ok in H
    as (rows & pos & fy & fu & fx & x & y & u &
        rows' & pos' & fy_fit & fu_fit & fx_fit & x' & y' & u' & stats &
        _ & _ & _ & _ & Hstats & ->).
  simpl. apply (for_each_stats_keys _ _ _ _ _ Hstats). right.
  by exists line, name, suffix.
Qed.

(** C9. A logger-ID line that comes after a marker sets the logger ID
    to its value and is appended to the lines of the scanner of that
    marker; these lines, the logger-ID line among them, are what a
    successful construction has split and read for the scanner.  The line
    is read like every other line of the section it is in (after the two
    header lines of the section): as a line of the stats section its first
    token, lower-cased, names six keys of the stats dict and its other
    tokens are six values that [float] converts; as a row of the raw or fit
    section its tokens are converted by [float] and stored in the arrays of
    the profile at the index of the row; and when the line cannot be read
    so, the construction raises.  The logger ID the loop ends with, and the
    one of the object, is the one read from the last logger-ID line of the
    file. *)
Theorem logger_line_collected file st before raw rest id :
  collect file = Ok st →
  file = before ++ raw :: rest →
  is_logger_line (Str.rstrip raw) = true →
  current_scanner None before = Some id →
  (∃ st1 n,
      collect (before ++ [raw]) = Ok st1 ∧
      logger_id_of (Str.rstrip raw) = Ok n ∧ cs_pvloggerid st1 = Some n) ∧
  (∃ node_lines,
      cs_lines st !! id = Some node_lines ∧ Str.rstrip raw ∈ node_lines ∧
      ∀ fn m, PTA_init to_float fn file = Ok m →
        ∃ p, read_node to_float node_lines = Ok p ∧ profiles m !! id = Some p) ∧
  (∀ sections (k : nat) lines,
      split (lines_after id None file) "" = Ok sections →
      sections !! k = Some lines → Str.rstrip raw ∈ drop 2 lines →
      (k = 0%nat →
       ∀ fn m, PTA_init to_float fn file = Ok m →
         ∃ p name values,
           profiles m !! id = Some p ∧
           Str.words (Str.rstrip raw) = name :: values ∧
           length values = 6%nat ∧
           Forall (λ token, is_Some (to_float token)) values ∧
           ∀ suffix, suffix ∈ stat_suffixes →
             is_Some (p_stats p !! (Str.lower name +:+ suffix))) ∧
      (k = 1%nat ∨ k = 2%nat →
       ∀ fn m, PTA_init to_float fn file = Ok m →
         ∃ p (i : nat) pos v1 v2 v3 v4 v5 v6 more,
           profiles m !! id = Some p ∧
           drop 2 lines !! i = Some (Str.rstrip raw) ∧
           string_to_list to_float (Str.rstrip raw)
           = Ok (pos :: v1 :: v2 :: v3 :: v4 :: v5 :: v6 :: more) ∧
           (k = 1%nat →
            p_fy p !! i = Some v1 ∧ p_fu p !! i = Some v2 ∧ p_fx p !! i = Some v3) ∧
           (k = 2%nat →
            p_fy_fit p !! i = Some v1 ∧ p_fu_fit p !! i = Some v2 ∧
            p_fx_fit p !! i = Some v3 ∧
            p_x p !! i = Some v4 ∧ p_y p !! i = Some v5 ∧ p_u p !! i = Some v6)) ∧
      ((k = 0%nat ∧
        (length (drop 1 (Str.words (Str.rstrip raw))) ≠ 6%nat ∨
         ∃ token, token ∈ drop 1 (Str.words (Str.rstrip raw)) ∧
                  to_float token = None)) ∨
       ((k = 1%nat ∨ k = 2%nat) ∧
        ∃ token, token ∈ Str.words (Str.rstrip raw) ∧ to_float token = None) →
       ∀ fn, ∃ e, PTA_init to_float fn file = Raise e)) ∧
  (∃ last_line n,
      last (logger_lines file) = Some last_line ∧
      logger_id_of last_line = Ok n ∧ cs_pvloggerid st = Some n ∧
      ∀ fn m, PTA_init to_float fn file = Ok m → pvloggerid m = Some n).
Proof.
  intros Hst -> Hlog Hcur.
  pose proof (lines_after_elem id before raw rest
                (logger_line_not_marker _ Hlog) Hcur) as Hin.
  assert (Hne : lines_after id None (before ++ raw :: rest) ≠ []).
  { intros Heq. rewrite Heq in Hin. by inversion Hin. }
  split; [|split; [|split]].
  - unfold collect in Hst |- *. rewrite for_each_app in Hst |- *.
    apply bind_Ok in Hst as (st0 & -> & Hst). simpl in Hst |- *.
    apply bind_Ok in Hst as (st1 & Hstep & _). rewrite Hstep. simpl.
    destruct (collect_step_line _ _ _ (logger_line_not_marker _ Hlog) Hstep)
      as (_ & _ & Hpv).
    rewrite Hlog in Hpv. destruct Hpv as (n & Hn & Hpv). by exists st1, n.
  - exists (lines_after id None (before ++ raw :: rest)).
    split; [by apply (collect_lines_Some _ _ _ _ Hst)|]. split; [done|].
    intros fn m Hm. by apply (PTA_init_reads _ _ _ _ id Hm).
  - intros sections k lines Hsplit Hsec Hline.
    assert (Hread : ∀ fn m, PTA_init to_float fn (before ++ raw :: rest) = Ok m →
              ∃ p, read_node to_float (lines_after id None (before ++ raw :: rest)) = Ok p ∧
                   profiles m !! id = Some p).
    { intros fn m Hm. by apply (PTA_init_reads _ _ _ _ id Hm). }
    assert (Hstats : k = 0%nat →
              ∀ fn m, PTA_init to_float fn (before ++ raw :: rest) = Ok m →
                ∃ p name values,
                  profiles m !! id = Some p ∧
                  Str.words (Str.rstrip raw) = name :: values ∧
                  length values = 6%nat ∧
                  Forall (λ token, is_Some (to_float token)) values ∧
                  ∀ suffix, suffix ∈ stat_suffixes →
                    is_Some (p_stats p !! (Str.lower name +:+ suffix))).
    { intros -> fn m Hm. destruct (Hread fn m Hm) as (p & Hp & Hmp).
      destruct (read_node_Ok_lines _ _ _ _ Hp Hsplit) as [Hvalues _].
      destruct (Hvalues _ _ Hsec Hline) as (name & values & Hw & Hsix & Hnum).
      exists p, name, values. repeat split; try done.
      intros suffix Hsuffix.
      apply (read_node_stats_line _ _ _ _ _ _ _ Hp Hsplit Hsec Hline); [|done].
      by rewrite Hw. }
    assert (Hrows : k = 1%nat ∨ k = 2%nat →
              ∀ fn m, PTA_init to_float fn (before ++ raw :: rest) = Ok m →
                ∃ p (i : nat) pos v1 v2 v3 v4 v5 v6 more,
                  profiles m !! id = Some p ∧
                  drop 2 lines !! i = Some (Str.rstrip raw) ∧
                  string_to_list to_float (Str.rstrip raw)
                  = Ok (pos :: v1 :: v2 :: v3 :: v4 :: v5 :: v6 :: more) ∧
                  (k = 1%nat →
                   p_fy p !! i = Some v1 ∧ p_fu p !! i = Some v2 ∧
                   p_fx p !! i = Some v3) ∧
                  (k = 2%nat →
                   p_fy_fit p !! i = Some v1 ∧ p_fu_fit p !! i = Some v2 ∧
                   p_fx_fit p !! i = Some v3 ∧
                   p_x p !! i = Some v4 ∧ p_y p !! i = Some v5 ∧
                   p_u p !! i = Some v6)).
    { intros Hk fn m Hm. destruct (Hread fn m Hm) as (p & Hp & Hmp).
      apply list_elem_of_lookup in Hline as [i Hi].
      destruct (read_node_row _ _ _ _ _ _ _ Hp Hsplit Hk Hsec Hi)
        as (pos & v1 & v2 & v3 & v4 & v5 & v6 & more & Hrow & H1 & H2).
      by exists p, i, pos, v1, v2, v3, v4, v5, v6, more. }
    split; [done|]. split; [done|].
    intros Hbad fn. apply not_Ok_Raise. intros m Hm.
    destruct Hbad as [[Hk [Hlen|(token & Htoken & Hnone)]]|
                      [Hk (token & Htoken & Hnone)]].
    + destruct (Hstats Hk fn m Hm) as (p & name & values & _ & Hw & Hsix & _).
      rewrite Hw in Hlen. simpl in Hlen. by rewrite drop_0 in Hlen.
    + destruct (Hstats Hk fn m Hm) as (p & name & values & _ & Hw & _ & Hnum & _).
      rewrite Hw in Htoken. simpl in Htoken. rewrite drop_0 in Htoken.
      rewrite Forall_forall in Hnum. destruct (Hnum _ Htoken) as [v Hv]. congruence.
    + destruct (Hrows Hk fn m Hm)
        as (p & i & pos & v1 & v2 & v3 & v4 & v5 & v6 & more & _ & _ & Hrow & _).
      apply string_to_list_Ok_tokens in Hrow. rewrite Forall_forall in Hrow.
      destruct (Hrow _ Htoken) as [v Hv]. congruence.
  - destruct (collect_Ok _ _ Hst) as (_ & _ & Hpv).
    destruct (last (logger_lines (before ++ raw :: rest))) as [last_line|] eqn:Hlast.
    + destruct Hpv as (n & Hn & Hpv). exists last_line, n.
      repeat split; try done.
      intros fn m Hm.
      destruct (PTA_init_profiles _ _ _ _ Hm) as (st' & Hst' & -> & _).
      rewrite Hst in Hst'. by injection Hst' as <-.
    + apply last_None in Hlast.
      assert (Hlogger : Str.rstrip raw ∈ logger_lines (before ++ raw :: rest)).
      { unfold logger_lines, stripped. apply list_elem_of_filter. split; [done|].
        apply list_elem_of_fmap. exists raw. split; [done|].
        apply elem_of_app. right. by left. }
      rewrite Hlast in Hlogger. by inversion Hlogger.
Qed.
End LoggerLine.

Lemma logger_line_collected_witness :
  (∃ m p,
      PTA_init float_of_int_literal sample_filename logger_stats_file = Ok m ∧
      profiles m !! "RTBT_Diag:WS20" = Some p ∧
      logger_id_of "PVLoggerID=7=x 1 2 3 4 5 6" = Ok 7 ∧
      is_Some (p_stats p !! "pvloggerid=7=x_x_rms") ∧
      is_Some (p_stats p !! "pvloggerid=7=x_u_fit") ∧
      last (logger_lines logger_stats_file) = Some "PVLoggerID=12345" ∧
      pvloggerid m = Some 12345) ∧
  float_of_int_literal "PVLoggerID=12345" = None ∧
  ∃ e, PTA_init float_of_int_literal sample_filename logger_in_rows_file = Raise e.
Proof.
  split; [|split; [vm_compute; reflexivity|]].
  - assert (∃ st, collect logger_stats_file = Ok st) as [st Hst]
      by (eexists; vm_compute; reflexivity).
    assert (∃ m, PTA_init float_of_int_literal sample_filename logger_stats_file = Ok m)
      as [m Hm] by (eexists; vm_compute; reflexivity).
    destruct (logger_line_collected float_of_int_literal logger_stats_file st
                (file_of ["RTBT_Diag:WS20"; "Stats"; "-----"; "Sigma 10 20 30 40 50 60"])
                ("PVLoggerID=7=x 1 2 3 4 5 6" +:+ newline)
                (file_of [ "";
                           "Raw"; "-----"; "0 1 2 3 4 5 6"; "";
                           "Fit"; "-----"; "0 11 12 13 14 15 16"; "";
                           "PVLoggerID=12345" ])
                "RTBT_Diag:WS20" Hst
                ltac:(vm_compute; reflexivity) ltac:(vm_compute; reflexivity)
                ltac:(vm_compute; reflexivity))
      as ((st1 & n1 & _ & Hn1 & _) & _ & Hparsed & (last_line & n & Hlast & Hn & _ & Hid)).
    assert (Hsplit : split (lines_after "RTBT_Diag:WS20" None logger_stats_file) ""
      = Ok [ ["Stats"; "-----"; "Sigma 10 20 30 40 50 60"; "PVLoggerID=7=x 1 2 3 4 5 6"];
             ["Raw"; "-----"; "0 1 2 3 4 5 6"];
             ["Fit"; "-----"; "0 11 12 13 14 15 16"];
             ["PVLoggerID=12345"] ]) by (vm_compute; reflexivity).
    assert (Hline : Str.rstrip ("PVLoggerID=7=x 1 2 3 4 5 6" +:+ newline)
                    = "PVLoggerID=7=x 1 2 3 4 5 6") by (vm_compute; reflexivity).
    rewrite Hline in Hparsed, Hn1.
    destruct (Hparsed _ 0%nat
                ["Stats"; "-----"; "Sigma 10 20 30 40 50 60"; "PVLoggerID=7=x 1 2 3 4 5 6"]
                Hsplit eq_refl) as (Hstats & _ & _).
    { apply (bool_decide_unpack _). vm_compute. reflexivity. }
    destruct (Hstats eq_refl sample_filename m Hm)
      as (p & name & values & Hp & Hwords & _ & _ & Hkeys).
    assert (Hw : Str.words "PVLoggerID=7=x 1 2 3 4 5 6"
                 = ["PVLoggerID=7=x"; "1"; "2"; "3"; "4"; "5"; "6"])
      by (vm_compute; reflexivity).
    rewrite Hw in Hwords. injection Hwords as <- <-.
    assert (Hlogger : last (logger_lines logger_stats_file) = Some "PVLoggerID=12345")
      by (vm_compute; reflexivity).
    rewrite Hlogger in Hlast. injection Hlast as <-.
    assert (Hvalue : logger_id_of "PVLoggerID=12345" = Ok 12345)
      by (vm_compute; reflexivity).
    rewrite Hvalue in Hn. injection Hn as <-.
    assert (Hfirst : logger_id_of "PVLoggerID=7=x 1 2 3 4 5 6" = Ok 7)
      by (vm_compute; reflexivity).
    exists m, p. split; [exact Hm|]. split; [exact Hp|]. split; [exact Hfirst|].
    split; [|split; [|split; [exact Hlogger | exact (Hid sample_filename m Hm)]]].
    + apply (Hkeys "_x_rms"). apply (bool_decide_unpack _). vm_compute. reflexivity.
    + apply (Hkeys "_u_fit"). apply (bool_decide_unpack _). vm_compute. reflexivity.
  - assert (∃ st, collect logger_in_rows_file = Ok st) as [st Hst]
      by (eexists; vm_compute; reflexivity).
    destruct (logger_line_collected float_of_int_literal logger_in_rows_file st
                (file_of [ "RTBT_Diag:WS20";
                           "Stats"; "-----"; "Sigma 10 20 30 40 50 60"; "";
                           "Raw"; "-----"; "0 1 2 3 4 5 6" ])
                ("PVLoggerID=12345" +:+ newline)
                (file_of [ ""; "Fit"; "-----"; "0 11 12 13 14 15 16"; "" ])
                "RTBT_Diag:WS20" Hst
                ltac:(vm_compute; reflexivity) ltac:(vm_compute; reflexivity)
                ltac:(vm_compute; reflexivity))
      as (_ & _ & Hparsed & _).
    assert (Hsplit : split (lines_after "RTBT_Diag:WS20" None logger_in_rows_file) ""
      = Ok [ ["Stats"; "-----"; "Sigma 10 20 30 40 50 60"];
             ["Raw"; "-----"; "0 1 2 3 4 5 6"; "PVLoggerID=12345"];
             ["Fit"; "-----"; "0 11 12 13 14 15 16"] ]) by (vm_compute; reflexivity).
    assert (Hline : Str.rstrip ("PVLoggerID=12345" +:+ newline) = "PVLoggerID=12345")
      by (vm_compute; reflexivity).
    rewrite Hline in Hparsed.
    destruct (Hparsed _ 1%nat ["Raw"; "-----"; "0 1 2 3 4 5 6"; "PVLoggerID=12345"]
                Hsplit eq_refl) as (_ & _ & Hraise).
    { apply (bool_decide_unpack _). vm_compute. reflexivity. }
    apply Hraise. right. split; [by left|].
    exists "PVLoggerID=12345". split; [|vm_compute; reflexivity].
    apply (bool_decide_unpack _). vm_compute. reflexivity.
Defined.

(** C4 as the specification states it fails: in a file whose construction
    succeeds and in which every marker is followed by a line, the marker of
    a scanner occurs twice; the file has two marker lines and the object
    one scanner ID. *)
Lemma repeated_marker_fewer_ids :
  ∃ m, PTA_init float_of_int_literal sample_filename split_scanner_file = Ok m ∧
       every_marker_followed split_scanner_file = true ∧
       marker_lines split_scanner_file = ["RTBT_Diag:WS20"; "RTBT_Diag:WS20"] ∧
       node_ids m = ["RTBT_Diag:WS20"] ∧
       profiles m !! "RTBT_Diag:WS20" = Some sample_profile ∧
       length (node_ids m) ≠ length (marker_lines split_scanner_file).
Proof.
  eexists. split; [vm_compute; reflexivity|].
  split; [vm_compute; reflexivity|]. split; [vm_compute; reflexivity|].
  split; [vm_compute; reflexivity|]. split; [vm_compute; reflexivity|].
  vm_compute. discriminate.
Qed.
